(** * healthion-api: the XML ingestion pipeline

  A shallow embedding of the import service
  (app/services/xml_service.py), of the two upload tasks
  (app/tasks/process_upload_task.py, app/tasks/process_uploaded_task.py)
  and of the queue consumer (app/tasks/tasks.py), followed by the
  properties of the pipeline that hold of them and the ones that do not. *)

From Stdlib Require Import ZArith NArith Ascii String List Lia.
From stdpp Require Import gmap strings list pretty.

Open Scope string_scope.

(** ** Python values and exceptions *)

Module Py.

(** The exception classes the pipeline raises or catches.  [subclass]
    follows the class hierarchy of the interpreter and of the libraries:
    [decimal.InvalidOperation] derives from [ArithmeticError] only,
    pydantic's [ValidationError] and [json.JSONDecodeError] derive from
    [ValueError], [NameError] from [Exception]. *)
Inductive exn_class :=
| ValueError | TypeError | ArithmeticError | InvalidOperation
| KeyError | AttributeError | NameError | ValidationError | JSONDecodeError
| OSError | ClientError | DatabaseError | CalledProcessError
| HTTPException | Exception.

#[global] Instance exn_class_eq_dec : EqDecision exn_class.
Proof. solve_decision. Defined.

Definition parent (c : exn_class) : option exn_class :=
  match c with
  | Exception => None
  | InvalidOperation => Some ArithmeticError
  | ValidationError | JSONDecodeError => Some ValueError
  | _ => Some Exception
  end.

(** [issubclass c d], by walking the (at most three) ancestors of [c]. *)
Definition subclass (c d : exn_class) : bool :=
  bool_decide (c = d)
  || match parent c with
     | None => false
     | Some p =>
         bool_decide (p = d)
         || match parent p with
            | None => false
            | Some q => bool_decide (q = d)
            end
     end.

Record exn := mk_exn { exn_cls : exn_class; exn_msg : string }.

#[global] Instance exn_eq_dec : EqDecision exn.
Proof. solve_decision. Defined.

(** [except (c1, c2, ...)]: does the clause catch [e]? *)
Definition caught_by (cs : list exn_class) (e : exn) : bool :=
  existsb (subclass (exn_cls e)) cs.

(** The outcome of evaluating an expression: a value or a raised
    exception. *)
Inductive result (A : Type) :=
| Ok (a : A)
| Raise (e : exn).
Arguments Ok {A} a.
Arguments Raise {A} e.

Definition is_ok {A} (r : result A) : bool :=
  match r with Ok _ => true | Raise _ => false end.

Definition rbind {A B} (r : result A) (k : A → result B) : result B :=
  match r with Ok a => k a | Raise e => Raise e end.

(** A float, as far as the pipeline observes one: whether it compares
    equal to [0.0], and its [str] form.  [FNum r] is a finite float other
    than zero, carried by its [str] form [r] (["72.5"], ["1e-07"]). *)
Inductive pyfloat :=
| FZero (negative : bool)
| FNaN
| FInf (negative : bool)
| FNum (repr : string).

(** The loosely-typed scalars found in the cells of a DataFrame row. *)
Inductive value :=
| VNone
| VBool (b : bool)
| VInt (z : Z)
| VFloat (f : pyfloat)
| VStr (s : string).

#[global] Instance pyfloat_eq_dec : EqDecision pyfloat.
Proof. solve_decision. Defined.
#[global] Instance value_eq_dec : EqDecision value.
Proof. solve_decision. Defined.

(** [isinstance(value, float) and value == 0.0] *)
Definition is_float_zero (v : value) : bool :=
  match v with
  | VFloat (FZero _) => true
  | _ => false
  end.

Definition str_float (f : pyfloat) : string :=
  match f with
  | FZero false => "0.0"
  | FZero true => "-0.0"
  | FNaN => "nan"
  | FInf false => "inf"
  | FInf true => "-inf"
  | FNum r => r
  end.

(** [str(value)] *)
Definition str (v : value) : string :=
  match v with
  | VNone => "None"
  | VBool true => "True"
  | VBool false => "False"
  | VInt z => pretty z
  | VFloat f => str_float f
  | VStr s => s
  end.

(** [s[:n]] *)
Fixpoint slice_to (n : nat) (s : string) : string :=
  match n, s with
  | O, _ => ""
  | S _, EmptyString => ""
  | S n', String c s' => String c (slice_to n' s')
  end.

(** [s.split(sep)] for a one-character separator: the pieces, never an
    empty list. *)
Fixpoint split_on (sep : ascii) (s : string) : list string :=
  match s with
  | EmptyString => [""]
  | String c s' =>
      if Ascii.eqb c sep then "" :: split_on sep s'
      else match split_on sep s' with
           | [] => [String c ""]
           | p :: ps => String c p :: ps
           end
  end.

(** [s.split(sep)[0]] and [s.split(sep)[-1]] *)
Definition first_segment (sep : ascii) (s : string) : string :=
  List.hd "" (split_on sep s).
Definition last_segment (sep : ascii) (s : string) : string :=
  List.last (split_on sep s) "".

(** [s.replace(old, new)] for a non-empty [old]: every occurrence, left
    to right, without overlap.  [fuel] bounds the scan by the length of
    [s]. *)
Fixpoint replace_go (fuel : nat) (old new s : string) : string :=
  match fuel with
  | O => s
  | S fuel' =>
      match s with
      | EmptyString => ""
      | String c s' =>
          if String.prefix old s
          then new +:+ replace_go fuel' old new
                         (String.substring (String.length old)
                            (String.length s - String.length old) s)
          else String c (replace_go fuel' old new s')
      end
  end.

Definition replace (old new s : string) : string :=
  replace_go (S (String.length s)) old new s.

End Py.

Export Py.

(** ** The [decimal.Decimal] constructor on strings *)

Module PyDecimal.

(** A decimal value, as [Decimal.as_tuple()] shows it: sign, coefficient
    and exponent for a finite number; infinities; quiet and signalling
    NaNs with their diagnostic payload. *)
Inductive Decimal :=
| Finite (sign : bool) (coefficient : N) (exponent : Z)
| Infinity (sign : bool)
| NaN (sign : bool) (signalling : bool) (payload : N).

#[global] Instance Decimal_eq_dec : EqDecision Decimal.
Proof. solve_decision. Defined.

(** Code points below 256 for which [str.isspace] holds. *)
Definition is_space (c : ascii) : bool :=
  let n := N_of_ascii c in
  ((9 <=? n) && (n <=? 13) || (28 <=? n) && (n <=? 32)
   || (n =? 133) || (n =? 160))%N.

Definition is_digit (c : ascii) : bool :=
  let n := N_of_ascii c in ((48 <=? n) && (n <=? 57))%N.

Definition lower (c : ascii) : ascii :=
  let n := N_of_ascii c in
  if ((65 <=? n) && (n <=? 90))%N then ascii_of_N (n + 32) else c.

Fixpoint drop_spaces (l : list ascii) : list ascii :=
  match l with
  | c :: l' => if is_space c then drop_spaces l' else l
  | [] => []
  end.

(** [s.strip()] *)
Definition strip (l : list ascii) : list ascii :=
  rev (drop_spaces (rev (drop_spaces l))).

(** The longest prefix of digits and what follows it. *)
Fixpoint span_digits (l : list ascii) : list ascii * list ascii :=
  match l with
  | c :: l' =>
      if is_digit c
      then let '(ds, rest) := span_digits l' in (c :: ds, rest)
      else ([], l)
  | [] => ([], [])
  end.

Definition digits_to_N (ds : list ascii) : N :=
  fold_left (fun acc c => (10 * acc + (N_of_ascii c - 48))%N) ds 0%N.

(** [[-+]?\d+] up to the end of the input: a sign, then one digit or
    more, all of which make up the exponent. *)
Definition parse_exponent (l : list ascii) : option Z :=
  let '(neg, l1) :=
    match l with
    | "-"%char :: r => (true, r)
    | "+"%char :: r => (false, r)
    | _ => (false, l)
    end in
  match span_digits l1 with
  | ([], _) => None
  | (ds, []) =>
      let e := Z.of_N (digits_to_N ds) in
      Some (if neg then (- e)%Z else e)
  | (_, _ :: _) => None
  end.

(** A number with at least one digit: an integer part, an optional
    fraction, an optional exponent. *)
Definition parse_number (l : list ascii) : option (N * Z) :=
  let '(ip, r1) := span_digits l in
  let '(fp, r2) :=
    match r1 with
    | "."%char :: r => span_digits r
    | _ => ([], r1)
    end in
  match (ip ++ fp)%list with
  | [] => None
  | ds =>
      let coeff := digits_to_N ds in
      let scale := Z.of_nat (length fp) in
      match r2 with
      | [] => Some (coeff, (- scale)%Z)
      | "e"%char :: r3 =>
          match parse_exponent r3 with
          | Some e => Some (coeff, (e - scale)%Z)
          | None => None
          end
      | _ => None
      end
  end.

(** [NaN] or [sNaN] followed by diagnostic digits only. *)
Definition parse_nan (l : list ascii) : option (bool * N) :=
  let '(sig, l1) :=
    match l with
    | "s"%char :: r => (true, r)
    | _ => (false, l)
    end in
  match l1 with
  | "n"%char :: "a"%char :: "n"%char :: r =>
      match span_digits r with
      | (ds, []) => Some (sig, digits_to_N ds)
      | _ => None
      end
  | _ => None
  end.

Definition is_infinity (l : list ascii) : bool :=
  bool_decide (l = list_ascii_of_string "inf")
  || bool_decide (l = list_ascii_of_string "infinity").

(** The numeric-string grammar of the decimal module, matched without
    regard to case after surrounding whitespace is stripped and
    underscores are removed.  [None] is the conversion syntax error. *)
Definition parse (s : string) : option Decimal :=
  let l0 := strip (list_ascii_of_string s) in
  let l1 := List.filter (fun c => negb (Ascii.eqb c "_")) l0 in
  let l2 := List.map lower l1 in
  let '(sign, body) :=
    match l2 with
    | "-"%char :: r => (true, r)
    | "+"%char :: r => (false, r)
    | _ => (false, l2)
    end in
  match parse_number body with
  | Some (c, e) => Some (Finite sign c e)
  | None =>
      if is_infinity body then Some (Infinity sign)
      else match parse_nan body with
           | Some (sig, d) => Some (NaN sign sig d)
           | None => None
           end
  end.

(** The limits of the C implementation of the module, which CPython
    loads by default: [decimal.MAX_EMAX] and [decimal.MIN_ETINY]. *)
Definition MAX_EMAX : Z := 999999999999999999.
Definition MIN_ETINY : Z := -1999999999999999997.

(** The number of digits of a coefficient, one for zero. *)
Definition digit_count (c : N) : Z := Z.of_nat (String.length (pretty c)).

(** The constructor converts exactly or not at all: a finite number is
    kept when its exponent is [MIN_ETINY] at least and its adjusted
    exponent, [exponent + digits - 1], is [MAX_EMAX] at most, a zero
    having the exponent it is written with.  (The limit on the number
    of digits, [decimal.MAX_PREC], is beyond the length of any string
    the interpreter holds and is left out.) *)
Definition representable (d : Decimal) : bool :=
  match d with
  | Finite _ c e =>
      (MIN_ETINY <=? e)%Z
      && (if (c =? 0)%N then (e <=? MAX_EMAX)%Z
          else (e + digit_count c - 1 <=? MAX_EMAX)%Z)
  | Infinity _ | NaN _ _ _ => true
  end.

(** [Decimal(s)] for a string [s]: a string outside the grammar raises
    [decimal.InvalidOperation] as a conversion syntax error, a number
    beyond the limits raises it as an inexact conversion. *)
Definition of_str (s : string) : result Decimal :=
  match parse s with
  | Some d =>
      if representable d then Ok d
      else Raise (mk_exn InvalidOperation
                    "[<class 'decimal.InvalidOperation'>]")
  | None =>
      Raise (mk_exn InvalidOperation "[<class 'decimal.ConversionSyntax'>]")
  end.

(** Numeric equality of finite decimals, as [==] decides it: the values
    [(-1)^sign * coefficient * 10^exponent] coincide. *)
Definition finite_value_eq (c1 : N) (e1 : Z) (c2 : N) (e2 : Z) : Prop :=
  let m := Z.min e1 e2 in
  (Z.of_N c1 * 10 ^ (e1 - m) = Z.of_N c2 * 10 ^ (e2 - m))%Z.

(** Two decimals denote the same number: equal as written, or finite
    with equal value, a zero of either sign being one number. *)
Definition same_number (d1 d2 : Decimal) : Prop :=
  d1 = d2
  ∨ match d1, d2 with
    | Finite s1 c1 e1, Finite s2 c2 e2 =>
        finite_value_eq c1 e1 c2 e2 ∧ (s1 = s2 ∨ (c1 = 0%N ∧ c2 = 0%N))
    | _, _ => False
    end.

End PyDecimal.

Export PyDecimal.

(** ** Stateful computations that return or raise *)

Module Mon.

(** A computation over a state [S]: the state it leaves and what it
    returns or raises.  A raise keeps the state reached so far, as the
    effects of a Python statement that raised are not undone. *)
Definition M (S A : Type) : Type := S → S * result A.

Definition ret {S A} (a : A) : M S A := fun st => (st, Ok a).
Definition raise {S A} (e : exn) : M S A := fun st => (st, Raise e).
Definition lift {S A} (r : result A) : M S A := fun st => (st, r).
Definition bind {S A B} (c : M S A) (k : A → M S B) : M S B :=
  fun st =>
    match c st with
    | (st', Ok a) => k a st'
    | (st', Raise e) => (st', Raise e)
    end.
Definition modify {S} (f : S → S) : M S unit := fun st => (f st, Ok tt).

(** [try: body except (cs) as e: handler(e)] *)
Definition try_except {S A} (body : M S A) (cs : list exn_class)
    (handler : exn → M S A) : M S A :=
  fun st =>
    match body st with
    | (st', Ok a) => (st', Ok a)
    | (st', Raise e) =>
        if caught_by cs e then handler e st' else (st', Raise e)
    end.

End Mon.

Export Mon.

Notation "x <- c ;; k" := (bind c (fun x => k))
  (at level 100, c at next level, right associativity).
Notation "c ;;; k" := (bind c (fun _ => k))
  (at level 100, right associativity).

#[global] Instance result_ret : MRet result := fun A => @Ok A.
#[global] Instance result_bind : MBind result :=
  fun A B f r => rbind r f.
#[global] Instance result_fmap : FMap result :=
  fun A B f r => rbind r (fun a => Ok (f a)).

(** ** DataFrames, entities and the collaborators of the service *)

Module Frame.

Abbreviation row := (gmap string value).

(** A chunk produced by the parser: its column index and its rows, each
    row a mapping from column name to cell. *)
Record DataFrame := mk_df { columns : list string; rows : list row }.

(** [df.empty]: one of the two axes has length zero. *)
Definition empty (df : DataFrame) : bool :=
  match columns df, rows df with
  | [], _ => true
  | _, [] => true
  | _, _ => false
  end.

(** [row.get(key, default)] *)
Definition get (r : row) (key : string) (dflt : value) : value :=
  default dflt (r !! key).

(** [key in df.columns] *)
Definition has_column (df : DataFrame) (key : string) : bool :=
  bool_decide (key ∈ columns df).

End Frame.

Module Schemas.

(** What [pd.to_datetime] returns: a timestamp (seconds since the
    epoch), [NaT], or [None] for a [None] argument. *)
Inductive pd_datetime :=
| Timestamp (t : Z)
| NaT
| NoTime.

(** app/schemas/xml.py.  The three creation schemas, over the type [D]
    of their date fields: [pd_datetime] in the keyword arguments the
    service assembles, [Z] in the validated model. *)
Record RecordCreate (D : Type) := mk_record {
  r_user_id : string;
  r_type : string;
  r_sourceVersion : string;
  r_sourceName : string;
  r_deviceId : string;
  r_startDate : D;
  r_endDate : D;
  r_creationDate : D;
  r_unit : string;
  r_value : option Decimal }.

Record XMLWorkoutCreate (D : Type) := mk_workout {
  w_user_id : string;
  w_type : string;
  w_duration : option Decimal;
  w_durationUnit : string;
  w_sourceName : string;
  w_startDate : D;
  w_endDate : D;
  w_creationDate : D }.

Record WorkoutStatisticCreate (D : Type) := mk_statistic {
  s_user_id : string;
  s_type : string;
  s_startDate : D;
  s_endDate : D;
  s_creationDate : D;
  s_sum : option Decimal;
  s_average : option Decimal;
  s_maximum : option Decimal;
  s_minimum : option Decimal;
  s_unit : string }.

Arguments mk_record {D}.
Arguments r_user_id {D}.
Arguments r_type {D}.
Arguments r_sourceVersion {D}.
Arguments r_sourceName {D}.
Arguments r_deviceId {D}.
Arguments r_startDate {D}.
Arguments r_endDate {D}.
Arguments r_creationDate {D}.
Arguments r_unit {D}.
Arguments r_value {D}.
Arguments mk_workout {D}.
Arguments w_user_id {D}.
Arguments w_type {D}.
Arguments w_duration {D}.
Arguments w_durationUnit {D}.
Arguments w_sourceName {D}.
Arguments w_startDate {D}.
Arguments w_endDate {D}.
Arguments w_creationDate {D}.
Arguments mk_statistic {D}.
Arguments s_user_id {D}.
Arguments s_type {D}.
Arguments s_startDate {D}.
Arguments s_endDate {D}.
Arguments s_creationDate {D}.
Arguments s_sum {D}.
Arguments s_average {D}.
Arguments s_maximum {D}.
Arguments s_minimum {D}.
Arguments s_unit {D}.

(** A row of the relational store. *)
Inductive entity :=
| ERecord (r : RecordCreate Z)
| EWorkout (w : XMLWorkoutCreate Z)
| EStatistic (s : WorkoutStatisticCreate Z).

(** The library and repository functions the service calls and the
    repository sources do not define.  Every property below that is stated
    over an arbitrary [Collaborators] holds whatever they do. *)
Class Collaborators := {
  (** [uuid.UUID(user_id)]: the identifier, or [ValueError]. *)
  UUID : string → result string;
  (** [pd.to_datetime(cell)] *)
  to_datetime : value → result pd_datetime;
  (** pydantic's validation of a [datetime] field given a pandas value *)
  datetime_field : pd_datetime → result Z;
  (** pydantic's validation of a [datetime] field given a raw cell *)
  datetime_of_cell : value → result Z;
  (** pydantic's validation of a [Decimal | None] field *)
  decimal_field_ok : option Decimal → bool;
  (** Modelled from the spec: the repository write (AppService.create of
      app.services, absent from the sources).  Each row is written
      individually inside the caller's transaction; the store may reject
      it. *)
  db_accepts : entity → bool }.

Definition validation_error (field : string) : exn :=
  mk_exn ValidationError ("1 validation error: " +:+ field).

Definition check_decimal `{Collaborators} (field : string)
    (d : option Decimal) : result (option Decimal) :=
  if decimal_field_ok d then Ok d else Raise (validation_error field).

End Schemas.

Export Frame Schemas.

(** ** app/services/xml_service.py *)

Module XmlService.

Inductive log_entry :=
| log_error (msg : string) (r : option row)
| log_info (msg : string)
| log_debug (msg : string).

(** What a call of the service can change: the rows added to the open
    database session and the service's log. *)
Record state := mk_state { session : list entity; log : list log_entry }.

Abbreviation M := (Mon.M state).

Definition emit (l : log_entry) : M unit :=
  modify (fun st => mk_state (session st) (log st ++ [l])).

(** [XMLImportService._safe_decimal] *)
Definition _safe_decimal (v : value) : result (option Decimal) :=
  match v with
  | VNone => Ok None
  | _ =>
      if is_float_zero v then d ← of_str "0"; Ok (Some d)
      else
        match of_str (str v) with
        | Ok d => Ok (Some d)
        | Raise e =>
            if caught_by [ValueError; TypeError] e then Ok None
            else Raise e
        end
  end.

(** [XMLImportService._detect_dataframe_type] *)
Definition _detect_dataframe_type (df : DataFrame) : string :=
  if empty df then "unknown"
  else
    let cols : gset string := list_to_set (columns df) in
    if bool_decide ({["sum"; "average"; "maximum"; "minimum"]} ⊆ cols)
    then "statistic"
    else if bool_decide ("duration" ∈ cols)
            && bool_decide ("durationUnit" ∈ cols)
    then "workout"
    else if bool_decide ("value" ∈ cols) then "record"
    else "unknown".

Section Persist.
Context `{Collaborators}.

(** [record_service.create(db_session, obj)] and its two siblings. *)
Definition create (e : entity) : M unit :=
  fun st =>
    if db_accepts e
    then (mk_state (session st ++ [e]) (log st), Ok tt)
    else (st, Raise (mk_exn DatabaseError "write rejected")).

(** The dict [record_data] of [_process_records_df], entries in the
    order they are evaluated. *)
Definition record_data (user_id : string) (r : row)
    : result (RecordCreate pd_datetime) :=
  uid ← UUID user_id;
  let type := slice_to 50 (str (get r "type" (VStr ""))) in
  let sourceVersion := slice_to 100 (str (get r "sourceVersion" (VStr ""))) in
  let sourceName := slice_to 100 (str (get r "sourceName" (VStr ""))) in
  let deviceId := slice_to 100 (str (get r "device" (VStr ""))) in
  startDate ← to_datetime (get r "startDate" VNone);
  endDate ← to_datetime (get r "endDate" VNone);
  creationDate ← to_datetime (get r "creationDate" VNone);
  let unit := slice_to 10 (str (get r "unit" (VStr ""))) in
  value ← _safe_decimal (get r "value" VNone);
  Ok (mk_record uid type sourceVersion sourceName deviceId
        startDate endDate creationDate unit value).

(** The constructor [RecordCreate] applied to [record_data]. *)
Definition validate_record (d : RecordCreate pd_datetime)
    : result (RecordCreate Z) :=
  startDate ← datetime_field (r_startDate d);
  endDate ← datetime_field (r_endDate d);
  creationDate ← datetime_field (r_creationDate d);
  value ← check_decimal "value" (r_value d);
  Ok (mk_record (r_user_id d) (r_type d) (r_sourceVersion d)
        (r_sourceName d) (r_deviceId d) startDate endDate creationDate
        (r_unit d) value).

(** The dict [workout_data] of [_process_workouts_df]. *)
Definition workout_data (user_id : string) (r : row)
    : result (XMLWorkoutCreate pd_datetime) :=
  uid ← UUID user_id;
  let type := slice_to 50 (str (get r "type" (VStr "Unknown Workout"))) in
  duration ← _safe_decimal (get r "duration" VNone);
  let durationUnit := slice_to 10 (str (get r "durationUnit" (VStr ""))) in
  let sourceName := slice_to 100 (str (get r "sourceName" (VStr ""))) in
  startDate ← to_datetime (get r "startDate" VNone);
  endDate ← to_datetime (get r "endDate" VNone);
  creationDate ← to_datetime (get r "creationDate" VNone);
  Ok (mk_workout uid type duration durationUnit sourceName
        startDate endDate creationDate).

(** The constructor [XMLWorkoutCreate] applied to [workout_data]. *)
Definition validate_workout (d : XMLWorkoutCreate pd_datetime)
    : result (XMLWorkoutCreate Z) :=
  duration ← check_decimal "duration" (w_duration d);
  startDate ← datetime_field (w_startDate d);
  endDate ← datetime_field (w_endDate d);
  creationDate ← datetime_field (w_creationDate d);
  Ok (mk_workout (w_user_id d) (w_type d) duration (w_durationUnit d)
        (w_sourceName d) startDate endDate creationDate).

(** The dict [stat_data] of [_process_statistics_df]. *)
Definition stat_data (user_id : string) (r : row)
    : result (WorkoutStatisticCreate pd_datetime) :=
  uid ← UUID user_id;
  let type := slice_to 50 (str (get r "type" (VStr ""))) in
  startDate ← to_datetime (get r "startDate" VNone);
  endDate ← to_datetime (get r "endDate" VNone);
  creationDate ← to_datetime (get r "creationDate" VNone);
  sum ← _safe_decimal (get r "sum" VNone);
  average ← _safe_decimal (get r "average" VNone);
  maximum ← _safe_decimal (get r "maximum" VNone);
  minimum ← _safe_decimal (get r "minimum" VNone);
  let unit := slice_to 10 (str (get r "unit" (VStr ""))) in
  Ok (mk_statistic uid type startDate endDate creationDate
        sum average maximum minimum unit).

(** The constructor [WorkoutStatisticCreate] applied to [stat_data]. *)
Definition validate_statistic (d : WorkoutStatisticCreate pd_datetime)
    : result (WorkoutStatisticCreate Z) :=
  startDate ← datetime_field (s_startDate d);
  endDate ← datetime_field (s_endDate d);
  creationDate ← datetime_field (s_creationDate d);
  sum ← check_decimal "sum" (s_sum d);
  average ← check_decimal "average" (s_average d);
  maximum ← check_decimal "maximum" (s_maximum d);
  minimum ← check_decimal "minimum" (s_minimum d);
  Ok (mk_statistic (s_user_id d) (s_type d) startDate endDate creationDate
        sum average maximum minimum (s_unit d)).

(** The [try] block around one row: on any exception the row is logged
    and the exception raised again. *)
Definition guarded (what : string) (r : row) (body : M unit) : M unit :=
  try_except body [Exception]
    (fun e =>
       emit (log_error ("Failed to process " +:+ what +:+ " row: "
                          +:+ exn_msg e) (Some r)) ;;;
       raise e).

Definition record_row (user_id : string) (r : row) : M unit :=
  guarded "record" r
    (d <- lift (record_data user_id r) ;;
     obj <- lift (validate_record d) ;;
     create (ERecord obj)).

Definition workout_row (user_id : string) (r : row) : M unit :=
  guarded "workout" r
    (d <- lift (workout_data user_id r) ;;
     obj <- lift (validate_workout d) ;;
     create (EWorkout obj) ;;;
     emit (log_debug ("Created XMLWorkout: " +:+ w_type d))).

Definition statistic_row (user_id : string) (r : row) : M unit :=
  guarded "statistic" r
    (d <- lift (stat_data user_id r) ;;
     obj <- lift (validate_statistic d) ;;
     create (EStatistic obj)).

(** [for _, row in df.iterrows(): ...; created_count += 1] *)
Fixpoint each_row (body : row → M unit) (rs : list row)
    (created_count : nat) : M nat :=
  match rs with
  | [] => ret created_count
  | r :: rs' => body r ;;; each_row body rs' (S created_count)
  end.

(** [XMLImportService._process_records_df] *)
Definition _process_records_df (df : DataFrame) (user_id : string) : M nat :=
  if empty df || negb (has_column df "type") then ret 0
  else each_row (record_row user_id) (rows df) 0.

(** [XMLImportService._process_workouts_df] *)
Definition _process_workouts_df (df : DataFrame) (user_id : string) : M nat :=
  if empty df then ret 0
  else each_row (workout_row user_id) (rows df) 0.

(** [XMLImportService._process_statistics_df] *)
Definition _process_statistics_df (df : DataFrame) (user_id : string)
    : M nat :=
  if empty df then ret 0
  else each_row (statistic_row user_id) (rows df) 0.

(** The dict [stats] of [import_xml]. *)
Record stats := mk_stats {
  records : nat;
  workouts : nat;
  statistics : nat;
  chunks_processed : nat }.

(** Modelled from the spec: what [XMLExporter.parse_xml] (app.utils,
    absent from the sources) yields for one file.  A finite sequence of
    chunks in document order, ended, when the XML is malformed, by a
    parse error that is fatal for the file. *)
Record xml_stream := mk_stream {
  chunks : list DataFrame;
  parse_failure : option exn }.

(** The body of the [for df in self.xml_exporter.parse_xml()] loop. *)
Definition import_chunk (user_id : string) (df : DataFrame) (s : stats)
    : M stats :=
  if empty df then ret s
  else
    let df_type := _detect_dataframe_type df in
    s1 <- (if String.eqb df_type "record" then
             n <- _process_records_df df user_id ;;
             ret (mk_stats (records s + n) (workouts s) (statistics s)
                    (chunks_processed s))
           else if String.eqb df_type "workout" then
             n <- _process_workouts_df df user_id ;;
             ret (mk_stats (records s) (workouts s + n) (statistics s)
                    (chunks_processed s))
           else if String.eqb df_type "statistic" then
             n <- _process_statistics_df df user_id ;;
             ret (mk_stats (records s) (workouts s) (statistics s + n)
                    (chunks_processed s))
           else ret s) ;;
    let s2 := mk_stats (records s1) (workouts s1) (statistics s1)
                (chunks_processed s1 + 1) in
    emit (log_debug ("Processed chunk " +:+ pretty (chunks_processed s2)
                       +:+ " (type: " +:+ df_type +:+ ")")) ;;;
    ret s2.

Fixpoint import_chunks (user_id : string) (dfs : list DataFrame) (s : stats)
    : M stats :=
  match dfs with
  | [] => ret s
  | df :: dfs' => s' <- import_chunk user_id df s ;; import_chunks user_id dfs' s'
  end.

(** The loop of [import_xml] over the whole stream: the counters when the
    parser is exhausted, or the exception that ended it. *)
Definition import_stream (user_id : string) (x : xml_stream) : M stats :=
  s <- import_chunks user_id (chunks x) (mk_stats 0 0 0 0) ;;
  match parse_failure x with
  | Some e => raise e
  | None => ret s
  end.

Record UploadDataResponse := mk_response { response : string }.

Definition success_message (s : stats) : string :=
  "XML import successful. " +:+
  "Records: " +:+ pretty (records s) +:+ ", " +:+
  "Workouts: " +:+ pretty (workouts s) +:+ ", " +:+
  "Statistics: " +:+ pretty (statistics s).

(** [XMLImportService.import_xml].  The [handle_exceptions] decorator
    (app.utils.exceptions, absent from the sources) only sees what the
    body lets through, and the body's own [except Exception] lets nothing
    through. *)
Definition import_xml (user_id : string) (x : xml_stream)
    : M UploadDataResponse :=
  try_except
    (s <- import_stream user_id x ;;
     let message := success_message s in
     emit (log_info message) ;;;
     ret (mk_response message))
    [Exception]
    (fun e =>
       emit (log_error ("XML import failed: " +:+ exn_msg e) None) ;;;
       ret (mk_response ("XML import failed: " +:+ exn_msg e))).

End Persist.

End XmlService.

(** ** What the two upload tasks share *)

Module TaskCommon.

(** The part of the outside world a run can change: the files of the
    temporary directory, the committed rows of the relational store, and
    the objects uploaded to the bucket. *)
Record world := mk_world {
  files : gset string;
  store : list entity;
  objects : list (string * string) }.

(** How a step that writes a local file ends. *)
Inductive io_outcome :=
| io_ok
| io_failed (e : exn) (file_left : bool).

(** How [subprocess.run(["pg_dump", ...], check=True)] ends: exit status
    zero, a non-zero exit status with its captured stderr, or an error
    raised before the tool ran. *)
Inductive dump_outcome :=
| dump_ok
| dump_exit_nonzero (stderr : string) (file_left : bool)
| dump_not_started (e : exn).

(** What the collaborators of one run answer. *)
Record environment := mk_env {
  temp_dir : string;
  download : io_outcome;
  xml : XmlService.xml_stream;
  commit : option exn;
  pg_dump : dump_outcome;
  upload : option exn }.

(** The dict a task returns. *)
Record TaskResult := mk_result {
  bucket : string;
  input_key : string;
  output_key : option string;
  user_id : string;
  status : string;
  message : option string;
  error : option string }.

(** The world together with the two path variables the [finally] clause
    reads. *)
Record frame := mk_frame {
  world_of : world;
  temp_xml_file : option string;
  dump_file : option string }.

Abbreviation T := (Mon.M frame).

Definition set_temp_xml_file (p : string) : T unit :=
  modify (fun fr => mk_frame (world_of fr) (Some p) (dump_file fr)).
Definition set_dump_file (p : string) : T unit :=
  modify (fun fr => mk_frame (world_of fr) (temp_xml_file fr) (Some p)).

Definition with_files (f : gset string → gset string) (fr : frame) : frame :=
  mk_frame (mk_world (f (files (world_of fr))) (store (world_of fr))
              (objects (world_of fr)))
    (temp_xml_file fr) (dump_file fr).

(** [os.path.join(temp_dir, name)] for a relative [name]. *)
Definition path_join (dir name : string) : string := dir +:+ "/" +:+ name.

(** [bool(x)] for an optional string. *)
Definition truthy (x : option string) : bool :=
  match x with
  | None | Some "" => false
  | Some _ => true
  end.

(** [s3_client.download_file(bucket_name, object_key, path)] *)
Definition download_file (env : environment) (path : string) : T unit :=
  fun fr =>
    match download env with
    | io_ok => (with_files (fun fs => {[path]} ∪ fs) fr, Ok tt)
    | io_failed e file_left =>
        ((if file_left then with_files (fun fs => {[path]} ∪ fs) fr else fr),
         Raise e)
    end.

(** [_create_postgres_dump(dump_file)] *)
Definition _create_postgres_dump (env : environment) (path : string)
    : T unit :=
  try_except
    (fun fr =>
       match pg_dump env with
       | dump_ok => (with_files (fun fs => {[path]} ∪ fs) fr, Ok tt)
       | dump_exit_nonzero stderr file_left =>
           ((if file_left then with_files (fun fs => {[path]} ∪ fs) fr
             else fr),
            Raise (mk_exn CalledProcessError stderr))
       | dump_not_started e => (fr, Raise e)
       end)
    [CalledProcessError]
    (fun e => raise (mk_exn Exception ("pg_dump failed: " +:+ exn_msg e))).

(** [s3_client.upload_file(dump_file, bucket_name, output_key)] *)
Definition upload_file (env : environment) (bucket_name key : string)
    : T unit :=
  fun fr =>
    match upload env with
    | None =>
        (mk_frame (mk_world (files (world_of fr)) (store (world_of fr))
                     (objects (world_of fr) ++ [(bucket_name, key)]))
           (temp_xml_file fr) (dump_file fr), Ok tt)
    | Some e => (fr, Raise e)
    end.

(** Modelled from the spec: the session of SQLAlchemy (app.database,
    absent from the sources) as one transaction.
    [db = SessionLocal(); try: work; db.commit() except Exception as e:
    db.rollback(); raise e finally: db.close()]: the rows [work] added to
    the session reach the store on commit and are dropped on rollback. *)
Definition in_transaction {A} (env : environment) (work : XmlService.M A)
    : T A :=
  fun fr =>
    let fresh := XmlService.mk_state [] [] in
    match work fresh with
    | (st, Ok a) =>
        match commit env with
        | None =>
            (mk_frame (mk_world (files (world_of fr))
                         (store (world_of fr) ++ XmlService.session st)
                         (objects (world_of fr)))
               (temp_xml_file fr) (dump_file fr), Ok a)
        | Some e => (fr, Raise e)
        end
    | (_, Raise e) => (fr, Raise e)
    end.

(** [if path and os.path.exists(path): os.remove(path)] *)
Definition remove_if_exists (path : option string) (fs : gset string)
    : gset string :=
  match path with
  | Some p => if truthy path && bool_decide (p ∈ fs) then fs ∖ {[p]} else fs
  | None => fs
  end.

(** The [finally] clause of both tasks. *)
Definition cleanup (fr : frame) : world :=
  let fs1 := remove_if_exists (temp_xml_file fr) (files (world_of fr)) in
  let fs2 := remove_if_exists (dump_file fr) fs1 in
  mk_world fs2 (store (world_of fr)) (objects (world_of fr)).

(** [try: body except Exception as e: return failed(e) finally: cleanup]
    around the body of a task. *)
Definition run_task (body : T TaskResult) (failed : exn → TaskResult)
    (w : world) : world * result TaskResult :=
  match try_except body [Exception] (fun e => ret (failed e))
          (mk_frame w None None) with
  | (fr, r) => (cleanup fr, r)
  end.

End TaskCommon.

Export TaskCommon.

(** ** app/tasks/process_uploaded_task.py *)

Module UploadedTask.

(** The names process_uploaded_task.py binds at module level: what its
    import statements bring in and the two functions it defines. *)
Definition module_globals : list string :=
  ["os"; "subprocess"; "tempfile"; "shared_task"; "Session"; "s3_client";
   "XMLExporter"; "SessionLocal"; "settings"; "process_uploaded_xml_file";
   "_create_postgres_dump"].

(** The evaluation of a name that no local scope binds and that is not a
    builtin: the module's binding, or [NameError]. *)
Definition load_global {St} (name : string) : Mon.M St unit :=
  if bool_decide (name ∈ module_globals) then ret tt
  else raise (mk_exn NameError ("name '" +:+ name +:+ "' is not defined")).

(** What the name [response] would be bound to by the call of
    [xml_import_service.import_xml]. *)
Inductive import_value :=
| response_object (r : XmlService.UploadDataResponse)
| coroutine_object.

(** The call [xml_import_service.import_xml(db_session=db, user_id=...,
    xml_path=temp_xml_file)].  The name [xml_import_service] is evaluated
    first, and the module binds no such name.  Past it, [import_xml] is
    declared [async] and is called, from a synchronous task, without
    [await]: the call makes a coroutine object and runs none of the
    import. *)
Definition call_import_xml (user_id : string) (x : XmlService.xml_stream)
    : XmlService.M import_value :=
  load_global "xml_import_service" ;;;
  ret coroutine_object.

(** [response.response if hasattr(response, 'response') else
    str(response)] *)
Definition message_of (v : import_value) : string :=
  match v with
  | response_object r => XmlService.response r
  | coroutine_object => "<coroutine object XMLImportService.import_xml>"
  end.

(** The [try] block of [process_uploaded_xml_file], with [user_id]
    already derived. *)
Definition body (env : environment)
    (bucket_name object_key user_id : string) : T TaskResult :=
  let temp := path_join (temp_dir env)
                ("temp_import_" +:+ last_segment "/" object_key) in
  set_temp_xml_file temp ;;;
  download_file env temp ;;;
  response <- in_transaction env (call_import_xml user_id (xml env)) ;;
  let filename := last_segment "/" object_key in
  let dump := path_join (temp_dir env)
                ("export_" +:+ replace ".xml" ".sql" filename) in
  set_dump_file dump ;;;
  _create_postgres_dump env dump ;;;
  let output := user_id +:+ "/processed/"
                +:+ replace ".xml" ".sql" filename in
  upload_file env bucket_name output ;;;
  ret (mk_result bucket_name object_key (Some output) user_id "success"
         (Some (message_of response)) None).

(** [process_uploaded_xml_file(bucket_name, object_key, user_id=None)] *)
Definition process_uploaded_xml_file (env : environment)
    (bucket_name object_key : string) (user_id : option string)
    (w : world) : world * result TaskResult :=
  let uid := if truthy user_id then default "" user_id
             else first_segment "/" object_key in
  run_task (body env bucket_name object_key uid)
    (fun e => mk_result bucket_name object_key None uid "failed" None
                (Some (exn_msg e)))
    w.

End UploadedTask.

(** ** app/tasks/process_upload_task.py *)

Module UploadTask.

(** The module-level [_safe_decimal]. *)
Definition _safe_decimal (v : value) : result (option Decimal) :=
  match v with
  | VNone => Ok None
  | _ =>
      match of_str (str v) with
      | Ok d => Ok (Some d)
      | Raise e =>
          if caught_by [ValueError; TypeError] e then Ok None
          else Raise e
      end
  end.

Section Task.
Context `{Collaborators}.

Abbreviation M := XmlService.M.

(** The [try] block around one row: any exception is replaced by a
    plain [Exception] that carries its text. *)
Definition guarded (what : string) (body : M unit) : M unit :=
  try_except body [Exception]
    (fun e =>
       raise (mk_exn Exception
                ("Failed to process " +:+ what +:+ ": " +:+ exn_msg e))).

(** One row of [_process_records_df]: the dict, the schema, the write. *)
Definition record_row (user_id : string) (r : row) : M unit :=
  guarded "record"
    (let type := slice_to 50 (str (get r "type" (VStr ""))) in
     let sourceVersion :=
       slice_to 100 (str (get r "sourceVersion" (VStr ""))) in
     let sourceName := slice_to 100 (str (get r "sourceName" (VStr ""))) in
     let deviceId := slice_to 100 (str (get r "device" (VStr ""))) in
     let unit := slice_to 10 (str (get r "unit" (VStr ""))) in
     value <- lift (_safe_decimal (get r "value" VNone)) ;;
     startDate <- lift (datetime_of_cell (get r "startDate" VNone)) ;;
     endDate <- lift (datetime_of_cell (get r "endDate" VNone)) ;;
     creationDate <- lift (datetime_of_cell (get r "creationDate" VNone)) ;;
     value' <- lift (check_decimal "value" value) ;;
     XmlService.create
       (ERecord (mk_record user_id type sourceVersion sourceName deviceId
                   startDate endDate creationDate unit value'))).

(** One row of [_process_workouts_df]. *)
Definition workout_row (user_id : string) (r : row) : M unit :=
  guarded "workout"
    (let type := slice_to 50 (str (get r "type" (VStr ""))) in
     duration <- lift (_safe_decimal (get r "duration" VNone)) ;;
     let durationUnit :=
       slice_to 10 (str (get r "durationUnit" (VStr ""))) in
     let sourceName := slice_to 100 (str (get r "sourceName" (VStr ""))) in
     duration' <- lift (check_decimal "duration" duration) ;;
     startDate <- lift (datetime_of_cell (get r "startDate" VNone)) ;;
     endDate <- lift (datetime_of_cell (get r "endDate" VNone)) ;;
     creationDate <- lift (datetime_of_cell (get r "creationDate" VNone)) ;;
     XmlService.create
       (EWorkout (mk_workout user_id type duration' durationUnit sourceName
                    startDate endDate creationDate))).

(** One row of [_process_statistics_df]. *)
Definition statistic_row (user_id : string) (r : row) : M unit :=
  guarded "statistic"
    (let type := slice_to 50 (str (get r "type" (VStr ""))) in
     sum <- lift (_safe_decimal (get r "sum" VNone)) ;;
     average <- lift (_safe_decimal (get r "average" VNone)) ;;
     maximum <- lift (_safe_decimal (get r "maximum" VNone)) ;;
     minimum <- lift (_safe_decimal (get r "minimum" VNone)) ;;
     let unit := slice_to 10 (str (get r "unit" (VStr ""))) in
     startDate <- lift (datetime_of_cell (get r "startDate" VNone)) ;;
     endDate <- lift (datetime_of_cell (get r "endDate" VNone)) ;;
     creationDate <- lift (datetime_of_cell (get r "creationDate" VNone)) ;;
     sum' <- lift (check_decimal "sum" sum) ;;
     average' <- lift (check_decimal "average" average) ;;
     maximum' <- lift (check_decimal "maximum" maximum) ;;
     minimum' <- lift (check_decimal "minimum" minimum) ;;
     XmlService.create
       (EStatistic (mk_statistic user_id type startDate endDate creationDate
                      sum' average' maximum' minimum' unit))).

(** [for _, row in df.iterrows(): ...] *)
Fixpoint each_row (body : row → M unit) (rs : list row) : M unit :=
  match rs with
  | [] => ret tt
  | r :: rs' => body r ;;; each_row body rs'
  end.

Definition _process_records_df (df : DataFrame) (user_id : string) : M unit :=
  each_row (record_row user_id) (rows df).
Definition _process_workouts_df (df : DataFrame) (user_id : string)
    : M unit :=
  each_row (workout_row user_id) (rows df).
Definition _process_statistics_df (df : DataFrame) (user_id : string)
    : M unit :=
  each_row (statistic_row user_id) (rows df).

(** The body of the loop of [_import_xml_data]. *)
Definition import_chunk (user_uuid : string) (df : DataFrame) : M unit :=
  if empty df then ret tt
  else if has_column df "value" then _process_records_df df user_uuid
  else if has_column df "duration" then _process_workouts_df df user_uuid
  else if has_column df "sum" then _process_statistics_df df user_uuid
  else ret tt.

Fixpoint import_chunks (user_uuid : string) (dfs : list DataFrame) : M unit :=
  match dfs with
  | [] => ret tt
  | df :: dfs' => import_chunk user_uuid df ;;; import_chunks user_uuid dfs'
  end.

(** [_import_xml_data(db, xml_path, user_id)] *)
Definition _import_xml_data (x : XmlService.xml_stream) (user_id : string)
    : M unit :=
  user_uuid <- lift (UUID user_id) ;;
  import_chunks user_uuid (XmlService.chunks x) ;;;
  match XmlService.parse_failure x with
  | Some e => raise e
  | None => ret tt
  end.

(** The [try] block of [process_uploaded_file], with [user_id] already
    derived. *)
Definition body (env : environment)
    (bucket_name object_key user_id : string) : T TaskResult :=
  let temp := path_join (temp_dir env)
                ("temp_import_" +:+ last_segment "/" object_key) in
  set_temp_xml_file temp ;;;
  download_file env temp ;;;
  in_transaction env (_import_xml_data (xml env) user_id) ;;;
  let filename := last_segment "/" object_key in
  let dump := path_join (temp_dir env)
                ("export_" +:+ replace ".xml" ".sql" filename) in
  set_dump_file dump ;;;
  _create_postgres_dump env dump ;;;
  let output := user_id +:+ "/processed/"
                +:+ replace ".xml" ".sql" filename in
  upload_file env bucket_name output ;;;
  ret (mk_result bucket_name object_key (Some output) user_id "success"
         (Some "Import completed successfully") None).

(** [process_uploaded_file(bucket_name, object_key, user_id=None)] *)
Definition process_uploaded_file (env : environment)
    (bucket_name object_key : string) (user_id : option string)
    (w : world) : world * result TaskResult :=
  let uid := if truthy user_id then default "" user_id
             else first_segment "/" object_key in
  run_task (body env bucket_name object_key uid)
    (fun e => mk_result bucket_name object_key None uid "failed" None
                (Some (exn_msg e)))
    w.

End Task.

End UploadTask.

(** ** app/tasks/tasks.py *)

Module Tasks.

(** A decoded JSON document, as [json.loads] returns it: [JNull] is
    [None], a [JObj] a dict given by its members in order. *)
#[warnings="-register-all"]
Inductive json :=
| JNull
| JBool (b : bool)
| JNum (n : Z)
| JStr (s : string)
| JArr (items : list json)
| JObj (members : list (string * json)).

(** A message of the queue.  [Body] is what [json.loads(message['Body'])]
    returns or raises. *)
Record message := mk_message {
  Body : result json;
  ReceiptHandle : string }.

Inductive event :=
| receive_message_called
| slept (seconds : Z).

(** The queue, the task calls handed to Celery, and the sequence of
    receive calls and sleeps so far. *)
Record broker := mk_broker {
  queue : list message;
  enqueued : list (json * json);
  trace : list event }.

Abbreviation B := (Mon.M broker).

(** The value a dict holds for [key]: the last member with that key. *)
Fixpoint member (key : string) (kvs : list (string * json)) : option json :=
  match kvs with
  | [] => None
  | (k, v) :: kvs' =>
      match member key kvs' with
      | Some v' => Some v'
      | None => if String.eqb k key then Some v else None
      end
  end.

Definition is_str (key : string) (v : json) : bool :=
  match v with
  | JStr s => String.eqb s key
  | _ => false
  end.

Definition type_error (msg : string) : exn := mk_exn TypeError msg.

(** [key in container] *)
Definition contains (container : json) (key : string) : result bool :=
  match container with
  | JObj kvs => Ok (bool_decide (is_Some (member key kvs)))
  | JArr items => Ok (existsb (is_str key) items)
  | JStr s => Ok (bool_decide (is_Some (String.index 0 key s)))
  | _ => Raise (type_error "argument is not iterable")
  end.

(** [container[key]] for a string [key] *)
Definition subscript (container : json) (key : string) : result json :=
  match container with
  | JObj kvs =>
      match member key kvs with
      | Some v => Ok v
      | None => Raise (mk_exn KeyError key)
      end
  | JArr _ | JStr _ => Raise (type_error "indices must be integers")
  | _ => Raise (type_error "object is not subscriptable")
  end.

(** The keys of a dict in order, without repetition. *)
Fixpoint keys (kvs : list (string * json)) : list string :=
  match kvs with
  | [] => []
  | (k, _) :: kvs' =>
      k :: List.filter (fun k' => negb (String.eqb k' k)) (keys kvs')
  end.

Fixpoint characters (s : string) : list json :=
  match s with
  | EmptyString => []
  | String c s' => JStr (String c "") :: characters s'
  end.

(** The items [for x in v] visits. *)
Definition iterate (v : json) : result (list json) :=
  match v with
  | JArr items => Ok items
  | JObj kvs => Ok (List.map JStr (keys kvs))
  | JStr s => Ok (characters s)
  | _ => Raise (type_error "object is not iterable")
  end.

(** [record.get(key)] *)
Definition get_method (record : json) (key : string) : result json :=
  match record with
  | JObj kvs => Ok (default JNull (member key kvs))
  | _ => Raise (mk_exn AttributeError "object has no attribute 'get'")
  end.

(** [sqs.receive_message(QueueUrl=..., MaxNumberOfMessages=10,
    WaitTimeSeconds=20, ...)] followed by [response.get('Messages', [])]:
    [batch] is what the long poll answers. *)
Definition receive_message (batch : result (list message))
    : B (list message) :=
  modify (fun b => mk_broker (queue b) (enqueued b)
                     (trace b ++ [receive_message_called])) ;;;
  lift batch.

(** What the two network calls made while a message is handled answer,
    given the state of the broker at the call: the call through Celery
    behind [.delay] and [delete_message] of the queue service each go
    through or raise.  A call that raises is taken to have had no
    effect. *)
Class Services := {
  delay_raises : broker → json → json → option exn;
  delete_raises : broker → string → option exn }.

Section Handling.
Context `{Services}.

(** [process_uploaded_file.delay(bucket_name, object_key)] *)
Definition delay (bucket_name object_key : json) : B unit :=
  fun b =>
    match delay_raises b bucket_name object_key with
    | Some e => (b, Raise e)
    | None =>
        (mk_broker (queue b) (enqueued b ++ [(bucket_name, object_key)])
           (trace b), Ok tt)
    end.

(** [sqs.delete_message(QueueUrl=..., ReceiptHandle=handle)] *)
Definition delete_message (handle : string) : B unit :=
  fun b =>
    match delete_raises b handle with
    | Some e => (b, Raise e)
    | None =>
        (mk_broker
           (List.filter
              (fun m => negb (String.eqb (ReceiptHandle m) handle))
              (queue b))
           (enqueued b) (trace b), Ok tt)
    end.

(** [asyncio.sleep(seconds)] *)
Definition sleep (seconds : Z) : B unit :=
  modify (fun b => mk_broker (queue b) (enqueued b)
                     (trace b ++ [slept seconds])).

(** The body of [for record in message_body['Records']]. *)
Definition handle_record (record : json) (processed_count : nat) : B nat :=
  source <- lift (get_method record "eventSource") ;;
  if is_str "aws:s3" source then
    bucket_name <- lift (s3 ← subscript record "s3";
                         b ← subscript s3 "bucket";
                         subscript b "name") ;;
    object_key <- lift (s3 ← subscript record "s3";
                        o ← subscript s3 "object";
                        subscript o "key") ;;
    delay bucket_name object_key ;;;
    ret (processed_count + 1)
  else ret processed_count.

Fixpoint handle_records (records : list json) (processed_count : nat)
    : B nat :=
  match records with
  | [] => ret processed_count
  | r :: rs =>
      c <- handle_record r processed_count ;; handle_records rs c
  end.

(** The body of [for message in messages], its [try] included. *)
Definition handle_message (m : message) (processed_count : nat) : B nat :=
  try_except
    (message_body <- lift (Body m) ;;
     has <- lift (contains message_body "Records") ;;
     c <- (if has : bool then
             records <- lift (rs ← subscript message_body "Records";
                              iterate rs) ;;
             handle_records records processed_count
           else ret processed_count) ;;
     delete_message (ReceiptHandle m) ;;;
     ret c)
    [Exception]
    (fun e => raise e).

Fixpoint handle_messages (ms : list message) (processed_count : nat)
    : B nat :=
  match ms with
  | [] => ret processed_count
  | m :: ms' =>
      c <- handle_message m processed_count ;; handle_messages ms' c
  end.

(** The dict [poll_sqs_messages] returns. *)
Record poll_result := mk_poll_result {
  messages_processed : nat;
  total_messages : nat;
  messages : list message }.

(** [poll_sqs_messages()] *)
Definition poll_sqs_messages (batch : result (list message))
    : B poll_result :=
  try_except
    (msgs <- receive_message batch ;;
     processed_count <- handle_messages msgs 0 ;;
     ret (mk_poll_result processed_count (length msgs) msgs))
    [Exception]
    (fun e => raise (mk_exn HTTPException (exn_msg e))).

(** [for _ in range(n): await poll_sqs_messages(); await asyncio.sleep(5)];
    [k] numbers the receive calls, [batches k] is the answer to call [k]. *)
Fixpoint poll_loop (batches : nat → result (list message)) (n k : nat)
    : B unit :=
  match n with
  | O => ret tt
  | S n' =>
      poll_sqs_messages (batches k) ;;;
      sleep 5 ;;;
      poll_loop batches n' (S k)
  end.

(** The body of the coroutine [poll_sqs_task(expiration_seconds)]:
    [range(expiration_seconds // 5)] is empty for a negative bound. *)
Definition poll_sqs_task (expiration_seconds : Z)
    (batches : nat → result (list message)) : B unit :=
  poll_loop batches (Z.to_nat (expiration_seconds / 5)) 0.

End Handling.

(** The number of receive calls in a trace. *)
Definition polls (t : list event) : nat :=
  length (List.filter
            (fun e => match e with
                      | receive_message_called => true
                      | slept _ => false
                      end) t).

End Tasks.

(** ** Stand-ins for the collaborators *)

Module Reference.

Definition is_hex (c : ascii) : bool :=
  let n := N_of_ascii (lower c) in
  is_digit c || ((97 <=? n) && (n <=? 102))%N.

Fixpoint strip_braces_left (l : list ascii) : list ascii :=
  match l with
  | c :: l' =>
      if Ascii.eqb c "{" || Ascii.eqb c "}" then strip_braces_left l' else l
  | [] => []
  end.

(** [uuid.UUID(hex)] on text made of hexadecimal digits: the prefixes
    [urn:] and [uuid:], surrounding braces and hyphens are dropped, and 32
    hexadecimal digits must remain.  The identifier is returned as those
    digits in lower case. *)
Definition uuid_of (hex : string) : result string :=
  let h1 := replace "uuid:" "" (replace "urn:" "" hex) in
  let l1 := rev (strip_braces_left
                   (rev (strip_braces_left (list_ascii_of_string h1)))) in
  let l2 := List.filter (fun c => negb (Ascii.eqb c "-")) l1 in
  if negb (length l2 =? 32)%nat
  then Raise (mk_exn ValueError "badly formed hexadecimal UUID string")
  else if forallb is_hex l2
  then Ok (string_of_list_ascii (List.map lower l2))
  else Raise (mk_exn ValueError "invalid literal for int() with base 16").

Definition two_digits (a b : ascii) : option Z :=
  if is_digit a && is_digit b
  then Some (Z.of_N (digits_to_N [a; b]))
  else None.

(** Days from 1970-01-01 to the given day of the proleptic Gregorian
    calendar. *)
Definition days_from_civil (y m d : Z) : Z :=
  let y' := if (m <=? 2)%Z then (y - 1)%Z else y in
  let era := (y' / 400)%Z in
  let yoe := (y' - era * 400)%Z in
  let mp := if (m <=? 2)%Z then (m + 9)%Z else (m - 3)%Z in
  let doy := ((153 * mp + 2) / 5 + d - 1)%Z in
  let doe := (yoe * 365 + yoe / 4 - yoe / 100 + doy)%Z in
  (era * 146097 + doe - 719468)%Z.

(** A timestamp in the layout of the health export,
    [YYYY-MM-DD HH:MM:SS +HHMM], as seconds since the epoch. *)
Definition export_timestamp (s : string) : option Z :=
  match list_ascii_of_string s with
  | [y1; y2; y3; y4; "-"%char; m1; m2; "-"%char; d1; d2; " "%char;
     h1; h2; ":"%char; n1; n2; ":"%char; s1; s2; " "%char;
     sg; o1; o2; o3; o4] =>
      yh ← two_digits y1 y2; yl ← two_digits y3 y4;
      mo ← two_digits m1 m2; dd ← two_digits d1 d2;
      hh ← two_digits h1 h2; mi ← two_digits n1 n2;
      ss ← two_digits s1 s2;
      oh ← two_digits o1 o2; om ← two_digits o3 o4;
      sign ← (if Ascii.eqb sg "+" then Some 1%Z
              else if Ascii.eqb sg "-" then Some (-1)%Z else None);
      if ((1 <=? mo) && (mo <=? 12) && (1 <=? dd) && (dd <=? 31)
          && (hh <=? 23) && (mi <=? 59) && (ss <=? 59)
          && (oh <=? 23) && (om <=? 59))%Z
      then Some (days_from_civil (yh * 100 + yl) mo dd * 86400
                 + hh * 3600 + mi * 60 + ss
                 - sign * (oh * 3600 + om * 60))%Z
      else None
  | _ => None
  end.

Definition parse_error : exn :=
  mk_exn ValueError "Unknown datetime string format".

(** The collaborators on the inputs the examples use: identifiers written
    in hexadecimal digits, timestamps in the layout of the export, a
    schema that takes any decimal and refuses a missing date, a store that
    accepts every row.  Cells of another kind than these are not dates in
    the examples and are refused here. *)
Definition collaborators : Collaborators := {|
  UUID := uuid_of;
  to_datetime v :=
    match v with
    | VNone => Ok NoTime
    | VFloat FNaN => Ok NaT
    | VStr s =>
        match export_timestamp s with
        | Some t => Ok (Timestamp t)
        | None => Raise parse_error
        end
    | _ => Raise (mk_exn TypeError "not convertible to datetime")
    end;
  datetime_field d :=
    match d with
    | Timestamp t => Ok t
    | _ => Raise (validation_error "Input should be a valid datetime")
    end;
  datetime_of_cell v :=
    match v with
    | VStr s =>
        match export_timestamp s with
        | Some t => Ok t
        | None => Raise (validation_error "Input should be a valid datetime")
        end
    | _ => Raise (validation_error "Input should be a valid datetime")
    end;
  decimal_field_ok _ := true;
  db_accepts _ := true |}.

(** The user of app/api/routes/v1/test_import.py. *)
Definition TEST_USER_ID : string := "12345678-1234-1234-1234-123456789012".

End Reference.

(** ** Notions used in the statements *)

(** Two outcomes of a coercion are the same up to the way a number is
    written. *)
Definition same_outcome (r1 r2 : result (option Decimal)) : Prop :=
  match r1, r2 with
  | Ok None, Ok None => True
  | Ok (Some d1), Ok (Some d2) => same_number d1 d2
  | Raise e1, Raise e2 => e1 = e2
  | _, _ => False
  end.

(** The chunks of a stream the loop of [import_xml] does not pass over. *)
Definition non_empty (dfs : list DataFrame) : list DataFrame :=
  List.filter (fun df => negb (empty df)) dfs.

(** ** Sample data *)

Module Samples.

Import Reference.

Definition row_of (cells : list (string * value)) : row := list_to_map cells.

Definition dates : list (string * value) :=
  [("startDate", VStr "2024-01-03 08:00:00 +0100");
   ("endDate", VStr "2024-01-03 08:05:00 +0100");
   ("creationDate", VStr "2024-01-03 08:06:00 +0100")].

Definition date_columns : list string :=
  ["startDate"; "endDate"; "creationDate"].

(** A heart-rate record whose [value] attribute reads [v]. *)
Definition heart_rate (v : string) : row :=
  row_of ([("type", VStr "HKQuantityTypeIdentifierHeartRate");
           ("sourceName", VStr "Watch");
           ("sourceVersion", VStr "10.1");
           ("device", VStr "Watch6,1");
           ("unit", VStr "count/min");
           ("value", VStr v)] ++ dates).

Definition record_columns : list string :=
  ["type"; "sourceName"; "sourceVersion"; "device"; "unit"; "value"]
  ++ date_columns.

(** A chunk of two records. *)
Definition two_records : DataFrame :=
  mk_df record_columns [heart_rate "72"; heart_rate "75.5"].

(** A chunk of five records, the second of which carries text where a
    number is expected. *)
Definition five_records_second_malformed : DataFrame :=
  mk_df record_columns
    [heart_rate "80"; heart_rate "abc"; heart_rate "81"; heart_rate "82";
     heart_rate "83"].

Definition running : row :=
  row_of ([("type", VStr "HKWorkoutActivityTypeRunning");
           ("duration", VStr "31.5");
           ("durationUnit", VStr "min");
           ("sourceName", VStr "Watch")] ++ dates).

Definition one_workout : DataFrame :=
  mk_df (["type"; "duration"; "durationUnit"; "sourceName"] ++ date_columns)
    [running].

(** A chunk none of the three signatures matches. *)
Definition one_unknown : DataFrame :=
  mk_df ["type"; "name"] [row_of [("type", VStr "Me"); ("name", VStr "x")]].

(** A chunk with columns and no row. *)
Definition no_rows : DataFrame := mk_df record_columns [].

Definition mixed_cells : list (string * value) :=
  [("type", VStr "HKQuantityTypeIdentifierHeartRate");
   ("sum", VStr "300");
   ("average", VStr "75");
   ("maximum", VStr "90");
   ("minimum", VStr "60");
   ("value", VStr "75");
   ("unit", VStr "count/min")].

(** The chunk with columns [{type, sum, average, maximum, minimum, value,
    unit}]. *)
Definition mixed : DataFrame :=
  mk_df ["type"; "sum"; "average"; "maximum"; "minimum"; "value"; "unit"]
    [row_of mixed_cells].

(** The same chunk with the three date columns the schemas require. *)
Definition mixed_dated : DataFrame :=
  mk_df (["type"; "sum"; "average"; "maximum"; "minimum"; "value"; "unit"]
         ++ date_columns)
    [row_of (mixed_cells ++ dates)].

Definition fresh : XmlService.state := XmlService.mk_state [] [].

End Samples.

(** ** The entity a row becomes *)

Module Built.

Section Built.
Context `{Collaborators}.

(** The keyword arguments assembled from a row, validated by the schema:
    what [_process_records_df] and its siblings hand to the repository. *)
Definition built_record (user_id : string) (r : row)
    : result (RecordCreate Z) :=
  d ← XmlService.record_data user_id r; XmlService.validate_record d.

Definition built_workout (user_id : string) (r : row)
    : result (XMLWorkoutCreate Z) :=
  d ← XmlService.workout_data user_id r; XmlService.validate_workout d.

Definition built_statistic (user_id : string) (r : row)
    : result (WorkoutStatisticCreate Z) :=
  d ← XmlService.stat_data user_id r; XmlService.validate_statistic d.

(** The entity a row of a chunk of kind [kind] becomes. *)
Definition built (kind : string) (user_id : string) (r : row)
    : result entity :=
  if String.eqb kind "record" then ERecord <$> built_record user_id r
  else if String.eqb kind "workout" then EWorkout <$> built_workout user_id r
  else EStatistic <$> built_statistic user_id r.

End Built.

(** The string fields of an entity, by name. *)
Definition string_fields (e : entity) : list (string * string) :=
  match e with
  | ERecord o =>
      [("type", r_type o); ("sourceVersion", r_sourceVersion o);
       ("sourceName", r_sourceName o); ("deviceId", r_deviceId o);
       ("unit", r_unit o)]
  | EWorkout o =>
      [("type", w_type o); ("durationUnit", w_durationUnit o);
       ("sourceName", w_sourceName o)]
  | EStatistic o => [("type", s_type o); ("unit", s_unit o)]
  end.

(** The declared maximum length of a string field. *)
Definition max_length (field : string) : nat :=
  if String.eqb field "type" then 50
  else if String.eqb field "unit" || String.eqb field "durationUnit" then 10
  else 100.

(** The text of the cell [key] of a row, [dflt] when the row has no such
    cell, cut to [n] characters. *)
Definition cut (n : nat) (r : row) (key dflt : string) : string :=
  slice_to n (str (get r key (VStr dflt))).

(** The string fields the persisters compute for a row. *)
Definition cut_fields (kind : string) (r : row) : list (string * string) :=
  if String.eqb kind "record" then
    [("type", cut 50 r "type" "");
     ("sourceVersion", cut 100 r "sourceVersion" "");
     ("sourceName", cut 100 r "sourceName" "");
     ("deviceId", cut 100 r "device" "");
     ("unit", cut 10 r "unit" "")]
  else if String.eqb kind "workout" then
    [("type", cut 50 r "type" "Unknown Workout");
     ("durationUnit", cut 10 r "durationUnit" "");
     ("sourceName", cut 100 r "sourceName" "")]
  else
    [("type", cut 50 r "type" ""); ("unit", cut 10 r "unit" "")].

(** The cells the string fields are read from. *)
Definition string_cells : list string :=
  ["type"; "sourceVersion"; "sourceName"; "device"; "unit"; "durationUnit"].

End Built.

Export Built.

(** ** More sample data *)

Module Samples2.

Import Samples.

(** The stream of a file with two records, a chunk without rows, a chunk
    of unknown kind and one workout. *)
Definition four_chunks : XmlService.xml_stream :=
  XmlService.mk_stream [two_records; no_rows; one_unknown; one_workout] None.

(** A record whose [type] has 60 characters and whose [unit] has 12. *)
Definition oversized : row :=
  <["type" :=
      VStr "HKQuantityTypeIdentifierAppleWalkingSteadinessAndMoreAndMore"]>
    (<["unit" := VStr "count/minute"]> (heart_rate "72")).

Definition oversized_entity : entity :=
  Eval vm_compute in
    match @built Reference.collaborators "record" Reference.TEST_USER_ID
            oversized with
    | Ok e => e
    | Raise _ => ERecord (mk_record "" "" "" "" "" 0%Z 0%Z 0%Z "" None)
    end.

End Samples2.

(** ** Sample runs *)

Module Runs.

Import Samples.

(** Every collaborator of the task answers; [x] is what the parser makes
    of the downloaded file. *)
Definition all_well (x : XmlService.xml_stream) : environment :=
  mk_env "/tmp" io_ok x None dump_ok None.

(** A file of two chunks: two records, then five records the second of
    which cannot be built. *)
Definition second_chunk_fails : XmlService.xml_stream :=
  XmlService.mk_stream [two_records; five_records_second_malformed] None.


Definition object_key : string :=
  Reference.TEST_USER_ID +:+ "/raw/export.xml".

Definition nothing : world := mk_world ∅ [] [].

(** The two paths the task derives from [temp_dir] and the object key. *)
Definition temp_path (env : environment) (key : string) : string :=
  path_join (temp_dir env) ("temp_import_" +:+ last_segment "/" key).
Definition dump_path (env : environment) (key : string) : string :=
  path_join (temp_dir env)
    ("export_" +:+ replace ".xml" ".sql" (last_segment "/" key)).

End Runs.

(** ** The sample runs, with the stand-in collaborators *)

Module RunsOf.

Import Runs.

(** [process_uploaded_xml_file] on a file parsed as [x], every
    collaborator answering. *)
Definition uploaded (x : XmlService.xml_stream)
    : world * result TaskResult :=
  UploadedTask.process_uploaded_xml_file
    (all_well x) "uploads" object_key None nothing.

(** [process_uploaded_file] of process_upload_task.py on the same. *)
Definition upload (x : XmlService.xml_stream) : world * result TaskResult :=
  @UploadTask.process_uploaded_file Reference.collaborators
    (all_well x) "uploads" object_key None nothing.


Definition other_file : world := mk_world {["/tmp/other"]} [] [].


End RunsOf.

(** ** Notions and samples for the queue consumer *)

Module Queue.

Import Tasks.

(** Does the body of the message decode to a document whose [Records]
    hold an entry with event source [aws:s3]? *)
Definition has_s3_record (m : message) : bool :=
  match Body m with
  | Ok body =>
      match contains body "Records" with
      | Ok true =>
          match rs ← subscript body "Records"; iterate rs with
          | Ok records =>
              existsb
                (fun record =>
                   match get_method record "eventSource" with
                   | Ok source => is_str "aws:s3" source
                   | Raise _ => false
                   end)
                records
          | Raise _ => false
          end
      | _ => false
      end
  | Raise _ => false
  end.

(** The queue once the messages with receipt handle [h] are deleted. *)
Definition without_handle (h : string) (q : list message) : list message :=
  List.filter (fun m => negb (String.eqb (ReceiptHandle m) h)) q.

(** The trace of [n] rounds of the repeated poll. *)
Definition rounds (n : nat) : list event :=
  concat (replicate n [receive_message_called; slept 5%Z]).

(** A message whose body is not JSON. *)
Definition plain_text : message :=
  mk_message (Raise (mk_exn JSONDecodeError "Expecting value")) "handle-1".

(** The test event the storage service sends when notifications are set
    up: JSON, without [Records]. *)
Definition test_event : message :=
  mk_message
    (Ok (JObj [("Service", JStr "Amazon S3"); ("Event", JStr "s3:TestEvent")]))
    "handle-2".

(** The notification of one uploaded object. *)
Definition upload_event : message :=
  mk_message
    (Ok (JObj
           [("Records",
             JArr
               [JObj
                  [("eventSource", JStr "aws:s3");
                   ("s3",
                    JObj
                      [("bucket", JObj [("name", JStr "uploads")]);
                       ("object", JObj [("key", JStr "u1/raw/export.xml")])])]])]))
    "handle-3".

Definition idle : broker := mk_broker [] [] [].

(** Celery and the queue service answer every call. *)
Definition reliable : Services :=
  {| delay_raises := fun _ _ _ => None;
     delete_raises := fun _ _ => None |}.

(** Every call goes through, whatever the state of the broker. *)
Definition answers (sv : Services) : Prop :=
  (∀ b bucket_name object_key,
     @delay_raises sv b bucket_name object_key = None)
  ∧ (∀ b handle, @delete_raises sv b handle = None).

(** The queue once the messages that share a receipt handle with one of
    [ms] are deleted. *)
Definition without_handles (ms q : list message) : list message :=
  List.filter
    (fun m' =>
       forallb (fun m => negb (String.eqb (ReceiptHandle m') (ReceiptHandle m)))
         ms) q.

End Queue.

Export Queue.

(** ** Proof steps for chains of calls that return or raise *)

(** Walks down a chain of binds known to end in [Ok]: every step of the
    chain returned, and the equations say what. *)
Ltac step_ok :=
  repeat match goal with
         | H : match ?x with Ok _ => _ | Raise _ => _ end = Ok _ |- _ =>
             let E := fresh "E" in
             destruct x eqn:E; [| discriminate H]; simpl in H
         | H : Ok _ = Ok _ |- _ => injection H as H; try subst
         end.

Ltac unfold_result :=
  unfold mbind, result_bind, fmap, result_fmap, rbind in *.

(** Case analysis on the innermost call whose outcome is matched on. *)
Ltac case_results :=
  simpl;
  repeat match goal with
         | |- context [match ?x with Ok _ => _ | Raise _ => _ end] =>
             lazymatch x with
             | context [match _ with Ok _ => _ | Raise _ => _ end] => fail
             | _ => destruct x; simpl
             end
         end.

(** Closes a goal whose premise equates a run that raised with one that
    returned. *)
Ltac raising :=
  unfold XmlService.emit, modify, raise; simpl;
  repeat match goal with
         | |- context [if ?b then _ else _] => destruct b
         end;
  intros [=].

(** ** app/api/routes/v1/xml_import.py *)

Module XmlImport.

(** [c.isalnum()] for a code point below 256. *)
Definition isalnum (c : ascii) : bool :=
  let n := N_of_ascii c in
  ((48 <=? n) && (n <=? 57) || (65 <=? n) && (n <=? 90)
   || (97 <=? n) && (n <=? 122) || (n =? 170)
   || (178 <=? n) && (n <=? 179) || (n =? 181)
   || (185 <=? n) && (n <=? 186) || (188 <=? n) && (n <=? 190)
   || (192 <=? n) && (n <=? 214) || (216 <=? n) && (n <=? 246)
   || (248 <=? n) && (n <=? 255))%N.

(** [c.isalnum() or c in ".-_"] *)
Definition kept (c : ascii) : bool :=
  isalnum c || Ascii.eqb c "." || Ascii.eqb c "-" || Ascii.eqb c "_".

(** ["".join(c for c in filename if c.isalnum() or c in ".-_")] *)
Fixpoint clean_filename (filename : string) : string :=
  match filename with
  | EmptyString => ""
  | String c s => if kept c then String c (clean_filename s)
                  else clean_filename s
  end.

(** [generate_file_key(user_id, filename)]; [timestamp] is the text of
    [datetime.now(UTC)]. *)
Definition generate_file_key (user_id : string) (filename : option string)
    (timestamp : string) : string :=
  if truthy filename
  then user_id +:+ "/raw/" +:+ clean_filename (default "" filename)
  else user_id +:+ "/raw/" +:+ timestamp +:+ ".xml".

(** [validate_bucket_exists()]; [head_bucket] is what
    [s3_client.head_bucket] raises, if anything.  A [ClientError] carries
    its error code as its text. *)
Definition validate_bucket_exists (head_bucket : option exn) : result bool :=
  match head_bucket with
  | None => Ok true
  | Some e =>
      if caught_by [ClientError] e then
        let error_code := exn_msg e in
        if String.eqb error_code "404"
        then Raise (mk_exn HTTPException "S3 bucket not found")
        else if String.eqb error_code "403"
        then Raise (mk_exn HTTPException "Access denied to S3 bucket")
        else Raise (mk_exn HTTPException ("S3 bucket error: " +:+ error_code))
      else Raise e
  end.

Record PresignedURLRequest := mk_request {
  req_user_id : string;
  req_filename : option string;
  req_file_type : string;
  req_max_file_size : Z;
  req_expiration_seconds : Z }.

(** The dict [generate_presigned_post] returns. *)
Record presigned_post := mk_post {
  post_url : string;
  post_fields : list (string * string) }.

Record PresignedURLResponse := mk_presigned {
  upload_url : string;
  form_fields : list (string * string);
  file_key : string;
  expires_in : Z;
  max_file_size : Z;
  content_type : string;
  response_bucket : string }.

(** What the collaborators of the route answer to one request: the two
    calls of the storage service, the clock, the call through Celery
    behind [poll_sqs_task.delay], and the constructor of the response
    model (of app.schemas.aws, absent from the sources), which validates
    its fields.  [delay_raises] and [response_raises] say what the call
    raises, if anything. *)
Record s3_answers := mk_answers {
  head_bucket : option exn;
  generate_presigned_post : result presigned_post;
  now : string;
  delay_raises : option exn;
  response_raises : option exn }.

(** The budgets of the repeated polls handed to Celery, in order. *)
Abbreviation S := (Mon.M (list Z)).

(** [poll_sqs_task.delay(expiration_seconds)]; a call that raises is
    taken to have scheduled nothing. *)
Definition delay_poll (s3 : s3_answers) (expiration_seconds : Z) : S unit :=
  match delay_raises s3 with
  | Some e => raise e
  | None => modify (fun scheduled => (scheduled ++ [expiration_seconds])%list)
  end.

(** [PresignedURLResponse(upload_url=..., ..., bucket=AWS_BUCKET_NAME)] *)
Definition make_response (s3 : s3_answers) (r : PresignedURLResponse)
    : S PresignedURLResponse :=
  match response_raises s3 with
  | Some e => raise e
  | None => ret r
  end.

(** [try: body except (cs1) as e: h1(e) except (cs2) as e: h2(e)]: the
    first clause that matches handles the exception, and what a handler
    raises is not offered to the clauses after it. *)
Definition try_except_except {St A} (body : Mon.M St A)
    (cs1 : list exn_class) (h1 : exn → Mon.M St A)
    (cs2 : list exn_class) (h2 : exn → Mon.M St A) : Mon.M St A :=
  fun st =>
    match body st with
    | (st', Ok a) => (st', Ok a)
    | (st', Raise e) =>
        if caught_by cs1 e then h1 e st'
        else if caught_by cs2 e then h2 e st'
        else (st', Raise e)
    end.

(** [create_presigned_upload_url(request)]; [AWS_BUCKET_NAME] is the
    constant of app.services.aws_service. *)
Definition create_presigned_upload_url (AWS_BUCKET_NAME : string)
    (s3 : s3_answers) (request : PresignedURLRequest)
    : S PresignedURLResponse :=
  lift (validate_bucket_exists (head_bucket s3)) ;;;
  let key := generate_file_key (req_user_id request) (req_filename request)
               (now s3) in
  try_except_except
    (presigned <- lift (generate_presigned_post s3) ;;
     delay_poll s3 (req_expiration_seconds request) ;;;
     make_response s3
       (mk_presigned (post_url presigned) (post_fields presigned) key
          (req_expiration_seconds request) (req_max_file_size request)
          (req_file_type request) AWS_BUCKET_NAME))
    [ClientError]
    (fun e =>
       raise (mk_exn HTTPException
                ("Failed to generate presigned URL: " +:+ exn_msg e)))
    [Exception]
    (fun e =>
       raise (mk_exn HTTPException ("Unexpected error: " +:+ exn_msg e))).

End XmlImport.

(** ** app/tasks/tasks.py: the task the consumer dispatches *)

Module DuckTask.

(** What the collaborators of one run answer; [db_file] is the name
    [random.choices] makes up. *)
Record environment := mk_env {
  get_object : option exn;
  export_xml : io_outcome;
  upload : option exn;
  db_file : string }.

(** The dict the task returns. *)
Record TaskResult := mk_result {
  bucket : string;
  key : string;
  new_filename : string;
  status : string }.

Abbreviation W := (Mon.M world).

Definition set_files (f : gset string → gset string) (w : world) : world :=
  mk_world (f (files w)) (store w) (objects w).

Definition no_such_file (path : string) : exn :=
  mk_exn OSError ("No such file or directory: " +:+ path).

(** [s3_client.get_object(Bucket=bucket_name, Key=object_key)] *)
Definition s3_get_object (env : environment) : W unit :=
  match get_object env with
  | None => ret tt
  | Some e => raise e
  end.

(** [importer.export_xml()], writing to [importer.path] *)
Definition importer_export_xml (env : environment) : W unit :=
  fun w =>
    match export_xml env with
    | io_ok => (set_files (fun fs => {[db_file env]} ∪ fs) w, Ok tt)
    | io_failed e file_left =>
        ((if file_left
          then set_files (fun fs => {[db_file env]} ∪ fs) w else w),
         Raise e)
    end.

(** [os.remove(path)]: a missing file is an error. *)
Definition os_remove (path : string) : W unit :=
  fun w =>
    if bool_decide (path ∈ files w)
    then (set_files (fun fs => fs ∖ {[path]}) w, Ok tt)
    else (w, Raise (no_such_file path)).

(** [s3_client.upload_file(path, bucket_name, key)]: the local file must
    be there to be sent. *)
Definition s3_upload_file (env : environment) (path bucket_name key : string)
    : W unit :=
  fun w =>
    if bool_decide (path ∈ files w)
    then match upload env with
         | None =>
             (mk_world (files w) (store w)
                (objects w ++ [(bucket_name, key)]), Ok tt)
         | Some e => (w, Raise e)
         end
    else (w, Raise (no_such_file path)).

(** [try: body except: handler]: the bare clause catches whatever is
    raised. *)
Definition try_bare {A} (body : W A) (handler : W A) : W A :=
  fun w =>
    match body w with
    | (w', Ok a) => (w', Ok a)
    | (w', Raise _) => handler w'
    end.

(** [process_uploaded_file(bucket_name, object_key)] of tasks.py *)
Definition process_uploaded_file (env : environment)
    (bucket_name object_key : string) : W TaskResult :=
  s3_get_object env ;;;
  try_bare (importer_export_xml env) (os_remove (db_file env)) ;;;
  let uid := first_segment "/" object_key in
  let filename := last_segment "/" object_key in
  let full_name := uid +:+ "/processed/"
                   +:+ replace ".xml" ".duckdb" filename in
  s3_upload_file env (db_file env) bucket_name full_name ;;;
  os_remove (db_file env) ;;;
  ret (mk_result bucket_name object_key full_name "processed").

End DuckTask.

(** ** app/schemas/xml.py: the update schemas *)

Module UpdateSchemas.

(** [Field(None, max_length=n)] on a [str | None] field. *)
Definition max_length_ok (n : nat) (v : option string) : bool :=
  match v with
  | None => true
  | Some s => (String.length s <=? n)%nat
  end.

(** The string fields of [RecordUpdate], [XMLWorkoutUpdate] and
    [WorkoutStatisticUpdate] with the [max_length] each declares. *)
Definition RecordUpdate_limits : list (string * nat) :=
  [("type", 50); ("sourceVersion", 100); ("sourceName", 100);
   ("deviceId", 100); ("unit", 10)]%nat.
Definition XMLWorkoutUpdate_limits : list (string * nat) :=
  [("type", 50); ("durationUnit", 10); ("sourceName", 100)]%nat.
Definition WorkoutStatisticUpdate_limits : list (string * nat) :=
  [("type", 50); ("unit", 10)]%nat.

(** The limits of the update schema of the model an entity belongs to. *)
Definition limits_of (e : entity) : list (string * nat) :=
  match e with
  | ERecord _ => RecordUpdate_limits
  | EWorkout _ => XMLWorkoutUpdate_limits
  | EStatistic _ => WorkoutStatisticUpdate_limits
  end.

(** Do the given fields pass the length constraints [limits]?  A field
    the schema does not declare is not constrained. *)
Definition within_limits (limits : list (string * nat))
    (fields : list (string * string)) : bool :=
  forallb
    (fun fs =>
       match List.find (fun l => String.eqb (fst l) (fst fs)) limits with
       | Some (_, n) => max_length_ok n (Some (snd fs))
       | None => true
       end)
    fields.

End UpdateSchemas.

(** ** Notions used in the further properties *)

Module Further.

(** The column set a classification is decided on. *)
Definition column_set (df : DataFrame) : gset string :=
  list_to_set (columns df).

Definition statistic_signature (df : DataFrame) : Prop :=
  ({["sum"; "average"; "maximum"; "minimum"]} : gset string) ⊆ column_set df.

Definition workout_signature (df : DataFrame) : Prop :=
  "duration" ∈ column_set df ∧ "durationUnit" ∈ column_set df.

Section Persisters.
Context `{Collaborators}.

(** The persister [import_xml] calls for a chunk of kind [kind]. *)
Definition persist (kind : string) (df : DataFrame) (user_id : string)
    : XmlService.M nat :=
  if String.eqb kind "record" then XmlService._process_records_df df user_id
  else if String.eqb kind "workout"
  then XmlService._process_workouts_df df user_id
  else XmlService._process_statistics_df df user_id.

(** The chunks a persister returns from at once. *)
Definition passed_over (kind : string) (df : DataFrame) : bool :=
  empty df || (String.eqb kind "record" && negb (has_column df "type")).

(** Row [r] cannot be stored and the attempt ends in [x]: the row is not
    built, or the entity it becomes is rejected by the store. *)
Definition fails_with (kind user_id : string) (r : row) (x : exn) : Prop :=
  built kind user_id r = Raise x
  ∨ ∃ e, built kind user_id r = Ok e ∧ db_accepts e = false
         ∧ x = mk_exn DatabaseError "write rejected".

End Persisters.

(** The three kinds the service persists. *)
Definition persisted_kind (kind : string) : Prop :=
  kind = "record" ∨ kind = "workout" ∨ kind = "statistic".

(** The rows an import has counted. *)
Definition stored_rows (s : XmlService.stats) : nat :=
  (XmlService.records s + XmlService.workouts s
   + XmlService.statistics s)%nat.

Section TaskImport.
Context `{Collaborators}.

(** The import of the upload task on the file of a run, in a fresh
    session: the session it leaves and how it ends. *)
Definition task_import (env : environment) (user_id : string)
    : XmlService.state * result unit :=
  UploadTask._import_xml_data (xml env) user_id (XmlService.mk_state [] []).

(** Did the run of the upload task commit the rows of its file? *)
Definition committed (env : environment) (user_id : string) : bool :=
  match download env, commit env with
  | io_ok, None => is_ok (task_import env user_id).2
  | _, _ => false
  end.

End TaskImport.

(** A chunk of records without a [type] column. *)
Definition untyped_records : DataFrame :=
  mk_df ("value" :: Samples.date_columns)
    [Samples.row_of (("value", VStr "72") :: Samples.dates)].

(** [user_id], or the first segment of the object key when [user_id] is
    not given: the user a task works for. *)
Definition derived_user_id (user_id : option string) (key : string)
    : string :=
  if truthy user_id then default "" user_id else first_segment "/" key.

(** No character of [s] is a slash. *)
Fixpoint no_slash (s : string) : bool :=
  match s with
  | EmptyString => true
  | String c s' => negb (Ascii.eqb c "/") && no_slash s'
  end.

(** Every character of [s] is one [generate_file_key] keeps. *)
Fixpoint all_kept (s : string) : bool :=
  match s with
  | EmptyString => true
  | String c s' => XmlImport.kept c && all_kept s'
  end.



(** What evaluating the name [xml_import_service] raises. *)
Definition unbound_service : exn :=
  mk_exn NameError "name 'xml_import_service' is not defined".

End Further.

Export Further.

(** Closes the case of a row that raised: the handler logged the row and
    raised the same exception.  [caught] and [sub] say the handler was entered. *)
Ltac row_raised caught sub :=
  rewrite ?caught, ?sub; unfold XmlService.emit, modify, raise, bind; simpl;
  repeat match goal with
         | |- context [if ?b then _ else _] => destruct b
         end;
  intros [= <- <-]; simpl;
  (split; [reflexivity |]);
  (split; [| eexists; apply last_snoc || (rewrite app_assoc; apply last_snoc)]).

(** ** Notifications of the storage service *)

Module Notifications.

Import Tasks.

(** The record of one created object in a notification. *)
Definition s3_record (bucket_key : string * string) : json :=
  JObj [("eventSource", JStr "aws:s3");
        ("s3", JObj [("bucket", JObj [("name", JStr (fst bucket_key))]);
                     ("object", JObj [("key", JStr (snd bucket_key))])])].

(** The message that notifies of the given objects. *)
Definition notification (objs : list (string * string)) (handle : string)
    : message :=
  mk_message (Ok (JObj [("Records", JArr (List.map s3_record objs))])) handle.

(** The task call of one object. *)
Definition task_call (bucket_key : string * string) : json * json :=
  (JStr (fst bucket_key), JStr (snd bucket_key)).

(** Is the record one of the storage service:
    [record.get('eventSource') == 'aws:s3']? *)
Definition from_s3 (record : json) : bool :=
  match get_method record "eventSource" with
  | Ok source => is_str "aws:s3" source
  | Raise _ => false
  end.

(** [record['s3']['bucket']['name']] and [record['s3']['object']['key']] *)
Definition bucket_and_key (record : json) : result (json * json) :=
  bucket_name ← (s3 ← subscript record "s3";
                 b ← subscript s3 "bucket";
                 subscript b "name");
  object_key ← (s3 ← subscript record "s3";
                o ← subscript s3 "object";
                subscript o "key");
  Ok (bucket_name, object_key).

(** A record the consumer can read: a dict that, when it comes from the
    storage service, names a bucket and a key. *)
Definition readable (record : json) : bool :=
  is_ok (get_method record "eventSource")
  && (negb (from_s3 record) || is_ok (bucket_and_key record)).

(** The task calls the records of a notification ask for: one for each
    record of the storage service, in order. *)
Definition calls_of (records : list json) : list (json * json) :=
  omap (fun record =>
          if from_s3 record then
            match bucket_and_key record with
            | Ok call => Some call
            | Raise _ => None
            end
          else None) records.

(** A notification as the storage service sends it: two created objects
    and, between them, a record of another source, each with the fields
    the consumer does not read. *)
Definition two_objects : message :=
  mk_message
    (Ok (JObj
           [("Records",
             JArr
               [JObj
                  [("eventVersion", JStr "2.1");
                   ("eventSource", JStr "aws:s3");
                   ("eventName", JStr "ObjectCreated:Post");
                   ("s3",
                    JObj
                      [("bucket", JObj [("name", JStr "uploads");
                                        ("arn", JStr "arn:aws:s3:::uploads")]);
                       ("object", JObj [("key", JStr "u1/raw/export.xml");
                                        ("size", JNum 1024)])])];
                JObj [("eventSource", JStr "aws:sns")];
                JObj
                  [("eventSource", JStr "aws:s3");
                   ("s3",
                    JObj
                      [("bucket", JObj [("name", JStr "uploads")]);
                       ("object", JObj [("key", JStr "u2/raw/export.xml")])])]])]))
    "handle-4".

End Notifications.

Export Notifications.

(** ** Sample polls *)

Module Polls.

Import Tasks.

(** A queue that holds the test event, one notification and a message
    that is not JSON. *)
Definition three_waiting : broker :=
  mk_broker [test_event; upload_event; plain_text] [] [].

(** The receive call fails. *)
Definition queue_down : result (list message) :=
  Raise (mk_exn ClientError "AWS.SimpleQueueService.NonExistentQueue").

(** The second poll receives a message that is not JSON. *)
Definition second_poll_fails (k : nat) : result (list message) :=
  if Nat.eqb k 1 then Ok [plain_text] else Ok [].

(** A batch whose second message is not JSON. *)
Definition mixed_batch : list message :=
  [test_event; plain_text; upload_event].

End Polls.

(** ** Sample requests and runs of the dispatched task *)

Module Requests.

(** The export fails and leaves a partial file called [Ab3dE9xQ]. *)
Definition export_breaks : DuckTask.environment :=
  DuckTask.mk_env None
    (io_failed (mk_exn Exception "not well-formed (invalid token)") true)
    None "Ab3dE9xQ".

(** The upload of the database file fails. *)
Definition upload_breaks : DuckTask.environment :=
  DuckTask.mk_env None io_ok
    (Some (mk_exn ClientError "AccessDenied")) "Ab3dE9xQ".

(** A request for an upload URL valid for one minute. *)
Definition one_minute : XmlImport.PresignedURLRequest :=
  XmlImport.mk_request Reference.TEST_USER_ID (Some "export.xml")
    "application/xml" 52428800 60.

(** The storage service answers both calls. *)
Definition s3_well : XmlImport.s3_answers :=
  XmlImport.mk_answers None
    (Ok (XmlImport.mk_post "https://uploads.s3.amazonaws.com/"
           [("Content-Type", "application/xml")]))
    "2024-01-03 08:00:00+00:00" None None.

(** The bucket is there and signing is refused. *)
Definition signing_refused : XmlImport.s3_answers :=
  XmlImport.mk_answers None (Raise (mk_exn ClientError "AccessDenied"))
    "2024-01-03 08:00:00+00:00" None None.

End Requests.

(** * Properties *)

(** ** Exceptions *)

Lemma subclass_Exception (c : exn_class) : subclass c Exception = true.
Proof. destruct c; reflexivity. Qed.

Lemma caught_by_Exception (e : exn) : caught_by [Exception] e = true.
Proof. unfold caught_by; simpl. now rewrite subclass_Exception. Qed.

(** The clause [except (ValueError, TypeError)] does not catch what
    [Decimal] raises on a malformed string. *)
Lemma conversion_error_not_caught (s : string) (e : exn) :
  of_str s = Raise e → caught_by [ValueError; TypeError] e = false.
Proof.
  unfold of_str. destruct (parse s) as [d |];
    [destruct (representable d); [discriminate |] |];
    intros [= <-]; reflexivity.
Qed.

(** ** Decimal coercion *)

(** On every input other than [None] and a float zero, the coercion of
    the service does what [Decimal(str(value))] does: a malformed string
    form leaves it as [decimal.InvalidOperation]. *)
Lemma service_safe_decimal_generic (v : value) :
  v ≠ VNone → is_float_zero v = false →
  XmlService._safe_decimal v
  = match of_str (str v) with
    | Ok d => Ok (Some d)
    | Raise e => Raise e
    end.
Proof.
  intros Hn Hz. unfold XmlService._safe_decimal. rewrite Hz.
  destruct (of_str (str v)) as [d | e] eqn:E.
  - destruct v; congruence.
  - rewrite (conversion_error_not_caught _ _ E). destruct v; congruence.
Qed.

Lemma task_safe_decimal_generic (v : value) :
  v ≠ VNone →
  UploadTask._safe_decimal v
  = match of_str (str v) with
    | Ok d => Ok (Some d)
    | Raise e => Raise e
    end.
Proof.
  intros Hn. unfold UploadTask._safe_decimal.
  destruct (of_str (str v)) as [d | e] eqn:E.
  - destruct v; congruence.
  - rewrite (conversion_error_not_caught _ _ E). destruct v; congruence.
Qed.

(** C2, at a string cell that is not a number: [_safe_decimal("abc")]
    does not return [None]; the call ends in [decimal.InvalidOperation],
    which [except (ValueError, TypeError)] lets through. *)
Theorem safe_decimal_raises_on_malformed_text :
  parse (str (VStr "abc")) = None
  ∧ is_float_zero (VStr "abc") = false
  ∧ XmlService._safe_decimal (VStr "abc")
    = Raise (mk_exn InvalidOperation "[<class 'decimal.ConversionSyntax'>]")
  ∧ XmlService._safe_decimal (VStr "abc") ≠ Ok None.
Proof. repeat split; try reflexivity. discriminate. Qed.

(** Every input whose string form is not a number, a float zero and
    [None] apart, makes the coercion of the service raise. *)
Lemma safe_decimal_raises_whenever_parse_fails (v : value) :
  v ≠ VNone → is_float_zero v = false → parse (str v) = None →
  ∃ e, XmlService._safe_decimal v = Raise e ∧ exn_cls e = InvalidOperation.
Proof.
  intros Hn Hz Hp. rewrite service_safe_decimal_generic by assumption.
  unfold of_str. rewrite Hp. eauto.
Qed.

Lemma same_outcome_refl (r : result (option Decimal)) : same_outcome r r.
Proof. destruct r as [[d |] | e]; simpl; auto. now left. Qed.

(** C10, as the sources have it: at the float [0.0] the service answers
    [Decimal("0")] and the task [Decimal("0.0")], two different values. *)
Lemma safe_decimal_versions_differ_at_float_zero :
  XmlService._safe_decimal (VFloat (FZero false))
  ≠ UploadTask._safe_decimal (VFloat (FZero false)).
Proof. vm_compute. discriminate. Qed.

(** C10, amended: the two coercions return the same result on every
    input that is not a float zero; on a float zero the service returns
    the zero of exponent 0 and the task the zero of exponent -1 with the
    sign of the float, which are one number written in two ways. *)
Theorem safe_decimal_versions_agree_up_to_zero (v : value) :
  same_outcome (XmlService._safe_decimal v) (UploadTask._safe_decimal v)
  ∧ match v with
    | VFloat (FZero negative) =>
        XmlService._safe_decimal v = Ok (Some (Finite false 0 0))
        ∧ UploadTask._safe_decimal v = Ok (Some (Finite negative 0 (-1)))
    | _ => XmlService._safe_decimal v = UploadTask._safe_decimal v
    end.
Proof.
  assert (G : ∀ w, w ≠ VNone → is_float_zero w = false →
              XmlService._safe_decimal w = UploadTask._safe_decimal w).
  { intros w Hn Hz. rewrite service_safe_decimal_generic by assumption.
    now rewrite task_safe_decimal_generic. }
  destruct v as [| b | z | f | s].
  - split; reflexivity.
  - split; [rewrite G by easy; apply same_outcome_refl | now apply G].
  - split; [rewrite G by easy; apply same_outcome_refl | now apply G].
  - destruct f as [negative | | negative | r].
    + destruct negative; (split; [| split; reflexivity]);
        simpl; right; unfold finite_value_eq; simpl; auto.
    + split; [rewrite G by easy; apply same_outcome_refl | now apply G].
    + split; [rewrite G by easy; apply same_outcome_refl | now apply G].
    + split; [rewrite G by easy; apply same_outcome_refl | now apply G].
  - split; [rewrite G by easy; apply same_outcome_refl | now apply G].
Qed.

(** ** Classification of chunks *)

Section Classification.
Context `{Collaborators}.

(** The classifier of the service answers by priority: the four
    statistic columns win over [value] and [duration]. *)
Lemma detect_statistic_by_priority (df : DataFrame) :
  empty df = false →
  ({["sum"; "average"; "maximum"; "minimum"]} : gset string)
    ⊆ list_to_set (columns df) →
  XmlService._detect_dataframe_type df = "statistic".
Proof.
  intros He Hs. unfold XmlService._detect_dataframe_type.
  rewrite He. now rewrite bool_decide_eq_true_2.
Qed.

(** [import_xml] hands such a chunk to [_process_statistics_df] and to
    no other persister. *)
Lemma service_routes_statistic (uid : string) (df : DataFrame)
    (s : XmlService.stats) :
  empty df = false →
  ({["sum"; "average"; "maximum"; "minimum"]} : gset string)
    ⊆ list_to_set (columns df) →
  XmlService.import_chunk uid df s
  = (s1 <- (n <- XmlService._process_statistics_df df uid ;;
            ret (XmlService.mk_stats (XmlService.records s)
                   (XmlService.workouts s) (XmlService.statistics s + n)
                   (XmlService.chunks_processed s))) ;;
     let s2 := XmlService.mk_stats (XmlService.records s1)
                 (XmlService.workouts s1) (XmlService.statistics s1)
                 (XmlService.chunks_processed s1 + 1) in
     XmlService.emit
       (XmlService.log_debug
          ("Processed chunk " +:+ pretty (XmlService.chunks_processed s2)
           +:+ " (type: " +:+ "statistic" +:+ ")")) ;;;
     ret s2).
Proof.
  intros He Hs. unfold XmlService.import_chunk.
  rewrite He, (detect_statistic_by_priority df He Hs). reflexivity.
Qed.

(** The loop of [_import_xml_data] looks for [value] first: a chunk with
    that column goes to [_process_records_df] whatever else it has. *)
Lemma task_routes_value_first (uid : string) (df : DataFrame) :
  empty df = false → has_column df "value" = true →
  UploadTask.import_chunk uid df = UploadTask._process_records_df df uid.
Proof.
  intros He Hv. unfold UploadTask.import_chunk. now rewrite He, Hv.
Qed.

End Classification.

Section ClassificationExample.
#[local] Existing Instance Reference.collaborators.

(** C3, where the sources part from it: the chunk with columns [{type,
    sum, average, maximum, minimum, value, unit}] is a statistic for the
    classifier of the service, and the loop of [_import_xml_data] in
    process_upload_task.py hands it to [_process_records_df]: with its
    dates present, its row is stored as a record there and as a statistic
    by the service. *)
Theorem statistic_chunk_with_value_stored_as_record :
  empty Samples.mixed = false
  ∧ XmlService._detect_dataframe_type Samples.mixed = "statistic"
  ∧ (∀ (C : Collaborators) (uid : string),
       @UploadTask.import_chunk C uid Samples.mixed
       = @UploadTask._process_records_df C Samples.mixed uid)
  ∧ (∃ o, XmlService.session
            (UploadTask.import_chunk Reference.TEST_USER_ID
               Samples.mixed_dated Samples.fresh).1
          = [ERecord o])
  ∧ (∃ o, XmlService.session
            (XmlService.import_chunk Reference.TEST_USER_ID
               Samples.mixed_dated (XmlService.mk_stats 0 0 0 0)
               Samples.fresh).1
          = [EStatistic o]).
Proof.
  split; [reflexivity |]. split; [reflexivity |]. split.
  - intros C uid. now apply task_routes_value_first.
  - split; eexists; vm_compute; reflexivity.
Qed.

End ClassificationExample.

(** ** The counters of an import *)

Section Counters.
Context `{Collaborators}.

Import XmlService.

(** An empty chunk is passed over: no counter moves, nothing is logged or
    written, and the classifier is not reached. *)
Lemma import_chunk_empty (uid : string) (df : DataFrame) (s : stats)
    (st : state) :
  empty df = true → import_chunk uid df s st = (st, Ok s).
Proof. intros He. unfold import_chunk. now rewrite He. Qed.

(** A chunk no signature matches is counted and not persisted. *)
Lemma import_chunk_unknown (uid : string) (df : DataFrame) (s : stats)
    (st : state) :
  empty df = false → _detect_dataframe_type df = "unknown" →
  ∃ st',
    import_chunk uid df s st
    = (st', Ok (mk_stats (records s) (workouts s) (statistics s)
                  (chunks_processed s + 1)))
    ∧ session st' = session st.
Proof.
  intros He Hu. unfold import_chunk. rewrite He, Hu. simpl.
  eexists. split; reflexivity.
Qed.

Lemma import_chunk_counts (uid : string) (df : DataFrame) (s s' : stats)
    (st st' : state) :
  import_chunk uid df s st = (st', Ok s') →
  chunks_processed s'
  = chunks_processed s + (if empty df then 0 else 1).
Proof.
  unfold import_chunk. destruct (empty df).
  - intros [= _ <-]. lia.
  - unfold bind, ret, emit, modify.
    destruct (String.eqb _ "record").
    { destruct (_process_records_df df uid st) as [st1 [n | e]];
        [intros [= _ <-]; reflexivity | discriminate]. }
    destruct (String.eqb _ "workout").
    { destruct (_process_workouts_df df uid st) as [st1 [n | e]];
        [intros [= _ <-]; reflexivity | discriminate]. }
    destruct (String.eqb _ "statistic").
    { destruct (_process_statistics_df df uid st) as [st1 [n | e]];
        [intros [= _ <-]; reflexivity | discriminate]. }
    intros [= _ <-]. reflexivity.
Qed.

Lemma import_chunks_counts (uid : string) (dfs : list DataFrame) :
  ∀ (s s' : stats) (st st' : state),
    import_chunks uid dfs s st = (st', Ok s') →
    chunks_processed s' = chunks_processed s + length (non_empty dfs).
Proof.
  induction dfs as [| df dfs IH]; intros s s' st st'; simpl.
  - intros [= _ <-]. lia.
  - unfold bind at 1.
    destruct (import_chunk uid df s st) as [st1 [s1 | e]] eqn:E;
      [| discriminate].
    intros Hrest. apply IH in Hrest. apply import_chunk_counts in E.
    rewrite Hrest, E. unfold non_empty in *. simpl.
    destruct (empty df); simpl; lia.
Qed.

(** C5: when the loop of [import_xml] reaches the end of the stream, the
    counter [chunks_processed] is the number of non-empty chunks the
    parser produced, whatever their kind; a chunk of unknown kind is
    counted and adds no row to the session; an empty chunk leaves every
    counter, the session and the log as they were. *)
Theorem chunks_processed_counts_non_empty_chunks (uid : string)
    (x : xml_stream) (st st' : state) (s : stats) :
  import_stream uid x st = (st', Ok s) →
  chunks_processed s = length (non_empty (chunks x))
  ∧ (∀ df s0 st0,
       empty df = true → import_chunk uid df s0 st0 = (st0, Ok s0))
  ∧ (∀ df s0 st0,
       empty df = false → _detect_dataframe_type df = "unknown" →
       ∃ st1,
         import_chunk uid df s0 st0
         = (st1, Ok (mk_stats (records s0) (workouts s0) (statistics s0)
                       (chunks_processed s0 + 1)))
         ∧ session st1 = session st0).
Proof.
  intros Hrun. split; [| split].
  - unfold import_stream, bind in Hrun.
    destruct (import_chunks uid (chunks x) (mk_stats 0 0 0 0) st)
      as [st1 [s1 | e]] eqn:E; [| discriminate].
    apply import_chunks_counts in E. simpl in E.
    destruct (parse_failure x); [discriminate |].
    injection Hrun as _ <-. exact E.
  - intros df s0 st0. apply import_chunk_empty.
  - intros df s0 st0. apply import_chunk_unknown.
Qed.

End Counters.

Section CountersExample.
#[local] Existing Instance Reference.collaborators.

(** The import of a file of four chunks, one of them without rows and one
    of unknown kind, ends with three chunks counted. *)
Lemma chunks_processed_counts_non_empty_chunks_witness :
  XmlService.import_stream Reference.TEST_USER_ID Samples2.four_chunks
    Samples.fresh
  = ((XmlService.import_stream Reference.TEST_USER_ID Samples2.four_chunks
        Samples.fresh).1,
     Ok (XmlService.mk_stats 2 1 0 3))
  ∧ XmlService.chunks_processed (XmlService.mk_stats 2 1 0 3)
    = length (non_empty (XmlService.chunks Samples2.four_chunks)).
Proof.
  assert (Hrun :
    XmlService.import_stream Reference.TEST_USER_ID Samples2.four_chunks
      Samples.fresh
    = ((XmlService.import_stream Reference.TEST_USER_ID Samples2.four_chunks
          Samples.fresh).1,
       Ok (XmlService.mk_stats 2 1 0 3))).
  { vm_compute. reflexivity. }
  split; [exact Hrun |].
  exact (proj1 (chunks_processed_counts_non_empty_chunks
                  Reference.TEST_USER_ID Samples2.four_chunks Samples.fresh
                  _ _ Hrun)).
Defined.

End CountersExample.

(** ** Truncation of string fields *)

Lemma slice_to_length (n : nat) (s : string) :
  (String.length (slice_to n s) ≤ n)%nat.
Proof.
  revert s. induction n as [| n IH]; intros s; simpl; [lia |].
  destruct s as [| c s]; simpl; [lia |]. specialize (IH s). lia.
Qed.

Lemma slice_to_prefix (n : nat) (s : string) :
  String.prefix (slice_to n s) s = true.
Proof.
  revert s. induction n as [| n IH]; intros s; simpl.
  - now destruct s.
  - destruct s as [| c s]; simpl; [reflexivity |].
    rewrite IH. now destruct (ascii_dec c c).
Qed.

Lemma slice_to_short (n : nat) (s : string) :
  (String.length s ≤ n)%nat → slice_to n s = s.
Proof.
  revert s. induction n as [| n IH]; intros s; simpl.
  - destruct s; simpl; [reflexivity | lia].
  - destruct s as [| c s]; simpl; [reflexivity |].
    intros Hl. rewrite IH by lia. reflexivity.
Qed.

Lemma get_insert_ne (r : row) (key key' : string) (v dflt : value) :
  key ≠ key' → get (<[key := v]> r) key' dflt = get r key' dflt.
Proof. intros Hne. unfold get. now rewrite lookup_insert_ne. Qed.

Lemma cut_fields_bounded (kind : string) (r : row) :
  Forall (fun fs => (String.length fs.2 ≤ max_length fs.1)%nat)
    (cut_fields kind r).
Proof.
  unfold cut_fields.
  destruct (String.eqb kind "record"); [| destruct (String.eqb kind "workout")];
    repeat (apply Forall_cons_2; [unfold cut; apply slice_to_length |]);
    apply Forall_nil_2.
Qed.

Section Truncation.
Context `{Collaborators}.

Lemma built_record_strings (uid : string) (r : row) (o : RecordCreate Z) :
  built_record uid r = Ok o →
  string_fields (ERecord o) = cut_fields "record" r.
Proof.
  unfold built_record, XmlService.record_data, XmlService.validate_record.
  unfold_result. intros Hb. step_ok. reflexivity.
Qed.

Lemma built_workout_strings (uid : string) (r : row)
    (o : XMLWorkoutCreate Z) :
  built_workout uid r = Ok o →
  string_fields (EWorkout o) = cut_fields "workout" r.
Proof.
  unfold built_workout, XmlService.workout_data, XmlService.validate_workout.
  unfold_result. intros Hb. step_ok. reflexivity.
Qed.

Lemma built_statistic_strings (uid : string) (r : row)
    (o : WorkoutStatisticCreate Z) :
  built_statistic uid r = Ok o →
  string_fields (EStatistic o) = cut_fields "statistic" r.
Proof.
  unfold built_statistic, XmlService.stat_data,
    XmlService.validate_statistic.
  unfold_result. intros Hb. step_ok. reflexivity.
Qed.

Lemma built_strings (kind uid : string) (r : row) (e : entity) :
  built kind uid r = Ok e → string_fields e = cut_fields kind r.
Proof.
  unfold built, cut_fields.
  destruct (String.eqb kind "record") eqn:K1;
    [| destruct (String.eqb kind "workout") eqn:K2].
  - destruct (built_record uid r) as [o | x] eqn:E; [| discriminate].
    intros [= <-]. now apply built_record_strings in E.
  - destruct (built_workout uid r) as [o | x] eqn:E; [| discriminate].
    intros [= <-]. now apply built_workout_strings in E.
  - destruct (built_statistic uid r) as [o | x] eqn:E; [| discriminate].
    intros [= <-]. now apply built_statistic_strings in E.
Qed.

End Truncation.

#[local] Arguments slice_to : simpl never.

Section NotRejected.
Context `{Collaborators}.

(** Whether a row becomes an entity does not depend on the cells its
    string fields are read from: whatever text such a cell holds, however
    long, the row is built or refused as before. *)
Lemma built_ignores_string_cells (kind uid key : string) (v : value)
    (r : row) :
  key ∈ string_cells →
  is_ok (built kind uid (<[key := v]> r)) = is_ok (built kind uid r).
Proof.
  intros Hk. unfold string_cells in Hk. set_unfold in Hk.
  unfold built, built_record, built_workout, built_statistic,
    XmlService.record_data, XmlService.workout_data, XmlService.stat_data.
  destruct_or!; subst key;
    rewrite ?(get_insert_ne r _ "startDate"), ?(get_insert_ne r _ "endDate"),
      ?(get_insert_ne r _ "creationDate"), ?(get_insert_ne r _ "value"),
      ?(get_insert_ne r _ "duration"), ?(get_insert_ne r _ "sum"),
      ?(get_insert_ne r _ "average"), ?(get_insert_ne r _ "maximum"),
      ?(get_insert_ne r _ "minimum") by discriminate;
    (destruct (String.eqb kind "record");
       [| destruct (String.eqb kind "workout")]);
    unfold_result;
    unfold XmlService.validate_record, XmlService.validate_workout,
      XmlService.validate_statistic;
    unfold_result; case_results; reflexivity.
Qed.

(** C6: the entity a row becomes carries, in each string field, the text
    of its cell cut to the declared maximum (type 50; sourceName,
    sourceVersion, deviceId 100; unit, durationUnit 10), and a row that
    is built stays built when a string cell is replaced by any other
    value, an oversized text included. *)
Theorem string_fields_truncated_never_rejected (kind uid : string)
    (r : row) (e : entity) :
  built kind uid r = Ok e →
  string_fields e = cut_fields kind r
  ∧ Forall (fun fs => (String.length fs.2 ≤ max_length fs.1)%nat)
      (string_fields e)
  ∧ (∀ key v, key ∈ string_cells →
       is_ok (built kind uid (<[key := v]> r)) = true).
Proof.
  intros Hb. pose proof (built_strings _ _ _ _ Hb) as Hs.
  split; [exact Hs |]. split.
  - rewrite Hs. apply cut_fields_bounded.
  - intros key v Hk. rewrite built_ignores_string_cells by exact Hk.
    now rewrite Hb.
Qed.

(** What [_process_records_df] writes for a row is the entity above. *)
Lemma record_row_writes (uid : string) (r : row)
    (st st' : XmlService.state) :
  XmlService.record_row uid r st = (st', Ok tt) →
  ∃ o, built_record uid r = Ok o
       ∧ XmlService.session st' = (XmlService.session st ++ [ERecord o])%list.
Proof.
  unfold XmlService.record_row, XmlService.guarded, try_except, bind, lift,
    XmlService.create, built_record.
  unfold_result.
  destruct (XmlService.record_data uid r) as [d | x]; simpl.
  - destruct (XmlService.validate_record d) as [o | x]; simpl.
    + destruct (db_accepts (ERecord o)); simpl.
      * intros [= <-]. eauto.
      * raising.
    + raising.
  - raising.
Qed.

Lemma workout_row_writes (uid : string) (r : row)
    (st st' : XmlService.state) :
  XmlService.workout_row uid r st = (st', Ok tt) →
  ∃ o, built_workout uid r = Ok o
       ∧ XmlService.session st' = (XmlService.session st ++ [EWorkout o])%list.
Proof.
  unfold XmlService.workout_row, XmlService.guarded, try_except, bind, lift,
    XmlService.create, built_workout.
  unfold_result.
  destruct (XmlService.workout_data uid r) as [d | x]; simpl.
  - destruct (XmlService.validate_workout d) as [o | x]; simpl.
    + destruct (db_accepts (EWorkout o)); simpl.
      * intros [= <-]. eauto.
      * raising.
    + raising.
  - raising.
Qed.

Lemma statistic_row_writes (uid : string) (r : row)
    (st st' : XmlService.state) :
  XmlService.statistic_row uid r st = (st', Ok tt) →
  ∃ o, built_statistic uid r = Ok o
       ∧ XmlService.session st' = (XmlService.session st ++ [EStatistic o])%list.
Proof.
  unfold XmlService.statistic_row, XmlService.guarded, try_except, bind,
    lift, XmlService.create, built_statistic.
  unfold_result.
  destruct (XmlService.stat_data uid r) as [d | x]; simpl.
  - destruct (XmlService.validate_statistic d) as [o | x]; simpl.
    + destruct (db_accepts (EStatistic o)); simpl.
      * intros [= <-]. eauto.
      * raising.
    + raising.
  - raising.
Qed.

End NotRejected.

(** A record with a [type] of 60 characters and a [unit] of 12 is built,
    with the first 50 and the first 10 of them. *)
Lemma string_fields_truncated_never_rejected_witness :
  @built Reference.collaborators "record" Reference.TEST_USER_ID
    Samples2.oversized
  = Ok Samples2.oversized_entity
  ∧ string_fields Samples2.oversized_entity
    = [("type", "HKQuantityTypeIdentifierAppleWalkingSteadinessAndM");
       ("sourceVersion", "10.1"); ("sourceName", "Watch");
       ("deviceId", "Watch6,1"); ("unit", "count/minu")].
Proof.
  assert (Hb : @built Reference.collaborators "record"
                 Reference.TEST_USER_ID Samples2.oversized
               = Ok Samples2.oversized_entity).
  { vm_compute. reflexivity. }
  split; [exact Hb |].
  rewrite (proj1 (@string_fields_truncated_never_rejected
                    Reference.collaborators _ _ _ _ Hb)).
  vm_compute. reflexivity.
Defined.

(** ** The orchestration run *)

(** process_uploaded_task.py binds no name [xml_import_service]: the
    call of line 41 raises [NameError] before anything is imported. *)
Lemma call_import_xml_raises (uid : string) (x : XmlService.xml_stream)
    (st : XmlService.state) :
  UploadedTask.call_import_xml uid x st = (st, Raise unbound_service).
Proof. reflexivity. Qed.


Lemma path_join_truthy (dir name : string) :
  truthy (Some (path_join dir name)) = true.
Proof. destruct dir; reflexivity. Qed.

(** A run of a task ends by returning the dict of its [try] block or of
    its [except] clause; nothing is raised to the caller. *)
Lemma run_task_returns (body : T TaskResult) (failed : exn → TaskResult)
    (w : world) :
  ∃ r, (run_task body failed w).2 = Ok r.
Proof.
  unfold run_task, try_except.
  destruct (body (mk_frame w None None)) as [fr [r | e]]; [simpl; eauto |].
  rewrite caught_by_Exception. simpl. eauto.
Qed.

#[local] Set Warnings "-clear-no-such-hyp".

Section Cleanup.

Import Runs.

(** Where the [try] block of [process_uploaded_xml_file] ends: at the
    download when it fails, and at the call of the import when it does
    not.  The dump and the upload are never reached. *)
Lemma body_ends (env : environment) (bucket_name key uid : string)
    (w : world) :
  UploadedTask.body env bucket_name key uid (mk_frame w None None)
  = match download env with
    | io_ok =>
        (mk_frame (mk_world ({[temp_path env key]} ∪ files w) (store w)
                     (objects w))
           (Some (temp_path env key)) None,
         Raise unbound_service)
    | io_failed e file_left =>
        (mk_frame (if file_left
                   then mk_world ({[temp_path env key]} ∪ files w) (store w)
                          (objects w)
                   else w)
           (Some (temp_path env key)) None,
         Raise e)
    end.
Proof.
  unfold UploadedTask.body, bind, set_temp_xml_file, modify, download_file.
  fold (temp_path env key). simpl.
  destruct (download env) as [| e left]; [reflexivity |].
  destruct left; reflexivity.
Qed.

(** The whole run, in terms of the frame the [try] block leaves. *)
Lemma run_ends (env : environment) (bucket_name key : string)
    (user_id : option string) (w : world) :
  ∃ fr e,
    UploadedTask.body env bucket_name key (derived_user_id user_id key)
      (mk_frame w None None) = (fr, Raise e)
    ∧ UploadedTask.process_uploaded_xml_file env bucket_name key user_id w
      = (cleanup fr,
         Ok (mk_result bucket_name key None (derived_user_id user_id key)
               "failed" None (Some (exn_msg e)))).
Proof.
  unfold UploadedTask.process_uploaded_xml_file, run_task, try_except.
  fold (derived_user_id user_id key). rewrite body_ends.
  destruct (download env) as [| e left]; do 2 eexists;
    (split; [reflexivity |]); rewrite caught_by_Exception; reflexivity.
Qed.

(** The [finally] clause removes what the frame names. *)
Lemma cleanup_removes (fr : frame) (p : string) :
  truthy (Some p) = true →
  (temp_xml_file fr = Some p ∨ dump_file fr = Some p) →
  p ∉ files (cleanup fr).
Proof.
  intros Ht Hp. unfold cleanup, remove_if_exists. simpl.
  destruct Hp as [-> | ->].
  - rewrite Ht. simpl. destruct (dump_file fr) as [q |];
      repeat (case_bool_decide || destruct (truthy _)); simpl; set_solver.
  - rewrite Ht. simpl. destruct (temp_xml_file fr) as [q |];
      repeat (case_bool_decide || destruct (truthy _)); simpl; set_solver.
Qed.

(** It creates no file. *)
Lemma cleanup_subset (fr : frame) (p : string) :
  p ∈ files (cleanup fr) → p ∈ files (world_of fr).
Proof.
  unfold cleanup, remove_if_exists. simpl.
  destruct (temp_xml_file fr) as [q |], (dump_file fr) as [q' |];
    repeat (case_bool_decide || destruct (truthy _)); simpl; set_solver.
Qed.

(** It leaves the store and the bucket as they are. *)
Lemma cleanup_store (fr : frame) :
  store (cleanup fr) = store (world_of fr)
  ∧ objects (cleanup fr) = objects (world_of fr).
Proof. split; reflexivity. Qed.





(** The file whose second chunk fails at its second row, every
    collaborator answering: the run answers [failed] with the text of
    the [NameError] and stores nothing, as does, for the failure of the
    row, the task of process_upload_task.py. *)
Lemma file_with_failing_row_is_not_imported :
  snd (RunsOf.uploaded second_chunk_fails)
  = Ok (mk_result "uploads" object_key None Reference.TEST_USER_ID "failed"
          None (Some "name 'xml_import_service' is not defined"))
  ∧ store (fst (RunsOf.uploaded second_chunk_fails)) = []
  ∧ (∃ t, snd (RunsOf.upload second_chunk_fails) = Ok t
          ∧ status t = "failed")
  ∧ store (fst (RunsOf.upload second_chunk_fails)) = [].
Proof.
  repeat split; try (eexists; repeat split); vm_compute; reflexivity.
Qed.


End Cleanup.

(** ** The queue consumer *)

Section Consumer.

Import Tasks.

Context `{Services}.

(** Handling the records of a message touches neither the queue nor the
    trace. *)
Lemma handle_record_frame (record : json) (c : nat) (b b' : broker)
    (res : result nat) :
  handle_record record c b = (b', res) →
  queue b' = queue b ∧ trace b' = trace b.
Proof.
  unfold handle_record, bind, lift, delay, ret. unfold_result.
  simpl. case_results;
    repeat match goal with
           | |- context [if ?c then _ else _] => destruct c; simpl
           end;
    case_results;
    repeat match goal with
           | |- context [delay_raises ?b ?x ?y] =>
               destruct (delay_raises b x y); simpl
           end;
    intros [= <- <-]; auto.
Qed.

Lemma handle_records_frame (records : list json) :
  ∀ (c : nat) (b b' : broker) (res : result nat),
    handle_records records c b = (b', res) →
    queue b' = queue b ∧ trace b' = trace b.
Proof.
  induction records as [| r rs IH]; intros c b b' res; simpl.
  - intros [= <- <-]. auto.
  - unfold bind at 1.
    destruct (handle_record r c b) as [b1 [c1 | e]] eqn:E;
      apply handle_record_frame in E as [Eq Et].
    + intros Hrest. apply IH in Hrest as [-> ->]. auto.
    + intros [= <- <-]. auto.
Qed.

(** A record whose event source is not [aws:s3] enqueues nothing. *)
Lemma handle_records_without_s3 (records : list json) :
  ∀ (c c' : nat) (b b' : broker),
    handle_records records c b = (b', Ok c') →
    existsb
      (fun record =>
         match get_method record "eventSource" with
         | Ok source => is_str "aws:s3" source
         | Raise _ => false
         end) records = false →
    b' = b ∧ c' = c.
Proof.
  induction records as [| r rs IH]; intros c c' b b'; simpl.
  - intros [= <- <-]. auto.
  - unfold bind at 1. unfold handle_record at 1. unfold bind, lift, ret.
    destruct (get_method r "eventSource") as [source | e]; simpl;
      [| discriminate].
    destruct (is_str "aws:s3" source); simpl; [discriminate |].
    intros Hrest Hex. now apply IH in Hrest.
Qed.

End Consumer.

Section ConsumerMessages.

Import Tasks.

Context `{Services}.

(** One message: the trace is untouched; when the handling returns the
    message is gone from the queue, when it raises the queue is as it
    was. *)
Lemma handle_message_frame (m : message) (c : nat) (b b' : broker)
    (res : result nat) :
  handle_message m c b = (b', res) →
  trace b' = trace b
  ∧ queue b' = (if is_ok res then without_handle (ReceiptHandle m) (queue b)
                else queue b).
Proof.
  unfold handle_message, try_except, bind, lift, delete_message, ret, raise.
  destruct (Body m) as [body | e]; simpl.
  2: { destruct (subclass _ _ || false); intros [= <- <-]; auto. }
  destruct (contains body "Records") as [[|] | e]; simpl.
  - destruct (rs ← subscript body "Records"; iterate rs)
      as [records | e]; simpl.
    + destruct (handle_records records c b) as [b1 [c1 | e]] eqn:E;
        apply handle_records_frame in E as [Eq Et]; simpl.
      * destruct (delete_raises b1 (ReceiptHandle m)); simpl.
        -- destruct (subclass _ _ || false); intros [= <- <-]; auto.
        -- intros [= <- <-]. simpl. rewrite Eq. auto.
      * destruct (subclass _ _ || false); intros [= <- <-]; auto.
    + destruct (subclass _ _ || false); intros [= <- <-]; auto.
  - destruct (delete_raises b (ReceiptHandle m)); simpl.
    + destruct (subclass _ _ || false); intros [= <- <-]; auto.
    + intros [= <- <-]. auto.
  - destruct (subclass _ _ || false); intros [= <- <-]; auto.
Qed.

(** What the handling of a message raises is what it re-raises. *)
Lemma handle_message_unfold (m : message) (c : nat) (b : broker) :
  handle_message m c b
  = (message_body <- lift (Body m) ;;
     has <- lift (contains message_body "Records") ;;
     c' <- (if has : bool then
              records <- lift (rs ← subscript message_body "Records";
                               iterate rs) ;;
              handle_records records c
            else ret c) ;;
     delete_message (ReceiptHandle m) ;;;
     ret c') b.
Proof.
  unfold handle_message, try_except.
  match goal with
  | |- match ?run b with _ => _ end = _ => destruct (run b) as [b1 [c1 | e]]
  end; [reflexivity |].
  now rewrite caught_by_Exception.
Qed.

(** A message without an [aws:s3] record, once handled, has enqueued no
    task and counted none. *)
Lemma handle_message_without_s3 (m : message) (c c' : nat)
    (b b' : broker) :
  handle_message m c b = (b', Ok c') →
  has_s3_record m = false →
  enqueued b' = enqueued b ∧ c' = c.
Proof.
  rewrite handle_message_unfold.
  unfold has_s3_record, bind, lift, delete_message, ret.
  destruct (Body m) as [body | e]; simpl; [| discriminate].
  destruct (contains body "Records") as [[|] | e]; simpl; [| | discriminate].
  - destruct (rs ← subscript body "Records"; iterate rs)
      as [records | e]; simpl; [| discriminate].
    destruct (handle_records records c b) as [b1 [c1 | e]] eqn:E; simpl;
      [| discriminate].
    destruct (delete_raises b1 (ReceiptHandle m)); simpl; [discriminate |].
    intros [= <- <-] Hex. simpl.
    now destruct (handle_records_without_s3 _ _ _ _ _ E Hex) as [-> ->].
  - destruct (delete_raises b (ReceiptHandle m)); simpl; [discriminate |].
    intros [= <- <-]. auto.
Qed.

Lemma without_handle_subset (h : string) (q : list message) (m : message) :
  m ∈ without_handle h q → m ∈ q ∧ ReceiptHandle m ≠ h.
Proof.
  unfold without_handle. rewrite list_elem_of_In, filter_In.
  rewrite <- list_elem_of_In. intros [Hin Hne]. split; [exact Hin |].
  intros Heq. rewrite Heq, String.eqb_refl in Hne. discriminate.
Qed.

Lemma without_handles_nil (q : list message) : without_handles [] q = q.
Proof.
  unfold without_handles. simpl. induction q as [| m q IH]; simpl;
    [reflexivity | now rewrite IH].
Qed.

Lemma without_handles_snoc (ms : list message) (m : message)
    (q : list message) :
  without_handles (ms ++ [m]) q
  = without_handle (ReceiptHandle m) (without_handles ms q).
Proof.
  unfold without_handles, without_handle.
  induction q as [| m' q IH]; simpl; [reflexivity |].
  rewrite forallb_app. simpl. rewrite andb_true_r.
  destruct (forallb _ ms); simpl; [| exact IH].
  destruct (negb (String.eqb (ReceiptHandle m') (ReceiptHandle m)));
    simpl; now rewrite IH.
Qed.

(** The messages left once those of [ms] are deleted: the ones that
    share a receipt handle with none of them. *)
Lemma elem_of_without_handles (ms q : list message) (m' : message) :
  m' ∈ without_handles ms q
  ↔ m' ∈ q ∧ ∀ m, m ∈ ms → ReceiptHandle m' ≠ ReceiptHandle m.
Proof.
  unfold without_handles.
  rewrite list_elem_of_In, filter_In, <- list_elem_of_In, forallb_forall.
  split; intros [Hin Hall]; (split; [exact Hin |]).
  - intros m Hm Heq. apply list_elem_of_In, Hall in Hm.
    rewrite Heq, String.eqb_refl in Hm. discriminate.
  - intros m Hm. apply negb_true_iff, String.eqb_neq, Hall.
    now apply list_elem_of_In.
Qed.

(** The messages of a batch, in turn: the ones handled before the first
    whose handling raises are deleted, and with it the handling of the
    batch ends. *)
Lemma handle_messages_queue (ms : list message) :
  ∀ (c : nat) (b b' : broker) (res : result nat),
    handle_messages ms c b = (b', res) →
    trace b' = trace b
    ∧ match res with
      | Ok _ => queue b' = without_handles ms (queue b)
      | Raise x =>
          ∃ done m rest c1 b1,
            ms = (done ++ m :: rest)%list
            ∧ handle_messages done c b = (b1, Ok c1)
            ∧ handle_message m c1 b1 = (b', Raise x)
            ∧ queue b' = without_handles done (queue b)
      end.
Proof.
  induction ms as [| m ms IH] using rev_ind; intros c b b' res.
  - simpl. intros [= <- <-]. split; [reflexivity |].
    now rewrite without_handles_nil.
  - assert (Happ : ∀ l c0 b0,
              handle_messages (l ++ [m]) c0 b0
              = match handle_messages l c0 b0 with
                | (b1, Ok c1) => handle_message m c1 b1
                | (b1, Raise e) => (b1, Raise e)
                end).
    { clear. induction l as [| a l IHl]; intros c0 b0; simpl.
      - unfold bind. destruct (handle_message m c0 b0) as [b1 [c1 | e]];
          reflexivity.
      - unfold bind.
        destruct (handle_message a c0 b0) as [b1 [c1 | e]];
          [apply IHl | reflexivity]. }
    rewrite Happ.
    destruct (handle_messages ms c b) as [b1 [c1 | e]] eqn:E;
      pose proof (IH _ _ _ _ E) as [Et Eq].
    + intros Hm. pose proof Hm as Hm'.
      apply handle_message_frame in Hm' as [Ht Hq].
      split; [congruence |]. destruct res as [c2 | x]; simpl in Hq.
      * rewrite Hq, Eq. now rewrite without_handles_snoc.
      * exists ms, m, [], c1, b1. repeat split; auto.
        now rewrite Hq, Eq.
    + intros [= <- <-]. split; [exact Et |].
      destruct Eq as (done & m0 & rest & c1 & b2 & -> & Hd & Hm & Hq).
      exists done, m0, (rest ++ [m])%list, c1, b2.
      repeat split; auto. now rewrite <- app_assoc.
Qed.

End ConsumerMessages.

Section Poll.

Import Tasks.

Context `{Services}.

(** The state and outcome of a poll in terms of the handling of its
    batch. *)
Lemma poll_unfold (batch : list message) (b : broker) :
  poll_sqs_messages (Ok batch) b
  = match handle_messages batch 0
            (mk_broker (queue b) (enqueued b)
               (trace b ++ [receive_message_called])) with
    | (b1, Ok c) => (b1, Ok (mk_poll_result c (length batch) batch))
    | (b1, Raise e) => (b1, Raise (mk_exn HTTPException (exn_msg e)))
    end.
Proof.
  unfold poll_sqs_messages, try_except, receive_message, bind, lift, modify,
    ret, raise. simpl.
  destruct (handle_messages batch 0 _) as [b1 [c | e]]; [reflexivity |].
  now rewrite subclass_Exception.
Qed.

(** A poll issues one receive call, whatever comes of it. *)
Lemma poll_trace (batch : result (list message)) (b b' : broker)
    (res : result poll_result) :
  poll_sqs_messages batch b = (b', res) →
  trace b' = (trace b ++ [receive_message_called])%list.
Proof.
  destruct batch as [msgs | e].
  - rewrite poll_unfold.
    destruct (handle_messages msgs 0 _) as [b1 [c1 | e]] eqn:E;
      apply handle_messages_queue in E as [Et _]; simpl in Et;
      intros [= <- <-]; exact Et.
  - unfold poll_sqs_messages, try_except, receive_message, bind, lift,
      modify, raise. simpl.
    destruct (subclass _ _ || false); intros [= <- <-]; reflexivity.
Qed.

(** C8, amended.  A poll that returns has deleted from the queue every
    message it received, whether the message led to tasks or not and
    without regard to what becomes of the tasks, and no other message.
    A poll in which the handling of a received message raises ends in an
    HTTPException with the text of what was raised: the messages handled
    before that one are deleted, and that message, the later ones and
    the rest of the queue stay, a message that shares its receipt handle
    with a deleted one apart.  A received message without a record of
    event source [aws:s3], when its handling returns, has been deleted
    without a task being enqueued or counted. *)
Theorem poll_deletes_the_messages_it_handled (batch : list message)
    (b b' : broker) (res : result poll_result) :
  poll_sqs_messages (Ok batch) b = (b', res) →
  match res with
  | Ok _ =>
      ∀ m', m' ∈ queue b'
            ↔ m' ∈ queue b
              ∧ ∀ m, m ∈ batch → ReceiptHandle m' ≠ ReceiptHandle m
  | Raise e =>
      ∃ done m rest x c1 b1,
        batch = (done ++ m :: rest)%list
        ∧ handle_messages done 0
            (mk_broker (queue b) (enqueued b)
               (trace b ++ [receive_message_called])) = (b1, Ok c1)
        ∧ handle_message m c1 b1 = (b', Raise x)
        ∧ e = mk_exn HTTPException (exn_msg x)
        ∧ ∀ m', m' ∈ queue b'
                ↔ m' ∈ queue b
                  ∧ ∀ p, p ∈ done → ReceiptHandle m' ≠ ReceiptHandle p
  end
  ∧ (∀ m c c' b0 b1,
       m ∈ batch → has_s3_record m = false →
       handle_message m c b0 = (b1, Ok c') →
       enqueued b1 = enqueued b0 ∧ c' = c
       ∧ queue b1 = without_handle (ReceiptHandle m) (queue b0)).
Proof.
  rewrite poll_unfold.
  destruct (handle_messages batch 0 _) as [b1 [c1 | x]] eqn:E;
    apply handle_messages_queue in E as [_ Hq]; simpl in Hq;
    intros [= <- <-]; (split; [|
      intros m c c' b0 b2 _ Hno Hm;
      destruct (handle_message_without_s3 _ _ _ _ _ Hm Hno) as [He Hc];
      apply handle_message_frame in Hm as [_ Hm]; simpl in Hm; auto]).
  - intros m'. rewrite Hq. apply elem_of_without_handles.
  - destruct Hq as (done & m & rest & c1 & b2 & -> & Hd & Hm & Hq).
    exists done, m, rest, x, c1, b2.
    do 4 (split; [first [reflexivity | assumption] |]).
    intros m'. rewrite Hq. apply elem_of_without_handles.
Qed.

(** The repeated poll after [n] more rounds, from round [k]. *)
Lemma poll_loop_trace (batches : nat → result (list message)) (n : nat) :
  ∀ (k : nat) (b b' : broker) (res : result unit),
    poll_loop batches n k b = (b', res) →
    (polls (trace b') ≤ polls (trace b) + n)%nat
    ∧ (res = Ok tt → trace b' = (trace b ++ rounds n)%list).
Proof.
  induction n as [| n IH]; intros k b b' res; simpl.
  - intros [= <- <-]. split; [lia |]. intros _.
    unfold rounds. simpl. now rewrite app_nil_r.
  - unfold bind at 1.
    destruct (poll_sqs_messages (batches k) b) as [b1 [r1 | e]] eqn:E;
      apply poll_trace in E.
    + unfold bind at 1, sleep at 1, modify. simpl.
      intros Hrest. apply IH in Hrest as [Hle Hex]. simpl in Hle, Hex.
      rewrite E in Hle, Hex. split.
      * revert Hle. unfold polls. rewrite !List.filter_app, !length_app.
        simpl. lia.
      * intros Hok. rewrite (Hex Hok). unfold rounds. simpl.
        now rewrite <- !app_assoc.
    + intros [= <- <-]. split; [| discriminate].
      rewrite E. unfold polls. rewrite List.filter_app, length_app.
      simpl. lia.
Qed.

(** C9, amended: the repeated poll with a budget of [expiration_seconds]
    seconds never issues more than [expiration_seconds // 5] receive
    calls, and when no poll raises it issues exactly that many, each
    followed by a sleep of five seconds, and then returns. *)
Theorem repeated_poll_issues_floor_of_budget_polls
    (expiration_seconds : Z) (batches : nat → result (list message))
    (b : broker) :
  (0 ≤ expiration_seconds)%Z →
  (Z.of_nat (polls (trace (fst (poll_sqs_task expiration_seconds batches b))))
   ≤ Z.of_nat (polls (trace b)) + expiration_seconds / 5)%Z
  ∧ (snd (poll_sqs_task expiration_seconds batches b) = Ok tt →
     trace (fst (poll_sqs_task expiration_seconds batches b))
     = (trace b ++ rounds (Z.to_nat (expiration_seconds / 5)))%list
     ∧ (Z.of_nat
          (polls (trace (fst (poll_sqs_task expiration_seconds batches b))))
        = Z.of_nat (polls (trace b)) + expiration_seconds / 5)%Z).
Proof.
  intros Hpos. unfold poll_sqs_task.
  assert (Hq : (0 ≤ expiration_seconds / 5)%Z)
    by (apply Z.div_pos; lia).
  destruct (poll_loop batches (Z.to_nat (expiration_seconds / 5)) 0 b)
    as [b' res] eqn:E.
  apply poll_loop_trace in E as [Hle Hex]. simpl. split; [lia |].
  intros Hok. specialize (Hex Hok). split; [exact Hex |].
  rewrite Hex. unfold polls, rounds. rewrite List.filter_app, length_app.
  assert (Hn : ∀ n, length
                      (List.filter
                         (fun e => match e with
                                   | receive_message_called => true
                                   | slept _ => false
                                   end)
                         (concat (replicate n
                                    [receive_message_called; slept 5%Z])))
                    = n).
  { induction n as [| n IHn]; simpl; [reflexivity | now rewrite IHn]. }
  rewrite Hn. lia.
Qed.

End Poll.

(** C8, as the sources have it: a poll receives a message that is not
    JSON and, after it, the test event of the storage service.  Neither
    has a record with event source [aws:s3]; the poll ends in an
    HTTPException and both messages are still in the queue. *)
Lemma message_without_records_left_in_queue :
  has_s3_record plain_text = false
  ∧ has_s3_record test_event = false
  ∧ snd (@Tasks.poll_sqs_messages reliable (Ok [plain_text; test_event])
           (Tasks.mk_broker [plain_text; test_event] [] []))
    = Raise (mk_exn HTTPException "Expecting value")
  ∧ Tasks.queue
      (fst (@Tasks.poll_sqs_messages reliable (Ok [plain_text; test_event])
              (Tasks.mk_broker [plain_text; test_event] [] [])))
    = [plain_text; test_event].
Proof. repeat split; vm_compute; reflexivity. Qed.

(** A poll that receives the test event, a message that is not JSON and
    a notification, in that order: the test event is deleted, the poll
    ends at the second message, and that message and the notification
    are still in the queue. *)
Lemma poll_deletes_the_messages_it_handled_witness :
  Tasks.queue
    (fst (@Tasks.poll_sqs_messages reliable (Ok Polls.mixed_batch)
            Polls.three_waiting))
  = [upload_event; plain_text]
  ∧ ∃ done m rest x c1 b1,
      Polls.mixed_batch = (done ++ m :: rest)%list
      ∧ @Tasks.handle_messages reliable done 0
          (Tasks.mk_broker (Tasks.queue Polls.three_waiting)
             (Tasks.enqueued Polls.three_waiting)
             (Tasks.trace Polls.three_waiting
              ++ [Tasks.receive_message_called])) = (b1, Ok c1)
      ∧ @Tasks.handle_message reliable m c1 b1
        = (Tasks.mk_broker [upload_event; plain_text] []
             [Tasks.receive_message_called], Raise x)
      ∧ mk_exn HTTPException "Expecting value"
        = mk_exn HTTPException (exn_msg x)
      ∧ ∀ m', m' ∈ [upload_event; plain_text]
              ↔ m' ∈ Tasks.queue Polls.three_waiting
                ∧ ∀ p, p ∈ done →
                       Tasks.ReceiptHandle m' ≠ Tasks.ReceiptHandle p.
Proof.
  split; [vm_compute; reflexivity |].
  refine (proj1 (@poll_deletes_the_messages_it_handled reliable
                   Polls.mixed_batch Polls.three_waiting
                   (Tasks.mk_broker [upload_event; plain_text] []
                      [Tasks.receive_message_called])
                   (Raise (mk_exn HTTPException "Expecting value")) _)).
  vm_compute. reflexivity.
Defined.

(** C9, as the sources have it: a budget of 17 seconds, which allows
    three polls, and a second poll that receives a message that is not
    JSON.  The repeated poll ends in the HTTPException of that poll
    after two receive calls. *)
Lemma failing_poll_ends_repeated_poll_early :
  (17 / 5 = 3)%Z
  ∧ Tasks.polls
      (Tasks.trace
         (fst (@Tasks.poll_sqs_task reliable 17 Polls.second_poll_fails
                 idle)))
    = 2%nat
  ∧ snd (@Tasks.poll_sqs_task reliable 17 Polls.second_poll_fails idle)
    = Raise (mk_exn HTTPException "Expecting value").
Proof. repeat split; vm_compute; reflexivity. Qed.

(** A budget of 17 seconds: three polls, each followed by a sleep. *)
Lemma repeated_poll_issues_floor_of_budget_polls_witness :
  (Z.of_nat
     (Tasks.polls
        (Tasks.trace
           (fst (@Tasks.poll_sqs_task reliable 17 (fun _ => Ok []) idle))))
   ≤ Z.of_nat (Tasks.polls (Tasks.trace idle)) + 17 / 5)%Z
  ∧ Tasks.trace
      (fst (@Tasks.poll_sqs_task reliable 17 (fun _ => Ok []) idle))
    = [Tasks.receive_message_called; Tasks.slept 5%Z;
       Tasks.receive_message_called; Tasks.slept 5%Z;
       Tasks.receive_message_called; Tasks.slept 5%Z].
Proof.
  destruct (@repeated_poll_issues_floor_of_budget_polls reliable 17
              (fun _ => Ok []) idle) as [Hle Hex]; [lia |].
  split; [exact Hle |].
  destruct Hex as [Ht _]; [vm_compute; reflexivity |].
  rewrite Ht. vm_compute. reflexivity.
Defined.

(** * Further properties of the code *)

(** ** Coercion and classification *)

(** X1: the coercion of the service answers [None] for the cell [None]
    and for no other cell: a cell that holds anything else becomes a
    decimal or makes the call raise. *)
Theorem service_safe_decimal_absent_only_for_none (v : value) :
  XmlService._safe_decimal v = Ok None ↔ v = VNone.
Proof.
  split; [| intros ->; reflexivity].
  destruct (decide (v = VNone)) as [-> | Hn]; [reflexivity |].
  destruct (is_float_zero v) eqn:Hz.
  - destruct v as [| | | [| | |] |]; try discriminate Hz.
    vm_compute. discriminate.
  - rewrite service_safe_decimal_generic by assumption.
    destruct (of_str (str v)); discriminate.
Qed.

(** X2: for a cell other than [None] the coercion of the upload task is
    [Decimal(str(cell))]: the decimal the text denotes when the text is
    a number within the limits of the module, and
    [decimal.InvalidOperation] raised to the caller when the text is not
    a number or the number is beyond the limits. *)
Theorem task_safe_decimal_of_a_value (v : value) :
  v ≠ VNone →
  (∃ d, parse (str v) = Some d ∧ representable d = true
        ∧ UploadTask._safe_decimal v = Ok (Some d))
  ∨ (∃ e, (parse (str v) = None
           ∨ ∃ d, parse (str v) = Some d ∧ representable d = false)
          ∧ UploadTask._safe_decimal v = Raise e
          ∧ exn_cls e = InvalidOperation).
Proof.
  intros Hn. rewrite task_safe_decimal_generic by assumption.
  unfold of_str. destruct (parse (str v)) as [d |];
    [destruct (representable d) eqn:Hr; [left | right] | right]; eauto 8.
Qed.

(** The cell [1.5e3], a string, becomes the decimal 15 times 10 to the
    power 2. *)
Lemma task_safe_decimal_of_a_value_witness :
  parse (str (VStr "1.5e3")) = Some (Finite false 15 2)
  ∧ ((∃ d, parse (str (VStr "1.5e3")) = Some d ∧ representable d = true
           ∧ UploadTask._safe_decimal (VStr "1.5e3") = Ok (Some d))
     ∨ (∃ e, (parse (str (VStr "1.5e3")) = None
              ∨ ∃ d, parse (str (VStr "1.5e3")) = Some d
                     ∧ representable d = false)
             ∧ UploadTask._safe_decimal (VStr "1.5e3") = Raise e
             ∧ exn_cls e = InvalidOperation)).
Proof.
  split; [reflexivity |].
  apply task_safe_decimal_of_a_value. discriminate.
Defined.

Lemma subset_of_column_set (df : DataFrame) :
  bool_decide (({["sum"; "average"; "maximum"; "minimum"]} : gset string)
                 ⊆ list_to_set (columns df)) = true
  ↔ statistic_signature df.
Proof. unfold statistic_signature, column_set. apply bool_decide_eq_true. Qed.

Lemma detect_dataframe_type_cases_helper (df : DataFrame) :
  (XmlService._detect_dataframe_type df = "statistic"
   ↔ empty df = false ∧ statistic_signature df)
  ∧ (XmlService._detect_dataframe_type df = "workout"
     ↔ empty df = false ∧ ¬ statistic_signature df ∧ workout_signature df)
  ∧ (XmlService._detect_dataframe_type df = "record"
     ↔ empty df = false ∧ ¬ statistic_signature df ∧ ¬ workout_signature df
       ∧ "value" ∈ column_set df).
Proof.
  unfold XmlService._detect_dataframe_type, statistic_signature,
    workout_signature, column_set.
  destruct (empty df);
    [repeat split; intros; try discriminate; naive_solver |].
  repeat case_bool_decide; simpl;
    repeat split; intros; try discriminate; naive_solver.
Qed.

(** X3: what each answer of the classifier means.  A chunk is a
    statistic when it has rows and the four statistic columns; a workout
    when it has rows, [duration] and [durationUnit] and is no statistic;
    a record when it has rows and [value] and is neither. *)
Theorem detect_dataframe_type_cases (df : DataFrame) :
  (XmlService._detect_dataframe_type df = "statistic"
   ↔ empty df = false ∧ statistic_signature df)
  ∧ (XmlService._detect_dataframe_type df = "workout"
     ↔ empty df = false ∧ ¬ statistic_signature df ∧ workout_signature df)
  ∧ (XmlService._detect_dataframe_type df = "record"
     ↔ empty df = false ∧ ¬ statistic_signature df ∧ ¬ workout_signature df
       ∧ "value" ∈ column_set df).
Proof. apply detect_dataframe_type_cases_helper. Qed.

(** The classification of a chunk that has rows depends on the set
    of its column names alone, not on their order, on repetitions or on
    the cells. *)
Theorem classification_depends_on_column_set (df1 df2 : DataFrame) :
  empty df1 = false → empty df2 = false →
  column_set df1 = column_set df2 →
  XmlService._detect_dataframe_type df1
  = XmlService._detect_dataframe_type df2.
Proof.
  unfold XmlService._detect_dataframe_type, column_set.
  intros -> -> ->. reflexivity.
Qed.

(** Two chunks of one record each, with the same columns in another
    order. *)
Lemma classification_depends_on_column_set_witness :
  XmlService._detect_dataframe_type
    (mk_df ["value"; "type"] [Samples.heart_rate "72"])
  = XmlService._detect_dataframe_type
      (mk_df ["type"; "value"; "type"]
         [Samples.heart_rate "75"; Samples.heart_rate "80"]).
Proof.
  apply classification_depends_on_column_set; reflexivity.
Defined.

(** ** The persisters *)

Section PersistRows.
Context `{Collaborators}.

Import XmlService.

Lemma built_of_record (uid : string) (r : row) (o : RecordCreate Z) :
  built_record uid r = Ok o → built "record" uid r = Ok (ERecord o).
Proof. unfold built. simpl. now intros ->. Qed.

Lemma built_of_workout (uid : string) (r : row) (o : XMLWorkoutCreate Z) :
  built_workout uid r = Ok o → built "workout" uid r = Ok (EWorkout o).
Proof. unfold built. simpl. now intros ->. Qed.

Lemma built_of_statistic (uid : string) (r : row)
    (o : WorkoutStatisticCreate Z) :
  built_statistic uid r = Ok o →
  built "statistic" uid r = Ok (EStatistic o).
Proof. unfold built. simpl. now intros ->. Qed.

(** A loop over rows whose body stores one entity per row: when it
    returns, it has counted every row and stored their entities in row
    order. *)
Lemma each_row_returns (body : row → M unit) (ent : row → entity → Prop) :
  (∀ r st st', body r st = (st', Ok tt) →
     ∃ e, ent r e ∧ session st' = (session st ++ [e])%list) →
  ∀ rs c st st' n,
    each_row body rs c st = (st', Ok n) →
    n = (c + length rs)%nat
    ∧ ∃ es, Forall2 ent rs es ∧ session st' = (session st ++ es)%list.
Proof.
  intros Hbody. induction rs as [| r rs IH]; intros c st st' n; simpl.
  - intros [= <- <-]. split; [lia |]. exists []. split; [constructor |].
    now rewrite app_nil_r.
  - unfold bind at 1.
    destruct (body r st) as [st1 [[] | x]] eqn:E; [| discriminate].
    intros Hrest. apply Hbody in E as (e & He & Hs).
    apply IH in Hrest as (-> & es & Hes & Hs').
    split; [lia |]. exists (e :: es). split; [now constructor |].
    rewrite Hs', Hs. now rewrite <- app_assoc.
Qed.

(** When it raises, the rows before the one that failed are stored, the
    failing row is the last entry of the log, and no later row was
    looked at. *)
Lemma each_row_raises (body : row → M unit) (ent : row → entity → Prop)
    (bad : row → exn → Prop) :
  (∀ r st st', body r st = (st', Ok tt) →
     ∃ e, ent r e ∧ session st' = (session st ++ [e])%list) →
  (∀ r st st' x, body r st = (st', Raise x) →
     session st' = session st ∧ bad r x
     ∧ ∃ msg, last (log st') = Some (log_error msg (Some r))) →
  ∀ rs c st st' x,
    each_row body rs c st = (st', Raise x) →
    ∃ done r rest es,
      rs = (done ++ r :: rest)%list
      ∧ Forall2 ent done es
      ∧ session st' = (session st ++ es)%list
      ∧ bad r x
      ∧ ∃ msg, last (log st') = Some (log_error msg (Some r)).
Proof.
  intros Hok Hbad. induction rs as [| r rs IH]; intros c st st' x; simpl.
  - discriminate.
  - unfold bind at 1.
    destruct (body r st) as [st1 [[] | y]] eqn:E.
    + intros Hrest. apply Hok in E as (e & He & Hs).
      apply IH in Hrest as (done & r' & rest & es & -> & Hes & Hs' & Hb & Hl).
      exists (r :: done), r', rest, (e :: es).
      split; [reflexivity |]. split; [now constructor |].
      split; [rewrite Hs', Hs; now rewrite <- app_assoc |]. auto.
    + intros [= <- <-]. apply Hbad in E as (Hs & Hb & Hl).
      exists [], r, rs, []. split; [reflexivity |]. split; [constructor |].
      split; [now rewrite app_nil_r |]. auto.
Qed.

Lemma raise_of_record (uid : string) (r : row) (x : exn) :
  built_record uid r = Raise x → built "record" uid r = Raise x.
Proof. unfold built. simpl. now intros ->. Qed.

Lemma raise_of_workout (uid : string) (r : row) (x : exn) :
  built_workout uid r = Raise x → built "workout" uid r = Raise x.
Proof. unfold built. simpl. now intros ->. Qed.

Lemma raise_of_statistic (uid : string) (r : row) (x : exn) :
  built_statistic uid r = Raise x → built "statistic" uid r = Raise x.
Proof. unfold built. simpl. now intros ->. Qed.

Lemma record_row_raises (uid : string) (r : row) (st st' : state) (x : exn) :
  record_row uid r st = (st', Raise x) →
  session st' = session st ∧ fails_with "record" uid r x
  ∧ ∃ msg, last (log st') = Some (log_error msg (Some r)).
Proof.
  unfold record_row, guarded, try_except, bind, lift, create.
  destruct (record_data uid r) as [d | y] eqn:Ed; simpl.
  - destruct (validate_record d) as [o | y] eqn:Ev; simpl.
    + assert (Hb : built_record uid r = Ok o).
      { unfold built_record. unfold_result. now rewrite Ed. }
      destruct (db_accepts (ERecord o)) eqn:Ea; simpl; [discriminate |].
      row_raised caught_by_Exception subclass_Exception. right. exists (ERecord o).
      split; [now apply built_of_record | split; [exact Ea | reflexivity]].
    + assert (Hb : built_record uid r = Raise y).
      { unfold built_record. unfold_result. now rewrite Ed. }
      row_raised caught_by_Exception subclass_Exception; left; now apply raise_of_record.
  - assert (Hb : built_record uid r = Raise y).
    { unfold built_record. unfold_result. now rewrite Ed. }
    row_raised caught_by_Exception subclass_Exception; left; now apply raise_of_record.
Qed.

End PersistRows.

Section PersistChunks.
Context `{Collaborators}.

Import XmlService.

Lemma workout_row_raises (uid : string) (r : row) (st st' : state)
    (x : exn) :
  workout_row uid r st = (st', Raise x) →
  session st' = session st ∧ fails_with "workout" uid r x
  ∧ ∃ msg, last (log st') = Some (log_error msg (Some r)).
Proof.
  unfold workout_row, guarded, try_except, bind, lift, create.
  destruct (workout_data uid r) as [d | y] eqn:Ed; simpl.
  - destruct (validate_workout d) as [o | y] eqn:Ev; simpl.
    + assert (Hb : built_workout uid r = Ok o).
      { unfold built_workout. unfold_result. now rewrite Ed. }
      destruct (db_accepts (EWorkout o)) eqn:Ea; simpl; [discriminate |].
      row_raised caught_by_Exception subclass_Exception.
      right. exists (EWorkout o).
      split; [now apply built_of_workout | split; [exact Ea | reflexivity]].
    + assert (Hb : built_workout uid r = Raise y).
      { unfold built_workout. unfold_result. now rewrite Ed. }
      row_raised caught_by_Exception subclass_Exception; left;
        now apply raise_of_workout.
  - assert (Hb : built_workout uid r = Raise y).
    { unfold built_workout. unfold_result. now rewrite Ed. }
    row_raised caught_by_Exception subclass_Exception; left;
      now apply raise_of_workout.
Qed.

Lemma statistic_row_raises (uid : string) (r : row) (st st' : state)
    (x : exn) :
  statistic_row uid r st = (st', Raise x) →
  session st' = session st ∧ fails_with "statistic" uid r x
  ∧ ∃ msg, last (log st') = Some (log_error msg (Some r)).
Proof.
  unfold statistic_row, guarded, try_except, bind, lift, create.
  destruct (stat_data uid r) as [d | y] eqn:Ed; simpl.
  - destruct (validate_statistic d) as [o | y] eqn:Ev; simpl.
    + assert (Hb : built_statistic uid r = Ok o).
      { unfold built_statistic. unfold_result. now rewrite Ed. }
      destruct (db_accepts (EStatistic o)) eqn:Ea; simpl; [discriminate |].
      row_raised caught_by_Exception subclass_Exception.
      right. exists (EStatistic o).
      split; [now apply built_of_statistic
             | split; [exact Ea | reflexivity]].
    + assert (Hb : built_statistic uid r = Raise y).
      { unfold built_statistic. unfold_result. now rewrite Ed. }
      row_raised caught_by_Exception subclass_Exception; left;
        now apply raise_of_statistic.
  - assert (Hb : built_statistic uid r = Raise y).
    { unfold built_statistic. unfold_result. now rewrite Ed. }
    row_raised caught_by_Exception subclass_Exception; left;
      now apply raise_of_statistic.
Qed.

(** The persister of a kind, as a loop over the rows of the chunk. *)
Lemma persist_as_loop (kind : string) (df : DataFrame) (uid : string) :
  persisted_kind kind → passed_over kind df = false →
  ∃ body,
    persist kind df uid = each_row body (rows df) 0
    ∧ (∀ r st st', body r st = (st', Ok tt) →
         ∃ e, built kind uid r = Ok e
              ∧ session st' = (session st ++ [e])%list)
    ∧ (∀ r st st' x, body r st = (st', Raise x) →
         session st' = session st ∧ fails_with kind uid r x
         ∧ ∃ msg, last (log st') = Some (log_error msg (Some r))).
Proof.
  unfold passed_over, persist.
  intros [-> | [-> | ->]] Hp; simpl in *.
  - apply orb_false_elim in Hp as [He Ht].
    exists (record_row uid). unfold _process_records_df.
    rewrite He, Ht. simpl. split; [reflexivity |]. split.
    + intros r st st' Hr.
      apply record_row_writes in Hr as (o & Ho & Hs).
      exists (ERecord o). split; [now apply built_of_record | exact Hs].
    + apply record_row_raises.
  - rewrite orb_false_r in Hp.
    exists (workout_row uid). unfold _process_workouts_df.
    rewrite Hp. split; [reflexivity |]. split.
    + intros r st st' Hr.
      apply workout_row_writes in Hr as (o & Ho & Hs).
      exists (EWorkout o). split; [now apply built_of_workout | exact Hs].
    + apply workout_row_raises.
  - rewrite orb_false_r in Hp.
    exists (statistic_row uid). unfold _process_statistics_df.
    rewrite Hp. split; [reflexivity |]. split.
    + intros r st st' Hr.
      apply statistic_row_writes in Hr as (o & Ho & Hs).
      exists (EStatistic o).
      split; [now apply built_of_statistic | exact Hs].
    + apply statistic_row_raises.
Qed.

(** A chunk a persister passes over is left alone. *)
Lemma persist_passed_over (kind : string) (df : DataFrame) (uid : string)
    (st : state) :
  persisted_kind kind → passed_over kind df = true →
  persist kind df uid st = (st, Ok 0).
Proof.
  unfold passed_over, persist, _process_records_df, _process_workouts_df,
    _process_statistics_df.
  intros [-> | [-> | ->]] Hp; simpl in *.
  - now rewrite Hp.
  - rewrite orb_false_r in Hp. now rewrite Hp.
  - rewrite orb_false_r in Hp. now rewrite Hp.
Qed.

End PersistChunks.

Section PersistTheorems.
Context `{Collaborators}.

Import XmlService.

(** X5: when a persister of the service returns, it returns the number
    of rows of the chunk and has added to the session, in row order, the
    entity of every row; for a chunk it passes over (an empty one, or a
    record chunk without a [type] column) it returns 0 and changes
    nothing. *)
Theorem persister_stores_every_row_in_order (kind : string)
    (df : DataFrame) (uid : string) (st st' : state) (n : nat) :
  persisted_kind kind →
  persist kind df uid st = (st', Ok n) →
  if passed_over kind df then n = 0%nat ∧ st' = st
  else n = length (rows df)
       ∧ ∃ es, Forall2 (fun r e => built kind uid r = Ok e) (rows df) es
               ∧ session st' = (session st ++ es)%list.
Proof.
  intros Hk Hrun. destruct (passed_over kind df) eqn:Hp.
  - rewrite persist_passed_over in Hrun by assumption.
    now injection Hrun as <- <-.
  - destruct (persist_as_loop kind df uid Hk Hp) as (body & Hb & Hok & _).
    rewrite Hb in Hrun.
    now apply (each_row_returns body _ Hok) in Hrun.
Qed.

(** X6: when a persister raises, the chunk splits into the rows before
    the failing one, whose entities are in the session in order, the
    failing row, which is the last entry of the error log and whose
    exception is the one raised, and the rows after it, none of which
    was stored. *)
Theorem persister_fails_fast (kind : string) (df : DataFrame)
    (uid : string) (st st' : state) (x : exn) :
  persisted_kind kind →
  persist kind df uid st = (st', Raise x) →
  ∃ done r rest es,
    rows df = (done ++ r :: rest)%list
    ∧ Forall2 (fun r e => built kind uid r = Ok e) done es
    ∧ session st' = (session st ++ es)%list
    ∧ fails_with kind uid r x
    ∧ ∃ msg, last (log st') = Some (log_error msg (Some r)).
Proof.
  intros Hk Hrun. destruct (passed_over kind df) eqn:Hp.
  - rewrite persist_passed_over in Hrun by assumption. discriminate.
  - destruct (persist_as_loop kind df uid Hk Hp) as (body & Hb & Hok & Hbad).
    rewrite Hb in Hrun.
    now apply (each_row_raises body _ _ Hok Hbad) in Hrun.
Qed.

(** The number a persister returns is the number of rows it added. *)
Lemma persist_count (kind : string) (df : DataFrame) (uid : string)
    (st st' : state) (n : nat) :
  persisted_kind kind →
  persist kind df uid st = (st', Ok n) →
  length (session st') = (length (session st) + n)%nat.
Proof.
  intros Hk Hrun.
  destruct (passed_over kind df) eqn:Hp.
  - rewrite persist_passed_over in Hrun by assumption.
    injection Hrun as <- <-. lia.
  - destruct (persist_as_loop kind df uid Hk Hp) as (body & Hb & Hok & _).
    rewrite Hb in Hrun.
    apply (each_row_returns body _ Hok) in Hrun as (-> & es & Hes & ->).
    rewrite length_app. apply Forall2_length in Hes. simpl. lia.
Qed.

End PersistTheorems.

(** The chunk of two records is stored whole. *)
Lemma persister_stores_every_row_in_order_witness :
  if passed_over "record" Samples.two_records
  then 2%nat = 0%nat
       ∧ (@persist Reference.collaborators "record" Samples.two_records
            Reference.TEST_USER_ID Samples.fresh).1 = Samples.fresh
  else 2%nat = length (rows Samples.two_records)
       ∧ ∃ es,
           Forall2
             (fun r e =>
                @built Reference.collaborators "record"
                  Reference.TEST_USER_ID r = Ok e)
             (rows Samples.two_records) es
           ∧ XmlService.session
               (@persist Reference.collaborators "record"
                  Samples.two_records Reference.TEST_USER_ID
                  Samples.fresh).1
             = (XmlService.session Samples.fresh ++ es)%list.
Proof.
  apply (@persister_stores_every_row_in_order Reference.collaborators).
  - left. reflexivity.
  - vm_compute. reflexivity.
Defined.

(** The chunk whose second row holds text for a number: one row stored,
    the second logged and its exception raised. *)
Lemma persister_fails_fast_witness :
  ∃ done r rest es,
    rows Samples.five_records_second_malformed = (done ++ r :: rest)%list
    ∧ Forall2
        (fun r e =>
           @built Reference.collaborators "record" Reference.TEST_USER_ID r
           = Ok e) done es
    ∧ XmlService.session
        (@persist Reference.collaborators "record"
           Samples.five_records_second_malformed Reference.TEST_USER_ID
           Samples.fresh).1
      = (XmlService.session Samples.fresh ++ es)%list
    ∧ @fails_with Reference.collaborators "record" Reference.TEST_USER_ID r
        (mk_exn InvalidOperation "[<class 'decimal.ConversionSyntax'>]")
    ∧ ∃ msg,
        last (XmlService.log
                (@persist Reference.collaborators "record"
                   Samples.five_records_second_malformed
                   Reference.TEST_USER_ID Samples.fresh).1)
        = Some (XmlService.log_error msg (Some r)).
Proof.
  apply (@persister_fails_fast Reference.collaborators).
  - left. reflexivity.
  - vm_compute. reflexivity.
Defined.

Section ImportCounters.
Context `{Collaborators}.

Import XmlService.

Lemma import_chunk_rows (uid : string) (df : DataFrame) (s s' : stats)
    (st st' : state) :
  import_chunk uid df s st = (st', Ok s') →
  (length (session st') + stored_rows s
   = length (session st) + stored_rows s')%nat.
Proof.
  unfold import_chunk, stored_rows. destruct (empty df).
  - intros [= <- <-]. lia.
  - unfold bind, ret, emit, modify.
    destruct (String.eqb _ "record").
    { change (_process_records_df df uid) with (persist "record" df uid).
      destruct (persist "record" df uid st) as [st1 [n | e]] eqn:E;
        [| discriminate].
      apply persist_count in E; [| now left].
      intros [= <- <-]. simpl. lia. }
    destruct (String.eqb _ "workout").
    { change (_process_workouts_df df uid) with (persist "workout" df uid).
      destruct (persist "workout" df uid st) as [st1 [n | e]] eqn:E;
        [| discriminate].
      apply persist_count in E; [| right; now left].
      intros [= <- <-]. simpl. lia. }
    destruct (String.eqb _ "statistic").
    { change (_process_statistics_df df uid)
        with (persist "statistic" df uid).
      destruct (persist "statistic" df uid st) as [st1 [n | e]] eqn:E;
        [| discriminate].
      apply persist_count in E; [| right; now right].
      intros [= <- <-]. simpl. lia. }
    intros [= <- <-]. simpl. lia.
Qed.

Lemma import_chunks_rows (uid : string) (dfs : list DataFrame) :
  ∀ (s s' : stats) (st st' : state),
    import_chunks uid dfs s st = (st', Ok s') →
    (length (session st') + stored_rows s
     = length (session st) + stored_rows s')%nat.
Proof.
  induction dfs as [| df dfs IH]; intros s s' st st'; simpl.
  - intros [= <- <-]. lia.
  - unfold bind at 1.
    destruct (import_chunk uid df s st) as [st1 [s1 | e]] eqn:E;
      [| discriminate].
    intros Hrest. apply IH in Hrest. apply import_chunk_rows in E. lia.
Qed.

(** X7: at the end of an import that reached the end of the stream, the
    three counters add up to the number of rows the import added to the
    session. *)
Theorem counters_add_up_to_rows_stored (uid : string) (x : xml_stream)
    (st st' : state) (s : stats) :
  import_stream uid x st = (st', Ok s) →
  length (session st')
  = (length (session st) + records s + workouts s + statistics s)%nat.
Proof.
  unfold import_stream, bind. intros Hrun.
  destruct (import_chunks uid (chunks x) (mk_stats 0 0 0 0) st)
    as [st1 [s1 | e]] eqn:E; [| discriminate].
  apply import_chunks_rows in E. unfold stored_rows in E. simpl in E.
  destruct (parse_failure x); [discriminate |].
  injection Hrun as <- <-. lia.
Qed.

(** X8: [import_xml] answers every file with a response.  When the loop
    reached the end of the stream the response reports the three
    counters; when it raised, the response is the text of the exception
    after [XML import failed: ], and the rows added before the failure
    are still in the session: the service rolls nothing back. *)
Theorem import_xml_response (uid : string) (x : xml_stream) (st : state) :
  ∃ st1 out,
    import_stream uid x st = (st1, out)
    ∧ session (import_xml uid x st).1 = session st1
    ∧ (import_xml uid x st).2
      = Ok (mk_response
              match out with
              | Ok s => success_message s
              | Raise e => "XML import failed: " +:+ exn_msg e
              end).
Proof.
  destruct (import_stream uid x st) as [st1 out] eqn:E.
  exists st1, out. split; [reflexivity |].
  unfold import_xml, try_except, bind, emit, modify, ret. rewrite E.
  destruct out as [s | e]; simpl; rewrite ?subclass_Exception; simpl; auto.
Qed.

(** X9: a chunk with rows and a [value] column that lacks the [type]
    column is classified a record and counted as a processed chunk, and
    none of its rows is stored or counted. *)
Theorem record_chunk_without_type_stores_nothing (uid : string)
    (df : DataFrame) (s : stats) (st : state) :
  _detect_dataframe_type df = "record" →
  has_column df "type" = false →
  ∃ st',
    import_chunk uid df s st
    = (st', Ok (mk_stats (records s) (workouts s) (statistics s)
                  (chunks_processed s + 1)))
    ∧ session st' = session st.
Proof.
  intros Hd Ht.
  assert (He : empty df = false).
  { unfold _detect_dataframe_type in Hd. destruct (empty df);
      [discriminate | reflexivity]. }
  unfold import_chunk. rewrite He, Hd. simpl.
  unfold _process_records_df. rewrite He, Ht. simpl.
  unfold bind, ret, emit, modify. simpl. rewrite Nat.add_0_r.
  eexists. split; reflexivity.
Qed.

End ImportCounters.

(** The import of the file of four chunks: two records and one workout
    counted, three rows in the session. *)
Lemma counters_add_up_to_rows_stored_witness :
  length (XmlService.session
            (@XmlService.import_stream Reference.collaborators
               Reference.TEST_USER_ID Samples2.four_chunks Samples.fresh).1)
  = (length (XmlService.session Samples.fresh) + 2 + 1 + 0)%nat.
Proof.
  apply (@counters_add_up_to_rows_stored Reference.collaborators
           Reference.TEST_USER_ID Samples2.four_chunks Samples.fresh _
           (XmlService.mk_stats 2 1 0 3)).
  vm_compute. reflexivity.
Defined.

(** A chunk of one record with [value] and dates and no [type]. *)
Lemma record_chunk_without_type_stores_nothing_witness :
  ∃ st',
    @XmlService.import_chunk Reference.collaborators Reference.TEST_USER_ID
      untyped_records (XmlService.mk_stats 0 0 0 0) Samples.fresh
    = (st', Ok (XmlService.mk_stats 0 0 0 (0 + 1)))
    ∧ XmlService.session st' = XmlService.session Samples.fresh.
Proof.
  apply (@record_chunk_without_type_stores_nothing Reference.collaborators
           Reference.TEST_USER_ID untyped_records
           (XmlService.mk_stats 0 0 0 0) Samples.fresh);
    reflexivity.
Defined.

Section UpdateLimits.
Context `{Collaborators}.

Import UpdateSchemas.

(** Splits a conjunction of length tests on cut fields. *)
Ltac within_bounds :=
  repeat (apply andb_true_intro; split); try reflexivity;
  apply Nat.leb_le; unfold cut; apply slice_to_length.

Lemma cut_within (n : nat) (r : row) (key dflt : string) :
  max_length_ok n (Some (cut n r key dflt)) = true.
Proof. unfold max_length_ok, cut. apply Nat.leb_le, slice_to_length. Qed.

(** X10: an entity the service builds passes the length constraints the
    update schema of its model declares for its string fields. *)
Theorem built_entity_within_update_limits (kind uid : string) (r : row)
    (e : entity) :
  built kind uid r = Ok e →
  within_limits (limits_of e) (string_fields e) = true.
Proof.
  unfold built.
  destruct (String.eqb kind "record");
    [| destruct (String.eqb kind "workout")].
  - destruct (built_record uid r) as [o | x] eqn:E; [| discriminate].
    intros [= <-]. rewrite (built_record_strings _ _ _ E).
    unfold within_limits. simpl. within_bounds.
  - destruct (built_workout uid r) as [o | x] eqn:E; [| discriminate].
    intros [= <-]. rewrite (built_workout_strings _ _ _ E).
    unfold within_limits. simpl. within_bounds.
  - destruct (built_statistic uid r) as [o | x] eqn:E; [| discriminate].
    intros [= <-]. rewrite (built_statistic_strings _ _ _ E).
    unfold within_limits. simpl. within_bounds.
Qed.

End UpdateLimits.

(** The record with a [type] of 60 characters. *)
Lemma built_entity_within_update_limits_witness :
  UpdateSchemas.within_limits
    (UpdateSchemas.limits_of Samples2.oversized_entity)
    (string_fields Samples2.oversized_entity) = true.
Proof.
  apply (@built_entity_within_update_limits Reference.collaborators
           "record" Reference.TEST_USER_ID Samples2.oversized).
  vm_compute. reflexivity.
Defined.

(** ** The upload task of process_upload_task.py *)

Section UploadTaskRun.
Context `{Collaborators}.

Import Runs.

(** Where the [try] block of [process_uploaded_file] leaves the path
    variables, the temporary directory, the store and the bucket, and
    when it returns. *)
Lemma upload_body_frame (env : environment) (bucket_name key uid : string)
    (w : world) :
  ∃ fr r,
    UploadTask.body env bucket_name key uid (mk_frame w None None) = (fr, r)
    ∧ temp_xml_file fr = Some (temp_path env key)
    ∧ (dump_file fr = Some (dump_path env key)
       ∨ (dump_file fr = None
          ∧ ∀ p, p ∈ files (world_of fr) →
                 p = temp_path env key ∨ p ∈ files w))
    ∧ (is_ok r = true
       ↔ download env = io_ok ∧ is_ok (task_import env uid).2 = true
         ∧ commit env = None ∧ pg_dump env = dump_ok ∧ upload env = None)
    ∧ (∀ t, r = Ok t →
         status t = "success"
         ∧ objects (world_of fr)
           = (objects w ++ [(bucket_name, default "" (output_key t))])%list)
    ∧ store (world_of fr)
      = (store w ++ (if committed env uid
                     then XmlService.session (task_import env uid).1
                     else []))%list
    ∧ (∀ e, r = Raise e → objects (world_of fr) = objects w)
    ∧ (∀ e, download env = io_ok → (task_import env uid).2 = Raise e →
         r = Raise e).
Proof.
  unfold UploadTask.body, bind, set_temp_xml_file, set_dump_file, modify,
    download_file, _create_postgres_dump, upload_file, try_except, ret,
    raise, in_transaction, committed, task_import.
  fold (temp_path env key). fold (dump_path env key). simpl.
  destruct (download env) as [| e left] eqn:Ed; simpl.
  - destruct (UploadTask._import_xml_data (xml env) uid
                (XmlService.mk_state [] [])) as [st [[] | e]] eqn:Ei; simpl.
    + destruct (commit env) as [e |] eqn:Ec; simpl.
      * do 2 eexists; (split; [reflexivity |]); simpl;
          rewrite ?app_nil_r; repeat split; auto; try set_solver;
          try naive_solver.
      * destruct (pg_dump env) as [| stderr left | e] eqn:Ep; simpl.
        -- destruct (upload env) as [e |] eqn:Eu; simpl;
             do 2 eexists; (split; [reflexivity |]); simpl;
             repeat split; auto; try set_solver; try naive_solver.
        -- destruct left; simpl; do 2 eexists; (split; [reflexivity |]);
             simpl; repeat split; auto; try set_solver; try naive_solver.
        -- destruct (subclass (exn_cls e) CalledProcessError || false);
             simpl; do 2 eexists; (split; [reflexivity |]); simpl;
             repeat split; auto; try set_solver; try naive_solver.
    + destruct (commit env); do 2 eexists; (split; [reflexivity |]); simpl;
        rewrite ?app_nil_r; repeat split; auto; try set_solver;
        try naive_solver.
  - destruct left; simpl; do 2 eexists; (split; [reflexivity |]); simpl;
      rewrite ?app_nil_r; repeat split; auto; try set_solver;
      try naive_solver.
Qed.

(** The frame the [finally] clause works on, and the dict returned. *)
Lemma upload_run_unfold (env : environment) (bucket_name key : string)
    (user_id : option string) (w : world) (fr : frame)
    (r : result TaskResult) :
  let uid := if truthy user_id then default "" user_id
             else first_segment "/" key in
  UploadTask.body env bucket_name key uid (mk_frame w None None) = (fr, r) →
  UploadTask.process_uploaded_file env bucket_name key user_id w
  = (cleanup fr,
     Ok match r with
        | Ok t => t
        | Raise e => mk_result bucket_name key None uid "failed" None
                       (Some (exn_msg e))
        end).
Proof.
  intros uid Hb. unfold UploadTask.process_uploaded_file, run_task,
    try_except. fold uid. rewrite Hb. destruct r as [t | e]; [reflexivity |].
  now rewrite caught_by_Exception.
Qed.

End UploadTaskRun.

Section UploadTaskTheorems.
Context `{Collaborators}.

Import Runs.

(** X11: the upload task imports a file whole or not at all.  After a
    run the store holds, after what it held before, either every row the
    import wrote or none of them, and it holds them only if the import
    ended without an exception.  When the import raises, the run answers
    [failed] with the text of the exception, and neither the store nor
    the bucket has changed. *)
Theorem upload_task_imports_whole_file_or_nothing (env : environment)
    (bucket_name key : string) (user_id : option string) (w : world) :
  ∃ t,
    (UploadTask.process_uploaded_file env bucket_name key user_id w).2 = Ok t
    ∧ store (UploadTask.process_uploaded_file env bucket_name key user_id w).1
      = (store w
         ++ (if committed env (derived_user_id user_id key)
             then XmlService.session
                    (task_import env (derived_user_id user_id key)).1
             else []))%list
    ∧ (committed env (derived_user_id user_id key) = true →
       (task_import env (derived_user_id user_id key)).2 = Ok tt)
    ∧ (∀ e, download env = io_ok →
         (task_import env (derived_user_id user_id key)).2 = Raise e →
         status t = "failed" ∧ error t = Some (exn_msg e)
         ∧ store (UploadTask.process_uploaded_file env bucket_name key
                    user_id w).1 = store w
         ∧ objects (UploadTask.process_uploaded_file env bucket_name key
                      user_id w).1 = objects w).
Proof.
  unfold derived_user_id.
  set (uid := if truthy user_id then default "" user_id
              else first_segment "/" key).
  destruct (upload_body_frame env bucket_name key uid w)
    as (fr & r & Hb & _ & _ & _ & _ & Hst & Hobj & Himp).
  rewrite (upload_run_unfold env bucket_name key user_id w fr r Hb).
  fold uid. simpl. eexists. split; [reflexivity |].
  split; [exact Hst |]. split.
  - unfold committed. destruct (download env); [| discriminate].
    destruct (commit env); [discriminate |].
    destruct (task_import env uid).2 as [[] | e]; [reflexivity | discriminate].
  - intros e Hd Hi. specialize (Himp e Hd Hi). subst r. simpl.
    split; [reflexivity |]. split; [reflexivity |].
    split; [| now apply (Hobj e)].
    rewrite Hst. unfold committed. rewrite Hd, Hi.
    destruct (commit env); simpl; now rewrite app_nil_r.
Qed.

(** X12: the upload task answers [success] exactly when the download,
    the import, the commit, the dump and the upload all went through;
    otherwise it answers [failed] and carries an error text. *)
Theorem upload_task_success_iff_every_step (env : environment)
    (bucket_name key : string) (user_id : option string) (w : world) :
  ∃ t,
    (UploadTask.process_uploaded_file env bucket_name key user_id w).2 = Ok t
    ∧ (status t = "success" ∨ status t = "failed" ∧ is_Some (error t))
    ∧ (status t = "success"
       ↔ download env = io_ok
         ∧ (task_import env (derived_user_id user_id key)).2 = Ok tt
         ∧ commit env = None ∧ pg_dump env = dump_ok ∧ upload env = None).
Proof.
  unfold derived_user_id.
  set (uid := if truthy user_id then default "" user_id
              else first_segment "/" key).
  destruct (upload_body_frame env bucket_name key uid w)
    as (fr & r & Hb & _ & _ & Hok & Hs & _).
  rewrite (upload_run_unfold env bucket_name key user_id w fr r Hb).
  fold uid. simpl. eexists. split; [reflexivity |].
  assert (Hunit : is_ok (task_import env uid).2 = true
                  ↔ (task_import env uid).2 = Ok tt).
  { destruct (task_import env uid).2 as [[] | e]; simpl; split;
      intros; try reflexivity; discriminate. }
  destruct r as [t | e]; simpl.
  - destruct (Hs t eq_refl) as [Hst _]. split; [now left |].
    split; [intros _ | easy].
    destruct Hok as [Hok _]. specialize (Hok eq_refl).
    rewrite <- Hunit. tauto.
  - split; [right; eauto |]. split; [discriminate |].
    intros Hall. rewrite <- Hunit in Hall. apply Hok in Hall. discriminate.
Qed.

(** X13: after a run of the upload task, whichever step failed or none,
    the downloaded XML file and the dump file are not in the temporary
    directory, provided no file was lying at the path of the dump before
    the run. *)
Theorem upload_task_temporary_files_absent (env : environment)
    (bucket_name key : string) (user_id : option string) (w : world) :
  dump_path env key ∉ files w →
  (temp_path env key
     ∉ files (UploadTask.process_uploaded_file env bucket_name key
                user_id w).1)
  ∧ (dump_path env key
       ∉ files (UploadTask.process_uploaded_file env bucket_name key
                  user_id w).1).
Proof.
  intros Hfresh.
  set (uid := if truthy user_id then default "" user_id
              else first_segment "/" key).
  destruct (upload_body_frame env bucket_name key uid w)
    as (fr & r & Hb & Ht & Hd & _).
  rewrite (upload_run_unfold env bucket_name key user_id w fr r Hb).
  simpl. split.
  - apply cleanup_removes; [apply path_join_truthy | now left].
  - destruct Hd as [Hd | [Hd Hsub]].
    + apply cleanup_removes; [apply path_join_truthy | now right].
    + intros Hin. pose proof Hin as Hin'.
      apply cleanup_subset, Hsub in Hin'.
      destruct Hin' as [Heq | Hw]; [| contradiction].
      rewrite Heq in Hin. revert Hin.
      apply cleanup_removes; [apply path_join_truthy | now left].
Qed.

End UploadTaskTheorems.

(** A run whose dump tool exits with an error and leaves a partial
    file. *)
Lemma upload_task_temporary_files_absent_witness :
  (Runs.temp_path
     (mk_env "/tmp" io_ok Samples2.four_chunks None
        (dump_exit_nonzero "pg_dump: connection refused" true) None)
     Runs.object_key
     ∉ files (@UploadTask.process_uploaded_file Reference.collaborators
                (mk_env "/tmp" io_ok Samples2.four_chunks None
                   (dump_exit_nonzero "pg_dump: connection refused" true)
                   None)
                "uploads" Runs.object_key None RunsOf.other_file).1)
  ∧ (Runs.dump_path
       (mk_env "/tmp" io_ok Samples2.four_chunks None
          (dump_exit_nonzero "pg_dump: connection refused" true) None)
       Runs.object_key
       ∉ files (@UploadTask.process_uploaded_file Reference.collaborators
                  (mk_env "/tmp" io_ok Samples2.four_chunks None
                     (dump_exit_nonzero "pg_dump: connection refused" true)
                     None)
                  "uploads" Runs.object_key None RunsOf.other_file).1).
Proof.
  apply (@upload_task_temporary_files_absent Reference.collaborators).
  intros Hin. unfold RunsOf.other_file in Hin. simpl in Hin.
  apply elem_of_singleton in Hin. vm_compute in Hin. discriminate Hin.
Defined.

(** ** Errors and routing of the upload task *)

Lemma prefix_append (s t : string) : String.prefix s (s +:+ t) = true.
Proof.
  induction s as [| c s IH].
  - now destruct t.
  - change (String c s +:+ t) with (String c (s +:+ t)). simpl.
    rewrite IH. now destruct (ascii_dec c c).
Qed.

Section UploadTaskErrors.
Context `{Collaborators}.

Lemma task_guarded_raises (what : string) (body : XmlService.M unit)
    (st st' : XmlService.state) (e : exn) :
  UploadTask.guarded what body st = (st', Raise e) →
  exn_cls e = Exception
  ∧ String.prefix "Failed to process " (exn_msg e) = true.
Proof.
  unfold UploadTask.guarded, try_except, raise.
  destruct (body st) as [st1 [[] | y]]; [discriminate |].
  rewrite caught_by_Exception. intros [= _ <-]. simpl.
  split; [reflexivity |].
  apply (prefix_append "Failed to process "
           (what +:+ ": " +:+ exn_msg y)).
Qed.

Lemma task_each_row_raises (body : row → XmlService.M unit)
    (P : exn → Prop) :
  (∀ r st st' e, body r st = (st', Raise e) → P e) →
  ∀ rs st st' e, UploadTask.each_row body rs st = (st', Raise e) → P e.
Proof.
  intros Hbody. induction rs as [| r rs IH]; intros st st' e; simpl.
  - discriminate.
  - unfold bind at 1. destruct (body r st) as [st1 [[] | y]] eqn:E.
    + apply IH.
    + intros [= _ <-]. eapply Hbody, E.
Qed.

(** X14: whatever goes wrong with a row of a chunk, the import of the
    upload task raises a plain [Exception] whose text begins with
    [Failed to process ]: the class of the original exception is not
    passed on. *)
Theorem upload_task_row_errors_are_wrapped (uid : string) (df : DataFrame)
    (st st' : XmlService.state) (e : exn) :
  UploadTask.import_chunk uid df st = (st', Raise e) →
  exn_cls e = Exception
  ∧ String.prefix "Failed to process " (exn_msg e) = true.
Proof.
  unfold UploadTask.import_chunk, UploadTask._process_records_df,
    UploadTask._process_workouts_df, UploadTask._process_statistics_df.
  destruct (empty df); [discriminate |].
  destruct (has_column df "value");
    [| destruct (has_column df "duration");
       [| destruct (has_column df "sum"); [| discriminate]]];
    (intros Hrun;
     eapply (task_each_row_raises _
               (fun x => exn_cls x = Exception
                         ∧ String.prefix "Failed to process " (exn_msg x)
                           = true));
     [| exact Hrun]; intros r s0 s1 x; apply task_guarded_raises).
Qed.

Lemma has_column_in_set (df : DataFrame) (key : string) :
  has_column df key = true ↔ key ∈ column_set df.
Proof.
  unfold has_column, column_set. rewrite bool_decide_eq_true.
  now rewrite elem_of_list_to_set.
Qed.

(** X15: where the two import paths agree.  A chunk the service
    classifies a record goes to the records of the upload task as well; a
    workout does when it has no [value] column; a statistic does when it
    has neither [value] nor [duration]. *)
Theorem upload_task_routing_agrees_with_service (uid : string)
    (df : DataFrame) :
  (XmlService._detect_dataframe_type df = "record" →
   UploadTask.import_chunk uid df = UploadTask._process_records_df df uid)
  ∧ (XmlService._detect_dataframe_type df = "workout" →
     has_column df "value" = false →
     UploadTask.import_chunk uid df
     = UploadTask._process_workouts_df df uid)
  ∧ (XmlService._detect_dataframe_type df = "statistic" →
     has_column df "value" = false → has_column df "duration" = false →
     UploadTask.import_chunk uid df
     = UploadTask._process_statistics_df df uid).
Proof.
  destruct (detect_dataframe_type_cases_helper df) as (Hs & Hw & Hr).
  unfold UploadTask.import_chunk. repeat split.
  - intros Hd. apply Hr in Hd as (-> & _ & _ & Hv).
    apply has_column_in_set in Hv. now rewrite Hv.
  - intros Hd Hv. apply Hw in Hd as (-> & _ & Hdur & _).
    apply has_column_in_set in Hdur. now rewrite Hv, Hdur.
  - intros Hd Hv Hdur. apply Hs in Hd as (-> & Hsig).
    assert (Hsum : has_column df "sum" = true).
    { apply has_column_in_set. apply Hsig. set_solver. }
    now rewrite Hv, Hdur, Hsum.
Qed.

End UploadTaskErrors.

(** The chunk whose second row holds text for a number. *)
Lemma upload_task_row_errors_are_wrapped_witness :
  exn_cls
    (mk_exn Exception
       "Failed to process record: [<class 'decimal.ConversionSyntax'>]")
  = Exception
  ∧ String.prefix "Failed to process "
      (exn_msg
         (mk_exn Exception
            "Failed to process record: [<class 'decimal.ConversionSyntax'>]"))
    = true.
Proof.
  apply (@upload_task_row_errors_are_wrapped Reference.collaborators
           Reference.TEST_USER_ID Samples.five_records_second_malformed
           Samples.fresh
           (@UploadTask.import_chunk Reference.collaborators
              Reference.TEST_USER_ID Samples.five_records_second_malformed
              Samples.fresh).1).
  vm_compute. reflexivity.
Defined.

(** ** Object keys and temporary paths *)

Lemma append_cons (c : ascii) (s t : string) :
  String c s +:+ t = String c (s +:+ t).
Proof. reflexivity. Qed.

Lemma append_inj_l (s t u : string) : s +:+ t = s +:+ u → t = u.
Proof.
  induction s as [| c s IH]; [trivial |].
  change (String c s +:+ t) with (String c (s +:+ t)).
  change (String c s +:+ u) with (String c (s +:+ u)).
  intros [= Heq]. now apply IH.
Qed.

(** X16: the downloaded XML file and the dump file of a run are two
    different paths, whatever the temporary directory and the object
    key. *)
Theorem temp_and_dump_paths_differ (env : environment) (key : string) :
  Runs.temp_path env key ≠ Runs.dump_path env key.
Proof.
  unfold Runs.temp_path, Runs.dump_path, path_join.
  intros Heq. apply append_inj_l in Heq. vm_compute in Heq.
  discriminate Heq.
Qed.

Lemma split_on_segment (a rest : string) :
  no_slash a = true →
  split_on "/" (a +:+ String "/" rest) = a :: split_on "/" rest.
Proof.
  induction a as [| c a IH]; intros Hn.
  - change ("" +:+ String "/" rest) with (String "/" rest). reflexivity.
  - change (String c a +:+ String "/" rest)
      with (String c (a +:+ String "/" rest)).
    simpl in Hn. apply andb_true_iff in Hn as [Hc Ha].
    apply negb_true_iff in Hc. simpl. rewrite Hc, (IH Ha). reflexivity.
Qed.

Lemma split_on_last (a : string) :
  no_slash a = true → split_on "/" a = [a].
Proof.
  induction a as [| c a IH]; simpl; [reflexivity |].
  intros Hn. apply andb_true_iff in Hn as [Hc Ha].
  apply negb_true_iff in Hc. rewrite Hc, (IH Ha). reflexivity.
Qed.

Lemma all_kept_no_slash (s : string) : all_kept s = true → no_slash s = true.
Proof.
  induction s as [| c s IH]; simpl; [reflexivity |].
  intros Hk. apply andb_true_iff in Hk as [Hc Hs]. rewrite (IH Hs).
  destruct (Ascii.eqb c "/") eqn:E; [| reflexivity].
  apply Ascii.eqb_eq in E. subst c. discriminate Hc.
Qed.

Lemma clean_filename_all_kept (f : string) :
  all_kept (XmlImport.clean_filename f) = true.
Proof.
  induction f as [| c f IH]; simpl; [reflexivity |].
  destruct (XmlImport.kept c) eqn:E; simpl; [now rewrite E |]. exact IH.
Qed.

Lemma clean_filename_fixed (f : string) :
  all_kept f = true → XmlImport.clean_filename f = f.
Proof.
  induction f as [| c f IH]; simpl; [reflexivity |].
  intros Hk. apply andb_true_iff in Hk as [Hc Hf].
  now rewrite Hc, (IH Hf).
Qed.

(** X17: what [generate_file_key] keeps of a file name.  The cleaned
    name is made of letters, digits, dots, hyphens and underscores only,
    so it has no slash; it is no longer than the name; cleaning it again
    changes nothing, and a name made of such characters is kept as it
    is. *)
Theorem clean_filename_keeps_safe_characters (f : string) :
  all_kept (XmlImport.clean_filename f) = true
  ∧ no_slash (XmlImport.clean_filename f) = true
  ∧ (String.length (XmlImport.clean_filename f) ≤ String.length f)%nat
  ∧ XmlImport.clean_filename (XmlImport.clean_filename f)
    = XmlImport.clean_filename f
  ∧ (all_kept f = true → XmlImport.clean_filename f = f).
Proof.
  pose proof (clean_filename_all_kept f) as Hk.
  split; [exact Hk |]. split; [now apply all_kept_no_slash |].
  split; [| split; [now apply clean_filename_fixed
                   | apply clean_filename_fixed]].
  induction f as [| c f IH]; simpl; [lia |].
  pose proof (clean_filename_all_kept f) as Hk'.
  destruct (XmlImport.kept c); simpl; specialize (IH Hk'); lia.
Qed.

(** The key of an upload, segment by segment. *)
Lemma generate_file_key_segments (user_id : string)
    (filename : option string) (timestamp : string) :
  no_slash user_id = true →
  (truthy filename = true ∨ no_slash timestamp = true) →
  split_on "/" (XmlImport.generate_file_key user_id filename timestamp)
  = [user_id; "raw";
     if truthy filename
     then XmlImport.clean_filename (default "" filename)
     else timestamp +:+ ".xml"].
Proof.
  intros Hu Hf. unfold XmlImport.generate_file_key.
  assert (Happ : ∀ a b, no_slash a = true → no_slash b = true →
                        no_slash (a +:+ b) = true).
  { induction a as [| c a IH]; intros b Ha Hb; [exact Hb |].
    change (String c a +:+ b) with (String c (a +:+ b)).
    simpl in Ha. apply andb_true_iff in Ha as [Hc Ha].
    simpl. now rewrite Hc, IH. }
  destruct (truthy filename) eqn:Et.
  - change ("/raw/" +:+ XmlImport.clean_filename (default "" filename))
      with (String "/"
              ("raw" +:+ String "/"
                           (XmlImport.clean_filename (default "" filename)))).
    rewrite split_on_segment by exact Hu.
    rewrite split_on_segment by reflexivity.
    rewrite split_on_last;
      [reflexivity | apply all_kept_no_slash, clean_filename_all_kept].
  - destruct Hf as [Hf | Hf]; [discriminate |].
    change ("/raw/" +:+ timestamp +:+ ".xml")
      with (String "/" ("raw" +:+ String "/" (timestamp +:+ ".xml"))).
    rewrite split_on_segment by exact Hu.
    rewrite split_on_segment by reflexivity.
    rewrite split_on_last; [reflexivity | now apply Happ].
Qed.

(** X18: the key [generate_file_key] makes for a user whose identifier
    has no slash leads a task back to that user and to the cleaned file
    name: the first segment of the key, which is what a task called
    without [user_id] works for, is the user, and the last segment, from
    which the task names its files, is the cleaned name. *)
Theorem generated_key_leads_back_to_user (user_id filename timestamp : string) :
  no_slash user_id = true → truthy (Some filename) = true →
  derived_user_id None
    (XmlImport.generate_file_key user_id (Some filename) timestamp)
  = user_id
  ∧ last_segment "/"
      (XmlImport.generate_file_key user_id (Some filename) timestamp)
    = XmlImport.clean_filename filename.
Proof.
  intros Hu Hf. unfold derived_user_id, first_segment, last_segment.
  rewrite (generate_file_key_segments user_id (Some filename) timestamp Hu)
    by now left.
  rewrite Hf. simpl. split; reflexivity.
Qed.

(** The upload of [my export (1).xml] by the test user. *)
Lemma generated_key_leads_back_to_user_witness :
  derived_user_id None
    (XmlImport.generate_file_key Reference.TEST_USER_ID
       (Some "my export (1).xml") "2024-01-03 08:00:00+00:00")
  = Reference.TEST_USER_ID
  ∧ last_segment "/"
      (XmlImport.generate_file_key Reference.TEST_USER_ID
         (Some "my export (1).xml") "2024-01-03 08:00:00+00:00")
    = XmlImport.clean_filename "my export (1).xml".
Proof.
  apply generated_key_leads_back_to_user; reflexivity.
Defined.

(** ** More on the queue consumer *)

Section PollCounts.

Import Tasks.

Context `{Services}.

Lemma handle_record_enqueues (record : json) (c : nat) (b b' : broker)
    (res : result nat) :
  handle_record record c b = (b', res) →
  (∃ more, enqueued b' = (enqueued b ++ more)%list
           ∧ ∀ c', res = Ok c' → c' = (c + length more)%nat).
Proof.
  unfold handle_record, bind, lift, delay, ret. unfold_result.
  simpl. case_results;
    repeat match goal with
           | |- context [if ?c then _ else _] => destruct c; simpl
           end;
    case_results;
    repeat match goal with
           | |- context [delay_raises ?b ?x ?y] =>
               destruct (delay_raises b x y); simpl
           end;
    intros [= <- <-]; simpl;
    try (eexists; split; [reflexivity |]; intros c' [= <-]; simpl; lia);
    try (exists []; split; [now rewrite app_nil_r |];
         intros c' Hc; try discriminate; injection Hc as <-; simpl; lia).
Qed.

Lemma handle_records_enqueue (records : list json) :
  ∀ (c : nat) (b b' : broker) (res : result nat),
    handle_records records c b = (b', res) →
    ∃ more, enqueued b' = (enqueued b ++ more)%list
            ∧ ∀ c', res = Ok c' → c' = (c + length more)%nat.
Proof.
  induction records as [| r rs IH]; intros c b b' res; simpl.
  - intros [= <- <-]. exists []. split; [now rewrite app_nil_r |].
    intros c' [= <-]. simpl. lia.
  - unfold bind at 1.
    destruct (handle_record r c b) as [b1 [c1 | e]] eqn:E;
      apply handle_record_enqueues in E as (m1 & E1 & Hc1).
    + intros Hrest. apply IH in Hrest as (m2 & E2 & Hc2).
      exists (m1 ++ m2)%list. split.
      * rewrite E2, E1. now rewrite app_assoc.
      * intros c' Hc. rewrite (Hc2 c' Hc), (Hc1 c1 eq_refl), length_app. lia.
    + intros [= <- <-]. exists m1. split; [exact E1 | discriminate].
Qed.

Lemma handle_message_enqueues (m : message) (c : nat) (b b' : broker)
    (res : result nat) :
  handle_message m c b = (b', res) →
  ∃ more, enqueued b' = (enqueued b ++ more)%list
          ∧ ∀ c', res = Ok c' → c' = (c + length more)%nat.
Proof.
  rewrite handle_message_unfold.
  unfold bind, lift, delete_message, ret.
  destruct (Body m) as [body | e]; simpl.
  2: { intros [= <- <-].
       exists []. split; [now rewrite app_nil_r | discriminate]. }
  destruct (contains body "Records") as [[|] | e]; simpl.
  - destruct (rs ← subscript body "Records"; iterate rs)
      as [records | e]; simpl.
    + destruct (handle_records records c b) as [b1 [c1 | e]] eqn:E;
        apply handle_records_enqueue in E as (more & E1 & Hc); simpl.
      * destruct (delete_raises b1 (ReceiptHandle m)); simpl;
          intros [= <- <-]; simpl; exists more;
          (split; [exact E1 |]); [discriminate |].
        intros c' [= <-]. now apply Hc.
      * intros [= <- <-]. exists more. split; [exact E1 | discriminate].
    + intros [= <- <-].
      exists []. split; [now rewrite app_nil_r | discriminate].
  - destruct (delete_raises b (ReceiptHandle m)); simpl;
      intros [= <- <-]; simpl; exists [];
      (split; [now rewrite app_nil_r |]); [discriminate |].
    intros c' [= <-]. simpl. lia.
  - intros [= <- <-].
    exists []. split; [now rewrite app_nil_r | discriminate].
Qed.

Lemma handle_messages_enqueue (ms : list message) :
  ∀ (c : nat) (b b' : broker) (res : result nat),
    handle_messages ms c b = (b', res) →
    ∃ more, enqueued b' = (enqueued b ++ more)%list
            ∧ ∀ c', res = Ok c' → c' = (c + length more)%nat.
Proof.
  induction ms as [| m ms IH]; intros c b b' res; simpl.
  - intros [= <- <-]. exists []. split; [now rewrite app_nil_r |].
    intros c' [= <-]. simpl. lia.
  - unfold bind at 1.
    destruct (handle_message m c b) as [b1 [c1 | e]] eqn:E;
      apply handle_message_enqueues in E as (m1 & E1 & Hc1).
    + intros Hrest. apply IH in Hrest as (m2 & E2 & Hc2).
      exists (m1 ++ m2)%list. split.
      * rewrite E2, E1. now rewrite app_assoc.
      * intros c' Hc. rewrite (Hc2 c' Hc), (Hc1 c1 eq_refl), length_app. lia.
    + intros [= <- <-]. exists m1. split; [exact E1 | discriminate].
Qed.

(** A message stays in the queue unless it was received and handled. *)
Lemma handle_messages_keep (ms : list message) :
  ∀ (c : nat) (b b' : broker) (res : result nat) (m' : message),
    handle_messages ms c b = (b', res) →
    m' ∈ queue b →
    (∀ m, m ∈ ms → ReceiptHandle m ≠ ReceiptHandle m') →
    m' ∈ queue b'.
Proof.
  induction ms as [| m ms IH]; intros c b b' res m'; simpl.
  - now intros [= <- <-].
  - unfold bind at 1.
    destruct (handle_message m c b) as [b1 [c1 | e]] eqn:E;
      apply handle_message_frame in E as [_ Eq]; simpl in Eq.
    + intros Hrest Hin Hne. eapply IH; [exact Hrest | |].
      * rewrite Eq. unfold without_handle.
        rewrite list_elem_of_In, filter_In, <- list_elem_of_In.
        split; [exact Hin |]. apply negb_true_iff, String.eqb_neq.
        intros Heq. apply (Hne m); [now left | now symmetry].
      * intros x Hx. apply Hne. now right.
    + intros [= <- <-] Hin _. now rewrite Eq.
Qed.

End PollCounts.

Section PollTheorems.

Import Tasks.

Context `{services : Services}.

Lemma poll_failure_http (batch : result (list message)) (b b' : broker)
    (e : exn) :
  poll_sqs_messages batch b = (b', Raise e) → exn_cls e = HTTPException.
Proof.
  destruct batch as [msgs | x].
  - rewrite poll_unfold.
    destruct (handle_messages msgs 0 _) as [b1 [c | y]]; [discriminate |].
    now intros [= <- <-].
  - unfold poll_sqs_messages, try_except, receive_message, bind, lift,
      modify, raise. simpl. rewrite subclass_Exception. simpl.
    now intros [= <- <-].
Qed.

(** X19: the dict a poll returns counts what the poll did:
    [total_messages] is the size of the batch received, [messages] the
    batch itself, and [messages_processed] the number of task calls the
    poll handed to Celery. *)
Theorem poll_result_counts_tasks_enqueued (batch : list message)
    (b b' : broker) (res : poll_result) :
  poll_sqs_messages (Ok batch) b = (b', Ok res) →
  total_messages res = length batch
  ∧ messages res = batch
  ∧ length (enqueued b')
    = (length (enqueued b) + messages_processed res)%nat.
Proof.
  rewrite poll_unfold.
  destruct (handle_messages batch 0 _) as [b1 [c | e]] eqn:E;
    [| discriminate].
  apply handle_messages_enqueue in E as (more & Em & Hc). simpl in Em.
  intros [= <- <-]. simpl. rewrite Em, length_app, (Hc c eq_refl).
  repeat split; lia.
Qed.

(** X20: a poll that fails raises an HTTPException that carries the text
    of what went wrong, and nothing else; when it is the receive call
    that failed, the queue and the task calls are as they were. *)
Theorem poll_failure_is_http_exception (batch : result (list message))
    (b b' : broker) (e : exn) :
  poll_sqs_messages batch b = (b', Raise e) →
  exn_cls e = HTTPException
  ∧ (∀ x, batch = Raise x →
          exn_msg e = exn_msg x ∧ queue b' = queue b
          ∧ enqueued b' = enqueued b).
Proof.
  destruct batch as [msgs | x].
  - rewrite poll_unfold.
    destruct (handle_messages msgs 0 _) as [b1 [c | y]]; [discriminate |].
    intros [= <- <-]. split; [reflexivity | discriminate].
  - unfold poll_sqs_messages, try_except, receive_message, bind, lift,
      modify, raise. simpl. rewrite subclass_Exception. simpl.
    intros [= <- <-]. split; [reflexivity |]. intros y [= <-]. auto.
Qed.

(** X21: whatever becomes of a poll, it takes back no task call it or an
    earlier poll handed to Celery, and it leaves in the queue every
    message whose receipt handle is not that of a received message. *)
Theorem poll_keeps_tasks_and_unreceived_messages (batch : list message)
    (b : broker) :
  (∃ more,
     enqueued (poll_sqs_messages (Ok batch) b).1
     = (enqueued b ++ more)%list)
  ∧ (∀ m', m' ∈ queue b →
       (∀ m, m ∈ batch → ReceiptHandle m ≠ ReceiptHandle m') →
       m' ∈ queue (poll_sqs_messages (Ok batch) b).1).
Proof.
  rewrite poll_unfold.
  destruct (handle_messages batch 0 _) as [b1 res] eqn:E.
  pose proof (handle_messages_enqueue _ _ _ _ _ E) as (more & Em & _).
  simpl in Em. split.
  - exists more. now destruct res.
  - intros m' Hin Hne.
    pose proof (handle_messages_keep _ _ _ _ _ m' E Hin Hne) as Hk.
    now destruct res.
Qed.

(** The records of a notification that can be read, when Celery
    answers: one task call for each record of the storage service. *)
Lemma handle_readable_records (records : list json) :
  (∀ b bucket_name object_key, delay_raises b bucket_name object_key = None) →
  forallb readable records = true →
  ∀ (c : nat) (b : broker),
    handle_records records c b
    = (mk_broker (queue b) (enqueued b ++ calls_of records) (trace b),
       Ok (c + length (calls_of records))%nat).
Proof.
  intros Hdelay.
  induction records as [| r rs IH]; intros Hall c b; simpl.
  - rewrite app_nil_r, Nat.add_0_r. now destruct b.
  - simpl in Hall. apply andb_true_iff in Hall as [Hr Hrs].
    unfold readable in Hr. apply andb_true_iff in Hr as [Hg Hk].
    unfold bind at 1. unfold handle_record, bind, lift, ret.
    unfold from_s3 in *.
    destruct (get_method r "eventSource") as [source | e]; simpl in *;
      [| discriminate].
    destruct (is_str "aws:s3" source); simpl in *.
    + unfold bucket_and_key in *. unfold_result.
      destruct (match subscript r "s3" with
                | Ok a =>
                    match subscript a "bucket" with
                    | Ok a0 => subscript a0 "name"
                    | Raise e => Raise e
                    end
                | Raise e => Raise e
                end) as [bucket_name | e]; simpl in *; [| discriminate].
      destruct (match subscript r "s3" with
                | Ok a =>
                    match subscript a "object" with
                    | Ok a0 => subscript a0 "key"
                    | Raise e => Raise e
                    end
                | Raise e => Raise e
                end) as [object_key | e]; simpl in *; [| discriminate].
      unfold delay. rewrite Hdelay. simpl. rewrite (IH Hrs). simpl.
      rewrite <- app_assoc. simpl.
      replace (c + 1 + length (calls_of rs))%nat
        with (c + S (length (calls_of rs)))%nat by lia.
      reflexivity.
    + now rewrite (IH Hrs).
Qed.

Lemma calls_of_length (records : list json) :
  forallb readable records = true →
  length (calls_of records) = length (List.filter from_s3 records).
Proof.
  induction records as [| r rs IH]; simpl; [reflexivity |].
  intros Hall. apply andb_true_iff in Hall as [Hr Hrs].
  unfold readable in Hr. apply andb_true_iff in Hr as [_ Hk].
  destruct (from_s3 r); simpl in *; [| now apply IH].
  destruct (bucket_and_key r); simpl in *; [| discriminate].
  now rewrite IH.
Qed.

(** X22: a message whose body is a JSON object with a list of [Records]
    that can be read is handled, when Celery and the queue service
    answer, by handing to Celery one task call for each record of event
    source [aws:s3], with the bucket name and the object key of the
    record and in the order of the records, counting as many as there
    are such records, and deleting the message. *)
Theorem notification_dispatches_one_task_per_object (m : message)
    (body : json) (records : list json) (c : nat) (b : broker) :
  answers services →
  Body m = Ok body →
  contains body "Records" = Ok true →
  (rs ← subscript body "Records"; iterate rs) = Ok records →
  forallb readable records = true →
  handle_message m c b
  = (mk_broker (without_handle (ReceiptHandle m) (queue b))
       (enqueued b ++ calls_of records) (trace b),
     Ok (c + length (List.filter from_s3 records))%nat)
  ∧ length (calls_of records) = length (List.filter from_s3 records).
Proof.
  intros [Hdelay Hdelete] Hb Hc Hr Hall.
  split; [| now apply calls_of_length].
  rewrite handle_message_unfold. unfold bind, lift, delete_message, ret.
  rewrite Hb. simpl. rewrite Hc. simpl. rewrite Hr. simpl.
  rewrite (handle_readable_records records Hdelay Hall). simpl.
  rewrite Hdelete. simpl. now rewrite calls_of_length.
Qed.

(** X23: with a budget under five seconds, a negative one included, the
    repeated poll returns at once: no receive call, no sleep. *)
Theorem small_budget_polls_nothing (expiration_seconds : Z)
    (batches : nat → result (list message)) (b : broker) :
  (expiration_seconds < 5)%Z →
  poll_sqs_task expiration_seconds batches b = (b, Ok tt).
Proof.
  intros Hlt. unfold poll_sqs_task.
  assert (Hq : (expiration_seconds / 5 ≤ 0)%Z).
  { assert (expiration_seconds / 5 < 1)%Z
      by (apply Z.div_lt_upper_bound; lia). lia. }
  replace (Z.to_nat (expiration_seconds / 5)) with 0%nat by lia.
  reflexivity.
Qed.

Lemma poll_loop_raises (batches : nat → result (list message)) (n : nat) :
  ∀ (k : nat) (b b' : broker) (e : exn),
    poll_loop batches n k b = (b', Raise e) →
    exn_cls e = HTTPException
    ∧ ∃ j, (j < n)%nat
           ∧ trace b'
             = (trace b ++ rounds j ++ [receive_message_called])%list.
Proof.
  induction n as [| n IH]; intros k b b' e; simpl.
  - discriminate.
  - unfold bind at 1.
    destruct (poll_sqs_messages (batches k) b) as [b1 [r1 | x]] eqn:E.
    + apply poll_trace in E. unfold bind at 1, sleep at 1, modify. simpl.
      intros Hrest. apply IH in Hrest as (Hc & j & Hj & Ht). simpl in Ht.
      split; [exact Hc |]. exists (S j). split; [lia |].
      rewrite Ht, E. unfold rounds. simpl. now rewrite <- !app_assoc.
    + intros [= <- <-].
      pose proof (poll_trace _ _ _ _ E) as Ht.
      apply poll_failure_http in E.
      split; [exact E |]. exists 0%nat. split; [lia |].
      rewrite Ht. reflexivity.
Qed.

(** X24: the repeated poll stops at the first poll that fails.  The
    exception is the HTTPException of that poll; before it came a whole
    number of rounds, fewer than the budget allows, each a receive call
    and a sleep, and after its receive call nothing: no sleep, no further
    poll. *)
Theorem repeated_poll_stops_at_first_failure (expiration_seconds : Z)
    (batches : nat → result (list message)) (b b' : broker) (e : exn) :
  poll_sqs_task expiration_seconds batches b = (b', Raise e) →
  exn_cls e = HTTPException
  ∧ ∃ j, (Z.of_nat j < expiration_seconds / 5)%Z
         ∧ trace b'
           = (trace b ++ rounds j ++ [receive_message_called])%list.
Proof.
  unfold poll_sqs_task. intros Hrun.
  apply poll_loop_raises in Hrun as (Hc & j & Hj & Ht).
  split; [exact Hc |]. exists j. split; [lia | exact Ht].
Qed.

End PollTheorems.

(** A poll that receives the test event and one notification. *)
Lemma poll_result_counts_tasks_enqueued_witness :
  Tasks.total_messages
    (Tasks.mk_poll_result 1 2 [test_event; upload_event])
  = length [test_event; upload_event]
  ∧ Tasks.messages (Tasks.mk_poll_result 1 2 [test_event; upload_event])
    = [test_event; upload_event]
  ∧ length (Tasks.enqueued
              (@Tasks.poll_sqs_messages reliable
                 (Ok [test_event; upload_event]) Polls.three_waiting).1)
    = (length (Tasks.enqueued Polls.three_waiting)
       + Tasks.messages_processed
           (Tasks.mk_poll_result 1 2 [test_event; upload_event]))%nat.
Proof.
  apply (@poll_result_counts_tasks_enqueued reliable
           [test_event; upload_event] Polls.three_waiting).
  vm_compute. reflexivity.
Defined.

(** A poll whose receive call fails. *)
Lemma poll_failure_is_http_exception_witness :
  exn_cls
    (mk_exn HTTPException "AWS.SimpleQueueService.NonExistentQueue")
  = HTTPException
  ∧ (∀ x, Polls.queue_down = Raise x →
          exn_msg
            (mk_exn HTTPException "AWS.SimpleQueueService.NonExistentQueue")
          = exn_msg x
          ∧ Tasks.queue
              (@Tasks.poll_sqs_messages reliable Polls.queue_down
                 Polls.three_waiting).1
            = Tasks.queue Polls.three_waiting
          ∧ Tasks.enqueued
              (@Tasks.poll_sqs_messages reliable Polls.queue_down
                 Polls.three_waiting).1
            = Tasks.enqueued Polls.three_waiting).
Proof.
  apply (@poll_failure_is_http_exception reliable Polls.queue_down
           Polls.three_waiting).
  vm_compute. reflexivity.
Defined.

(** The notification of two created objects with, between their records,
    a record of another source: two task calls, the message deleted. *)
Lemma notification_dispatches_one_task_per_object_witness :
  @Tasks.handle_message reliable two_objects 0
    (Tasks.mk_broker [two_objects; test_event] [] [])
  = (Tasks.mk_broker [test_event]
       [(Tasks.JStr "uploads", Tasks.JStr "u1/raw/export.xml");
        (Tasks.JStr "uploads", Tasks.JStr "u2/raw/export.xml")] [],
     Ok 2%nat).
Proof.
  refine (proj1 (@notification_dispatches_one_task_per_object reliable
                   two_objects
                   (default Tasks.JNull
                      (match Tasks.Body two_objects with
                       | Ok body => Some body
                       | Raise _ => None
                       end))
                   (default []
                      (match Tasks.Body two_objects with
                       | Ok (Tasks.JObj [(_, Tasks.JArr records)]) =>
                           Some records
                       | _ => None
                       end))
                   0%nat (Tasks.mk_broker [two_objects; test_event] [] [])
                   _ _ _ _ _));
    try reflexivity.
  split; reflexivity.
Defined.

(** A budget of four seconds: nothing is received. *)
Lemma small_budget_polls_nothing_witness :
  @Tasks.poll_sqs_task reliable 4 (fun _ => Ok [upload_event])
    (Tasks.mk_broker [upload_event] [] [])
  = (Tasks.mk_broker [upload_event] [] [], Ok tt).
Proof. apply (@small_budget_polls_nothing reliable). lia. Defined.

(** A budget of 17 seconds whose second poll fails: one round, then the
    receive call of the second poll. *)
Lemma repeated_poll_stops_at_first_failure_witness :
  exn_cls (mk_exn HTTPException "Expecting value") = HTTPException
  ∧ ∃ j, (Z.of_nat j < 17 / 5)%Z
         ∧ Tasks.trace
             (@Tasks.poll_sqs_task reliable 17 Polls.second_poll_fails
                idle).1
           = (Tasks.trace idle ++ rounds j
              ++ [Tasks.receive_message_called])%list.
Proof.
  apply (@repeated_poll_stops_at_first_failure reliable 17
           Polls.second_poll_fails idle).
  vm_compute. reflexivity.
Defined.

(** ** The task the consumer dispatches *)

Section Dispatched.

Import DuckTask.

(** X25: the dispatched task returns a dict exactly when the object was
    fetched, the export went through and the upload went through; it then
    answers [processed] with the key it uploaded to, the bucket holds the
    new object, and the database file is removed. *)
Theorem dispatched_task_returns_when_every_step_succeeds
    (env : environment) (bucket_name object_key : string) (w : world) :
  (is_ok (process_uploaded_file env bucket_name object_key w).2 = true
   ↔ get_object env = None ∧ export_xml env = io_ok ∧ upload env = None)
  ∧ (∀ t,
       (process_uploaded_file env bucket_name object_key w).2 = Ok t →
       status t = "processed"
       ∧ new_filename t
         = first_segment "/" object_key +:+ "/processed/"
           +:+ replace ".xml" ".duckdb" (last_segment "/" object_key)
       ∧ objects (process_uploaded_file env bucket_name object_key w).1
         = (objects w ++ [(bucket_name, new_filename t)])%list
       ∧ files (process_uploaded_file env bucket_name object_key w).1
         = files w ∖ {[db_file env]}).
Proof.
  unfold process_uploaded_file, bind, s3_get_object, try_bare,
    importer_export_xml, os_remove, s3_upload_file, ret, raise.
  destruct (get_object env) as [e |]; simpl.
  { split; [split; [discriminate | intros (? & _); discriminate]
           | discriminate]. }
  destruct (export_xml env) as [| e left]; simpl.
  - rewrite bool_decide_eq_true_2 by set_solver.
    destruct (upload env) as [e |]; simpl.
    + split; [split; [discriminate | intros (_ & _ & ?); discriminate]
             | discriminate].
    + rewrite bool_decide_eq_true_2 by set_solver. simpl.
      split; [split; auto |]. intros t [= <-]. simpl.
      repeat split. apply set_eq. intros p. set_solver.
  - split.
    + split; [| intros (_ & ? & _); discriminate].
      destruct left; simpl;
        repeat (case_bool_decide; simpl); try discriminate;
        try (exfalso; set_solver).
    + intros t. destruct left; simpl;
        repeat (case_bool_decide; simpl); try discriminate;
        try (exfalso; set_solver).
Qed.

(** X26: when the export fails, the task ends in the error of a missing
    file, whether the export left a file behind or not: the handler
    removes the database file, or finds none to remove, and the upload
    that follows has nothing to send.  The exception of the export is
    lost, nothing is uploaded, and no database file is left. *)
Theorem dispatched_task_failed_export_ends_in_missing_file
    (env : environment) (bucket_name object_key : string) (w : world)
    (e : exn) (file_left : bool) :
  get_object env = None → export_xml env = io_failed e file_left →
  (process_uploaded_file env bucket_name object_key w).2
  = Raise (no_such_file (db_file env))
  ∧ objects (process_uploaded_file env bucket_name object_key w).1
    = objects w
  ∧ db_file env ∉ files (process_uploaded_file env bucket_name object_key w).1.
Proof.
  intros Hg He.
  unfold process_uploaded_file, bind, s3_get_object, try_bare,
    importer_export_xml, os_remove, s3_upload_file, ret, raise.
  rewrite Hg, He. simpl.
  destruct file_left; simpl;
    repeat (case_bool_decide; simpl);
    repeat split; try reflexivity; try set_solver.
Qed.

(** X27: when the upload fails after a successful export, the task
    raises the exception of the upload and the database file stays on
    disk: nothing removes it. *)
Theorem dispatched_task_leaves_file_when_upload_fails
    (env : environment) (bucket_name object_key : string) (w : world)
    (e : exn) :
  get_object env = None → export_xml env = io_ok → upload env = Some e →
  (process_uploaded_file env bucket_name object_key w).2 = Raise e
  ∧ db_file env ∈ files (process_uploaded_file env bucket_name object_key w).1
  ∧ objects (process_uploaded_file env bucket_name object_key w).1
    = objects w.
Proof.
  intros Hg He Hu.
  unfold process_uploaded_file, bind, s3_get_object, try_bare,
    importer_export_xml, os_remove, s3_upload_file, ret, raise.
  rewrite Hg, He. simpl. rewrite bool_decide_eq_true_2 by set_solver.
  rewrite Hu. simpl. repeat split. set_solver.
Qed.

End Dispatched.

(** An export that fails and leaves a partial file. *)
Lemma dispatched_task_failed_export_ends_in_missing_file_witness :
  (DuckTask.process_uploaded_file Requests.export_breaks "uploads"
     Runs.object_key RunsOf.other_file).2
  = Raise (DuckTask.no_such_file (DuckTask.db_file Requests.export_breaks))
  ∧ objects (DuckTask.process_uploaded_file Requests.export_breaks
               "uploads" Runs.object_key RunsOf.other_file).1
    = objects RunsOf.other_file
  ∧ DuckTask.db_file Requests.export_breaks
    ∉ files (DuckTask.process_uploaded_file Requests.export_breaks
               "uploads" Runs.object_key RunsOf.other_file).1.
Proof.
  apply (dispatched_task_failed_export_ends_in_missing_file
           Requests.export_breaks "uploads" Runs.object_key
           RunsOf.other_file
           (mk_exn Exception "not well-formed (invalid token)") true);
    reflexivity.
Defined.

(** An upload that is refused. *)
Lemma dispatched_task_leaves_file_when_upload_fails_witness :
  (DuckTask.process_uploaded_file Requests.upload_breaks "uploads"
     Runs.object_key RunsOf.other_file).2
  = Raise (mk_exn ClientError "AccessDenied")
  ∧ DuckTask.db_file Requests.upload_breaks
    ∈ files (DuckTask.process_uploaded_file Requests.upload_breaks
               "uploads" Runs.object_key RunsOf.other_file).1
  ∧ objects (DuckTask.process_uploaded_file Requests.upload_breaks
               "uploads" Runs.object_key RunsOf.other_file).1
    = objects RunsOf.other_file.
Proof.
  apply (dispatched_task_leaves_file_when_upload_fails
           Requests.upload_breaks "uploads" Runs.object_key
           RunsOf.other_file (mk_exn ClientError "AccessDenied"));
    reflexivity.
Defined.

(** ** The presigned upload *)

Section Presigned.

Import XmlImport.

(** X28: a response with an upload URL is returned exactly when the
    bucket check, the signing, the call that schedules the repeated poll
    and the construction of the response all succeed; the response then
    carries the generated key, the lifetime of the URL and the
    configured bucket.  One repeated poll, with the lifetime of the URL
    as its budget, is scheduled exactly when the first three succeed,
    and so also when the response cannot be built after it and the
    caller gets an exception; otherwise none is. *)
Theorem presigned_url_schedules_one_poll (bucket_name : string)
    (s3 : s3_answers) (request : PresignedURLRequest)
    (scheduled : list Z) :
  (is_ok (create_presigned_upload_url bucket_name s3 request scheduled).2
   = true
   ↔ head_bucket s3 = None ∧ is_ok (generate_presigned_post s3) = true
     ∧ delay_raises s3 = None ∧ response_raises s3 = None)
  ∧ (∀ resp,
       (create_presigned_upload_url bucket_name s3 request scheduled).2
       = Ok resp →
       expires_in resp = req_expiration_seconds request
       ∧ file_key resp
         = generate_file_key (req_user_id request) (req_filename request)
             (now s3)
       ∧ response_bucket resp = bucket_name)
  ∧ (create_presigned_upload_url bucket_name s3 request scheduled).1
    = (if bool_decide (head_bucket s3 = None)
          && is_ok (generate_presigned_post s3)
          && bool_decide (delay_raises s3 = None)
       then (scheduled ++ [req_expiration_seconds request])%list
       else scheduled).
Proof.
  unfold create_presigned_upload_url, try_except_except, bind, lift,
    delay_poll, make_response, modify, ret, raise, validate_bucket_exists.
  destruct (head_bucket s3) as [x |]; simpl.
  - destruct (subclass (exn_cls x) ClientError || false); simpl;
      repeat match goal with
             | |- context [if ?c then _ else _] => destruct c; simpl
             end;
      (split; [split; [discriminate | intros [? _]; discriminate] |]);
      (split; [discriminate | reflexivity]).
  - destruct (generate_presigned_post s3) as [p | x]; simpl.
    + destruct (delay_raises s3) as [x |]; simpl.
      * destruct (subclass (exn_cls x) ClientError || false); simpl;
          rewrite ?subclass_Exception; simpl;
          (split; [split; [discriminate
                          | intros (_ & _ & ? & _); discriminate] |]);
          (split; [discriminate | reflexivity]).
      * destruct (response_raises s3) as [x |]; simpl.
        -- destruct (subclass (exn_cls x) ClientError || false); simpl;
             rewrite ?subclass_Exception; simpl;
             (split; [split; [discriminate
                             | intros (_ & _ & _ & ?); discriminate] |]);
             (split; [discriminate | reflexivity]).
        -- split; [split; auto |]. split; [| reflexivity].
           intros resp [= <-]. simpl. auto.
    + destruct (subclass (exn_cls x) ClientError || false); simpl;
        rewrite ?subclass_Exception; simpl;
        (split; [split; [discriminate
                        | intros (_ & ? & _); discriminate] |]);
        (split; [discriminate | reflexivity]).
Qed.

(** X29: how the route fails.  A [ClientError] of the bucket check or of
    the signing, and any other exception of the signing, reach the caller
    as an HTTPException; an exception of the bucket check that is not a
    [ClientError] reaches the caller as it is. *)
Theorem presigned_url_failures (bucket_name : string) (s3 : s3_answers)
    (request : PresignedURLRequest) (scheduled : list Z) (e : exn) :
  (create_presigned_upload_url bucket_name s3 request scheduled).2
  = Raise e →
  exn_cls e = HTTPException
  ∨ (head_bucket s3 = Some e ∧ caught_by [ClientError] e = false).
Proof.
  unfold create_presigned_upload_url, try_except_except, bind, lift,
    delay_poll, make_response, modify, ret, raise, validate_bucket_exists.
  destruct (head_bucket s3) as [x |]; simpl.
  - unfold caught_by. simpl.
    destruct (subclass (exn_cls x) ClientError || false) eqn:E; simpl.
    + repeat match goal with
             | |- context [if ?c then _ else _] => destruct c; simpl
             end; intros [= <-]; now left.
    + intros [= <-]. right. now rewrite E.
  - destruct (generate_presigned_post s3) as [p | x]; simpl.
    + destruct (delay_raises s3) as [x |]; simpl;
        [| destruct (response_raises s3) as [x |]; simpl;
           [| discriminate]];
        destruct (subclass (exn_cls x) ClientError || false); simpl;
        rewrite ?subclass_Exception; simpl; intros [= <-]; now left.
    + destruct (subclass (exn_cls x) ClientError || false); simpl;
        rewrite ?subclass_Exception; simpl; intros [= <-]; now left.
Qed.

End Presigned.

(** Signing is refused with a [ClientError]. *)
Lemma presigned_url_failures_witness :
  exn_cls
    (mk_exn HTTPException "Failed to generate presigned URL: AccessDenied")
  = HTTPException
  ∨ (XmlImport.head_bucket Requests.signing_refused
     = Some (mk_exn HTTPException
               "Failed to generate presigned URL: AccessDenied")
     ∧ caught_by [ClientError]
         (mk_exn HTTPException
            "Failed to generate presigned URL: AccessDenied") = false).
Proof.
  apply (presigned_url_failures "uploads" Requests.signing_refused
           Requests.one_minute []).
  vm_compute. reflexivity.
Defined.

(** ** What the task of process_uploaded_task.py leaves behind *)

(** X4: no run of [process_uploaded_xml_file] reaches the dump or the
    upload.  The bucket is after the run what it was before it, the
    temporary directory holds no file it did not hold before, and the
    dict the run returns has no output key and no message: it says
    [failed], with the text of the failed download or, when the download
    went through, of the [NameError] raised by the call of the import. *)
Theorem uploaded_task_never_reaches_dump_or_upload (env : environment)
    (bucket_name key : string) (user_id : option string) (w : world) :
  objects (UploadedTask.process_uploaded_xml_file env bucket_name key
             user_id w).1
  = objects w
  ∧ (∀ p, p ∈ files (UploadedTask.process_uploaded_xml_file env
                       bucket_name key user_id w).1 →
          p ∈ files w)
  ∧ (UploadedTask.process_uploaded_xml_file env bucket_name key
       user_id w).2
    = Ok (mk_result bucket_name key None (derived_user_id user_id key)
            "failed" None
            (Some (exn_msg match download env with
                           | io_ok => unbound_service
                           | io_failed e _ => e
                           end))).
Proof.
  destruct (run_ends env bucket_name key user_id w) as (fr & e & Hb & ->).
  rewrite body_ends in Hb. simpl.
  assert (Ht : temp_xml_file fr = Some (Runs.temp_path env key))
    by (destruct (download env); injection Hb as <- _; reflexivity).
  assert (Hf : ∀ p, p ∈ files (world_of fr) →
                    p = Runs.temp_path env key ∨ p ∈ files w).
  { destruct (download env) as [| x left]; injection Hb as <- _; simpl;
      [| destruct left]; set_solver. }
  assert (Ho : objects (world_of fr) = objects w).
  { destruct (download env) as [| x left]; injection Hb as <- _;
      [| destruct left]; reflexivity. }
  assert (He : e = match download env with
                   | io_ok => unbound_service
                   | io_failed x _ => x
                   end)
    by (destruct (download env); injection Hb as _ <-; reflexivity).
  split; [exact Ho |]. split.
  - intros p Hp. pose proof Hp as Hq. apply cleanup_subset, Hf in Hq.
    destruct Hq as [-> | Hw]; [| exact Hw].
    exfalso. revert Hp.
    apply cleanup_removes; [apply path_join_truthy | now left].
  - now rewrite He.
Qed.
